(** * WeatherCollector: station selection, observation parsing, daily
      weighted aggregation and the tabular export, embedded from
      [station.py], [record.py] and [csvtable.py].

    Numbers: Python floats are idealised as exact rationals ([Q]); the
    arithmetic is written in the order the source performs it.  Python
    dictionaries with string keys are [gmap string _].  Exceptions are
    carried by the [result] type. *)

From Stdlib Require Import QArith Qminmax Qabs Qround ZArith NArith Lia Lqa.
From Stdlib Require Import Ascii String.
From stdpp Require Import gmap strings list fin_maps sorting.

Open Scope Q_scope.

(* ================================================================== *)
(** ** Exceptions *)

Inductive exn : Type :=
  | ValueError
  | IndexError
  | AttributeError
  | OverflowError
  | UnboundLocalError
  | KeyError
  | Exception (msg : string).

Inductive result (A : Type) : Type :=
  | Ok (a : A)
  | Raise (e : exn).
Arguments Ok {A} a.
Arguments Raise {A} e.

Definition bind {A B} (r : result A) (k : A -> result B) : result B :=
  match r with
  | Ok a => k a
  | Raise e => Raise e
  end.

Notation "'let!' x ':=' r 'in' k" := (bind r (fun x => k))
  (at level 10, x pattern, k at level 200).

Definition of_option {A} (e : exn) (o : option A) : result A :=
  match o with
  | Some a => Ok a
  | None => Raise e
  end.

Definition from_ok {A} (d : A) (r : result A) : A :=
  match r with
  | Ok a => a
  | Raise _ => d
  end.

Definition raises {A} (r : result A) : bool :=
  match r with
  | Ok _ => false
  | Raise _ => true
  end.

(** [mapM f l]: run [f] on the elements from left to right, stopping at the
    first exception. *)
Fixpoint mapM {A B} (f : A -> result B) (l : list A) : result (list B) :=
  match l with
  | [] => Ok []
  | a :: l' => let! b := f a in let! bs := mapM f l' in Ok (b :: bs)
  end.

(* ================================================================== *)
(** ** Python [str] operations used by the sources *)

Module Text.

Definition nl : ascii := "010"%char.
Definition cr : ascii := "013"%char.
Definition space : ascii := " "%char.

(** [str.isspace] on the ASCII range: TAB..CR, FS..US and the blank. *)
Definition is_space (c : ascii) : bool :=
  let n := nat_of_ascii c in
  ((9 <=? n)%nat && (n <=? 13)%nat) || ((28 <=? n)%nat && (n <=? 32)%nat).

Definition is_digit (c : ascii) : bool :=
  let n := nat_of_ascii c in (48 <=? n)%nat && (n <=? 57)%nat.

Definition digit_val (c : ascii) : N := N.of_nat (nat_of_ascii c - 48).

Definition digit_char (d : N) : ascii := ascii_of_nat (48 + N.to_nat d).

Definition is_empty (s : string) : bool :=
  match s with EmptyString => true | _ => false end.

(** [s[i:j]] for [0 <= i]; out-of-range bounds are clipped. *)
Definition slice (i j : nat) (s : string) : string :=
  String.substring i (j - i) s.

(** [s[i]] *)
Definition index (i : nat) (s : string) : result ascii :=
  of_option IndexError (String.get i s).

Fixpoint map_chars (f : ascii -> ascii) (s : string) : string :=
  match s with
  | EmptyString => EmptyString
  | String c s' => String (f c) (map_chars f s')
  end.

Definition lower_char (c : ascii) : ascii :=
  let n := nat_of_ascii c in
  if (65 <=? n)%nat && (n <=? 90)%nat then ascii_of_nat (n + 32) else c.

Definition upper_char (c : ascii) : ascii :=
  let n := nat_of_ascii c in
  if (97 <=? n)%nat && (n <=? 122)%nat then ascii_of_nat (n - 32) else c.

(** [s.lower()], [s.upper()] (ASCII letters) *)
Definition lower : string -> string := map_chars lower_char.
Definition upper : string -> string := map_chars upper_char.

Fixpoint repeat_char (c : ascii) (n : nat) : string :=
  match n with
  | O => EmptyString
  | S n' => String c (repeat_char c n')
  end.

(** [s.ljust(width)] *)
Definition ljust (width : nat) (s : string) : string :=
  s +:+ repeat_char space (width - String.length s).

(** [s.rstrip()] *)
Fixpoint rstrip (s : string) : string :=
  match s with
  | EmptyString => EmptyString
  | String c s' =>
      let r := rstrip s' in
      if is_empty r && is_space c then EmptyString else String c r
  end.

Fixpoint lstrip (s : string) : string :=
  match s with
  | EmptyString => EmptyString
  | String c s' => if is_space c then lstrip s' else s
  end.

(** [s.strip()] *)
Definition strip (s : string) : string := rstrip (lstrip s).

(** [s.replace(c, "")] for a one-character pattern *)
Fixpoint remove_char (c : ascii) (s : string) : string :=
  match s with
  | EmptyString => EmptyString
  | String x s' =>
      if Ascii.eqb x c then remove_char c s' else String x (remove_char c s')
  end.

(** [s.replace(c, t)] for a one-character pattern *)
Fixpoint replace_char (c : ascii) (t : string) (s : string) : string :=
  match s with
  | EmptyString => EmptyString
  | String x s' =>
      if Ascii.eqb x c then t +:+ replace_char c t s'
      else String x (replace_char c t s')
  end.

(** [s.split(c)] for a one-character separator: never empty. *)
Fixpoint split (c : ascii) (s : string) : list string :=
  match s with
  | EmptyString => [EmptyString]
  | String x s' =>
      if Ascii.eqb x c then EmptyString :: split c s'
      else match split c s' with
           | p :: ps => String x p :: ps
           | [] => [String x EmptyString]
           end
  end.

Fixpoint concat (l : list string) : string :=
  match l with
  | [] => EmptyString
  | s :: l' => s +:+ concat l'
  end.

(** Reading a text file opened with the default [newline=None]: the
    terminators CR LF and CR are translated to LF. *)
Fixpoint universal_newlines (s : string) : string :=
  match s with
  | EmptyString => EmptyString
  | String c s' =>
      if Ascii.eqb c cr then
        match s' with
        | String c' _ =>
            if Ascii.eqb c' nl then universal_newlines s'
            else String nl (universal_newlines s')
        | EmptyString => String nl EmptyString
        end
      else String c (universal_newlines s')
  end.

(** The lines of a text, each with its terminator, as iteration over a
    file object yields them. *)
Fixpoint lines_keepends (s : string) : list string :=
  match s with
  | EmptyString => []
  | String c s' =>
      if Ascii.eqb c nl then String c EmptyString :: lines_keepends s'
      else match lines_keepends s' with
           | l :: ls => String c l :: ls
           | [] => [String c EmptyString]
           end
  end.

Definition file_lines (content : string) : list string :=
  lines_keepends (universal_newlines content).

End Text.

(* ================================================================== *)
(** ** Decimal text: [str(int)], ["%.nf" % x], [float(s)], [int(s)] *)

Module Decimal.
Import Text.

(** The [k] low decimal digits of [n], most significant first. *)
Fixpoint digits_fixed (k : nat) (n : N) : string :=
  match k with
  | O => EmptyString
  | S k' => digits_fixed k' (n / 10) +:+ String (digit_char (n mod 10)) EmptyString
  end.

(** Number of decimal digits of [n] (1 for 0). *)
Fixpoint num_digits_aux (fuel : nat) (n : N) : nat :=
  match fuel with
  | O => 1
  | S f => if (n <? 10)%N then 1%nat else S (num_digits_aux f (n / 10))
  end.

Definition num_digits (n : N) : nat := num_digits_aux (N.to_nat (N.size n)) n.

(** [str(n)] for a natural number *)
Definition str_N (n : N) : string := digits_fixed (num_digits n) n.

(** [str(z)], ["%d" % z] *)
Definition str_Z (z : Z) : string :=
  if (z <? 0)%Z then String "-" (str_N (Z.abs_N z)) else str_N (Z.abs_N z).

(** Value of a string of decimal digits, [None] when another character
    occurs. *)
Fixpoint digits_value (acc : N) (s : string) : option N :=
  match s with
  | EmptyString => Some acc
  | String c s' =>
      if is_digit c then digits_value (acc * 10 + digit_val c) s' else None
  end.

(** Rounding of a non-negative rational to the nearest integer, ties to
    even. *)
Definition round_half_even (q : Q) : Z :=
  let n := Qnum q in
  let d := Zpos (Qden q) in
  let fl := (n / d)%Z in
  let r2 := (2 * (n mod d))%Z in
  if (r2 <? d)%Z then fl
  else if (d <? r2)%Z then (fl + 1)%Z
  else if Z.even fl then fl else (fl + 1)%Z.

Definition scale10 (k : nat) : positive :=
  match k with O => 1%positive | S _ => Pos.pow 10 (Pos.of_nat k) end.

(** [x] in units of [10^-prec], rounded: the digits ["%.<prec>f"] prints. *)
Definition scaled (prec : nat) (x : Q) : N :=
  Z.to_N (round_half_even (Qabs x * inject_Z (Zpos (scale10 prec)))).

(** ["%.<prec>f" % x] for [prec > 0] *)
Definition format_f (prec : nat) (x : Q) : string :=
  let m := scaled prec x in
  let p := Npos (scale10 prec) in
  (if Qlt_le_dec x 0 then "-" else "") +:+
  str_N (m / p) +:+ "." +:+ digits_fixed prec (m mod p).

(** What ["%.<prec>f" % x] denotes. *)
Definition round_to (prec : nat) (x : Q) : Q :=
  Qmake (if Qlt_le_dec x 0 then - Z.of_N (scaled prec x)
         else Z.of_N (scaled prec x))
        (scale10 prec).

(** An optional sign in front of a literal. *)
Definition split_sign (t : string) : bool * string :=
  match t with
  | String "-" r => (true, r)
  | String "+" r => (false, r)
  | _ => (false, t)
  end.

(** [float(s)] on plain decimal literals: optional surrounding white
    space, optional sign, digits with an optional fractional part.
    (Exponents, underscores, [inf] and [nan] are outside the model.) *)
Definition float (s : string) : result Q :=
  let '(neg, body) := split_sign (strip s) in
  match split "." body with
  | [ip] =>
      if is_empty ip then Raise ValueError
      else
        let! m := of_option ValueError (digits_value 0 ip) in
        Ok (Qmake (if neg then - Z.of_N m else Z.of_N m) 1)
  | [ip; fp] =>
      if is_empty ip && is_empty fp then Raise ValueError
      else
        let! m := of_option ValueError (digits_value 0 (ip +:+ fp)) in
        Ok (Qmake (if neg then - Z.of_N m else Z.of_N m)
                  (scale10 (String.length fp)))
  | _ => Raise ValueError
  end.

(** [int(s)] on plain decimal literals. *)
Definition int (s : string) : result Z :=
  let '(neg, body) := split_sign (strip s) in
  if is_empty body then Raise ValueError
  else
    let! m := of_option ValueError (digits_value 0 body) in
    Ok (if neg then - Z.of_N m else Z.of_N m)%Z.

End Decimal.

(* ================================================================== *)
(** ** [datetime.date]

    A date is its proleptic Gregorian ordinal (day 1 is 0001-01-01), the
    representation on which CPython defines [date + timedelta] and the
    comparisons; year, month and day are recovered as [_ord2ymd] does. *)

Module Datetime.
Import Text Decimal.
Local Open Scope Z_scope.

Definition date : Type := Z.

Definition MAXORDINAL : Z := 3652059.   (* date(9999, 12, 31).toordinal() *)

Definition valid_date (d : date) : Prop := 1 <= d <= MAXORDINAL.

Definition is_leap (y : Z) : bool :=
  (y mod 4 =? 0) && (negb (y mod 100 =? 0) || (y mod 400 =? 0)).

Definition days_before_year (y : Z) : Z :=
  let y1 := y - 1 in y1 * 365 + y1 / 4 - y1 / 100 + y1 / 400.

Definition DAYS_IN_MONTH (m : Z) : Z :=
  match m with
  | 1 => 31 | 2 => 28 | 3 => 31 | 4 => 30 | 5 => 31 | 6 => 30
  | 7 => 31 | 8 => 31 | 9 => 30 | 10 => 31 | 11 => 30 | 12 => 31
  | _ => 0
  end.

Definition DAYS_BEFORE_MONTH (m : Z) : Z :=
  match m with
  | 1 => 0 | 2 => 31 | 3 => 59 | 4 => 90 | 5 => 120 | 6 => 151
  | 7 => 181 | 8 => 212 | 9 => 243 | 10 => 273 | 11 => 304 | 12 => 334
  | _ => 0
  end.

Definition days_in_month (y m : Z) : Z :=
  if (m =? 2) && is_leap y then 29 else DAYS_IN_MONTH m.

Definition days_before_month (y m : Z) : Z :=
  DAYS_BEFORE_MONTH m + (if (2 <? m) && is_leap y then 1 else 0).

Definition ymd2ord (y m d : Z) : Z :=
  days_before_year y + days_before_month y m + d.

Definition ord2ymd (n0 : Z) : Z * Z * Z :=
  let n := n0 - 1 in
  let n400 := n / 146097 in
  let n := n mod 146097 in
  let n100 := n / 36524 in
  let n := n mod 36524 in
  let n4 := n / 1461 in
  let n := n mod 1461 in
  let n1 := n / 365 in
  let n := n mod 365 in
  let year := n400 * 400 + 1 + n100 * 100 + n4 * 4 + n1 in
  if (n1 =? 4) || (n100 =? 4) then (year - 1, 12, 31)
  else
    let leapyear := (n1 =? 3) && (negb (n4 =? 24) || (n100 =? 3)) in
    let month := Z.shiftr (n + 50) 5 in
    let preceding :=
      DAYS_BEFORE_MONTH month + (if (2 <? month) && leapyear then 1 else 0) in
    if n <? preceding then
      let month' := month - 1 in
      let preceding' :=
        preceding -
        (DAYS_IN_MONTH month' + (if (month' =? 2) && leapyear then 1 else 0)) in
      (year, month', n - preceding' + 1)
    else (year, month, n - preceding + 1).

(** [d.year] *)
Definition year (d : date) : Z := fst (fst (ord2ymd d)).
Definition month (d : date) : Z := snd (fst (ord2ymd d)).
Definition day (d : date) : Z := snd (ord2ymd d).

(** [date(y, m, d)], with the constructor's range checks *)
Definition make_date (y m d : Z) : result date :=
  if (1 <=? y) && (y <=? 9999) && (1 <=? m) && (m <=? 12)
     && (1 <=? d) && (d <=? days_in_month y m)
  then Ok (ymd2ord y m d) else Raise ValueError.

(** [d + timedelta(days=n)] *)
Definition add_days (d : date) (n : Z) : result date :=
  let o := d + n in
  if (0 <? o) && (o <=? MAXORDINAL) then Ok o else Raise OverflowError.

(** [a <= b], [a < b] on dates *)
Definition le (a b : date) : bool := a <=? b.
Definition lt (a b : date) : bool := a <? b.

(** [d.strftime("%Y%m%d")], for the years from 1000 on (for an earlier
    year the C library decides whether the year is padded to four
    digits; the statements on written dates are made from 1000 on). *)
Definition strftime_Ymd (d : date) : string :=
  digits_fixed 4 (Z.to_N (year d)) +:+ digits_fixed 2 (Z.to_N (month d))
    +:+ digits_fixed 2 (Z.to_N (day d)).

(** [d.strftime("%d/%m/%Y")] *)
Definition strftime_dmY (d : date) : string :=
  digits_fixed 2 (Z.to_N (day d)) +:+ "/" +:+ digits_fixed 2 (Z.to_N (month d))
    +:+ "/" +:+ digits_fixed 4 (Z.to_N (year d)).

(** [datetime.strptime(s, "%Y%m%d").date()] on the eight-digit form
    that [strftime_Ymd] produces; other texts are rejected here (the
    library also accepts one-digit months and days). *)
Definition strptime_Ymd (s : string) : result date :=
  if negb (String.length s =? 8)%nat then Raise ValueError
  else
    let! y := of_option ValueError (digits_value 0 (slice 0 4 s)) in
    let! m := of_option ValueError (digits_value 0 (slice 4 6 s)) in
    let! d := of_option ValueError (digits_value 0 (slice 6 8 s)) in
    make_date (Z.of_N y) (Z.of_N m) (Z.of_N d).

End Datetime.

(* ================================================================== *)
(** ** Python values and dictionaries *)

(** The values stored in a daily record: a float or a boolean; [None]
    is the [option]. *)
Inductive pyval : Type :=
  | PFloat (x : Q)
  | PBool (b : bool).

(** The number a value stands for in arithmetic ([True] is 1). *)
Definition num (v : pyval) : Q :=
  match v with
  | PFloat x => x
  | PBool b => if b then 1 else 0
  end.

(** Truth value of a stored value. *)
Definition truthy (v : option pyval) : bool :=
  match v with
  | Some (PBool b) => b
  | Some (PFloat x) => negb (Qeq_bool x 0)
  | None => false
  end.

(** [dict(pairs)]: the pairs are inserted in order, a later key replaces
    an earlier one. *)
Definition py_dict {V} (pairs : list (string * V)) : gmap string V :=
  foldl (fun m kv => <[kv.1 := kv.2]> m) ∅ pairs.

(** [l[:k]] *)
Definition py_take {A} (k : Z) (l : list A) : list A :=
  if (k <? 0)%Z then take (Z.to_nat (Z.of_nat (length l) + k)) l
  else take (Z.to_nat k) l.

(** [max(l, key=key)]: the first element with the largest key. *)
Fixpoint max_by {A} (key : A -> Q) (best : A) (l : list A) : A :=
  match l with
  | [] => best
  | x :: l' => max_by key (if Qlt_le_dec (key best) (key x) then x else best) l'
  end.

Definition py_max {A} (key : A -> Q) (l : list A) : result A :=
  match l with
  | [] => Raise ValueError
  | x :: l' => Ok (max_by key x l')
  end.

(** [l.sort(key=key)]: a stable sort. *)
Fixpoint insert_by {A} (key : A -> Q) (x : A) (l : list A) : list A :=
  match l with
  | [] => [x]
  | y :: l' =>
      if Qle_bool (key x) (key y) then x :: y :: l'
      else y :: insert_by key x l'
  end.

Definition sort_by {A} (key : A -> Q) (l : list A) : list A :=
  foldr (insert_by key) [] l.

(* ================================================================== *)
(** ** station.py *)

(** A daily record: attribute name to value. *)
Abbreviation datum := (gmap string (option pyval)).
(** A station-year of observations: date key (YYYYMMDD) to daily record. *)
Abbreviation observations := (gmap string (gmap string (option pyval))).

(** [shapely.geometry.Point] *)
Record Point : Type := mkPoint { px : Q; py : Q }.

(** The numpy operations of [Station.distance], on rationals. *)
Record NumPy : Type := {
  np_sin : Q -> Q;
  np_cos : Q -> Q;
  np_deg2rad : Q -> Q;
  np_sqrt : Q -> Q;
  np_arctan2 : Q -> Q -> Q
}.

(** The shapely operations of [find_stations_in_geometry]. *)
Record Shapely (Shape SubShape : Type) : Type := {
  centroid : Shape -> Point;                      (* shape.centroid *)
  hull_points : Shape -> list Point;              (* the points of shape.convex_hull.exterior.xy *)
  point_distance : Point -> Point -> Q;           (* center.distance(x) *)
  geoms : Shape -> list SubShape;                 (* shape if MultiPolygon else [shape] *)
  contains : SubShape -> Point -> bool;           (* sub_shape.contains(p) *)
  nearest_on_exterior : SubShape -> Point -> Point
    (* exterior.interpolate(exterior.project(p)) *)
}.
Arguments centroid {Shape SubShape}.
Arguments hull_points {Shape SubShape}.
Arguments point_distance {Shape SubShape}.
Arguments geoms {Shape SubShape}.
Arguments contains {Shape SubShape}.
Arguments nearest_on_exterior {Shape SubShape}.

(** A cached file: its (decompressed, decoded) text and modification
    time. *)
Record file : Type := { content : string; mtime : Q }.

(** The outcome of [request.urlretrieve]. *)
Inductive response : Type :=
  | Fetched (text : string)
  | HTTPError (code : Z)
  | URLError.

(** What the run can observe of the outside: the clock and the server. *)
Record env : Type := {
  now : Q;                       (* time.time() *)
  current_year : Z;              (* int(time.strftime("%Y")) *)
  urlretrieve : string -> response
}.

(** What the run changes: the cache directory, and the requests sent. *)
Record world : Type := {
  fs : gmap string file;
  requests : list string
}.

Module Station.
Import Text Decimal Datetime.

Record station : Type := {
  name : string;
  usaf : string;
  wban : string;
  latitude : Q;
  longitude : Q;
  record_start : date;
  record_end : date
}.

Definition square (x : Q) : Q := x * x.

(** [Station.distance] (haversine) *)
Definition distance (np : NumPy) (lat1 long1 lat2 long2 : Q) : Q :=
  let dlat := lat2 - lat1 in
  let dlon := long2 - long1 in
  let a := square (np_sin np (np_deg2rad np (dlat / 2))) +
           np_cos np (np_deg2rad np lat2) *
           np_cos np (np_deg2rad np lat1) *
           square (np_sin np (np_deg2rad np (dlon / 2))) in
  let c := 2 * np_arctan2 np (np_sqrt np a) (np_sqrt np (1 - a)) in
  c * 6373.

Definition distance_from (np : NumPy) (self : station) (latitude longitude : Q) : Q :=
  distance np (Station.latitude self) (Station.longitude self) latitude longitude.

(* ---------------------------------------------------------------- *)
(** *** [parse_gsod_data] *)

Definition float_field (line : string) (i j : nat) : result (option pyval) :=
  let! x := float (slice i j line) in Ok (Some (PFloat x)).

Definition bool_field (line : string) (i : nat) : result (option pyval) :=
  let! c := index i line in
  let! n := int (String c EmptyString) in
  Ok (Some (PBool (negb (n =? 0)%Z))).

(** The dictionary literal, its entries evaluated in order. *)
Definition raw_datum (line : string) : result datum :=
  let! temp := float_field line 24 30 in
  let! dewp := float_field line 35 41 in
  let! slp := float_field line 46 52 in
  let! stp := float_field line 57 63 in
  let! visib := float_field line 68 73 in
  let! wdsp := float_field line 78 83 in
  let! mxspd := float_field line 88 93 in
  let! gust := float_field line 95 100 in
  let! max := float_field line 102 108 in
  let! min := float_field line 110 116 in
  let! prcp := float_field line 118 123 in
  let! sndp := float_field line 125 130 in
  let! fog := bool_field line 132 in
  let! rain := bool_field line 133 in
  let! snow := bool_field line 134 in
  let! hail := bool_field line 135 in
  let! thunder := bool_field line 136 in
  let! tornado := bool_field line 137 in
  Ok (py_dict [("temp", temp); ("dewp", dewp); ("slp", slp); ("stp", stp);
               ("visib", visib); ("wdsp", wdsp); ("mxspd", mxspd);
               ("gust", gust); ("max", max); ("min", min); ("prcp", prcp);
               ("sndp", sndp); ("fog", fog); ("rain", rain); ("snow", snow);
               ("hail", hail); ("thunder", thunder); ("tornado", tornado)]).

(** [datum[attribute] == sentinel] *)
Definition equals (v : option (option pyval)) (sentinel : Q) : bool :=
  match v with
  | Some (Some x) => Qeq_bool (num x) sentinel
  | _ => false
  end.

(** [if datum[attribute] == sentinel: datum[attribute] = None] *)
Definition clear_sentinel (sentinel : Q) (d : datum) (attribute : string) : datum :=
  if equals (d !! attribute) sentinel then <[attribute := None]> d else d.

(** "Deal with missing values": the two loops over attribute names. *)
Definition missing_values (d : datum) : datum :=
  let d := foldl (clear_sentinel 9999.9) d
             ["temp"; "dewp"; "slp"; "stp"; "max"; "min"] in
  foldl (clear_sentinel 999.9) d ["visib"; "wdsp"; "mxspd"; "gust"; "sndp"].

Definition is_none (v : option (option pyval)) : bool :=
  match v with
  | Some None => true
  | _ => false
  end.

(** "Special flag for precipitations" and "for the snow". *)
Definition precipitation_flag (flag : ascii) (d : datum) : datum :=
  let d := if Ascii.eqb flag "I" || equals (d !! "prcp") 99.99
           then <["prcp" := None]> d else d in
  if negb (truthy (default None (d !! "rain"))) && is_none (d !! "prcp")
  then <["prcp" := Some (PFloat 0)]> d else d.

Definition snow_flag (d : datum) : datum :=
  if negb (truthy (default None (d !! "snow"))) && is_none (d !! "sndp")
  then <["sndp" := Some (PFloat 0)]> d else d.

(** One iteration of the loop over the lines: the date key and the
    daily record of a non-empty line. *)
Definition parse_line (line : string) : result (string * datum) :=
  let! d := raw_datum line in
  let d := missing_values d in
  let! flag := index 123 line in
  let d := precipitation_flag flag d in
  let d := snow_flag d in
  Ok (slice 14 22 line, d).

(** [contents.split("\n")[1:]] without the lines skipped by
    [if line == "": continue] *)
Definition data_lines (contents : string) : list string :=
  filter (fun line => line <> EmptyString) (tail (split nl contents)).

(** [parse_gsod_data], on the decoded text of the archive. *)
Definition parse_gsod_data (contents : string) : result observations :=
  let! entries := mapM parse_line (data_lines contents) in
  Ok (py_dict entries).

(* ---------------------------------------------------------------- *)
(** *** [retrieve_obs] *)

Definition cache_dir : string := "cache".

(** [int(x)]: truncation toward zero *)
Definition trunc (x : Q) : Z := Z.quot (Qnum x) (Zpos (Qden x)).

(** "Ensure the year is within this station's recording range" *)
Definition in_range (self : station) (year : Z) : bool :=
  negb ((year <? Datetime.year (record_start self))%Z
        || (Datetime.year (record_end self) <? year)%Z).

Definition filename (self : station) (year : Z) : string :=
  usaf self +:+ "-" +:+ wban self +:+ "-" +:+ str_Z year +:+ ".op.gz".

(** [os.path.join(cache_dir, filename)] *)
Definition filepath (self : station) (year : Z) : string :=
  cache_dir +:+ "/" +:+ filename self year.

Definition url (self : station) (year : Z) : string :=
  "https://www1.ncdc.noaa.gov/pub/data/gsod/" +:+ str_Z year +:+ "/" +:+
  filename self year.

(** The cached file that is served: it exists and is not an outdated
    file of the current year. *)
Definition cached (e : env) (self : station) (year : Z) (w : world) : option file :=
  match fs w !! filepath self year with
  | Some f =>
      let age := trunc (now e - mtime f) in
      if (year =? current_year e)%Z && (24 * 3600 <? age)%Z then None
      else Some f
  | None => None
  end.

Definition parse_file (text : string) : result (option observations) :=
  let! obs := parse_gsod_data text in Ok (Some obs).

(** [retrieve_obs].  A download that ends in a URL error is modelled as
    leaving the cache as it was; the library may by then have opened the
    file of the station for writing, so what is stated of that file is
    stated of the calls that do not end in a URL error. *)
Definition retrieve_obs (e : env) (self : station) (year : Z) (w : world)
  : result (option observations) * world :=
  if negb (in_range self year) then (Ok None, w)
  else
    match cached e self year w with
    | Some f => (parse_file (content f), w)
    | None =>
        let w1 := {| fs := fs w; requests := requests w ++ [url self year] |} in
        match urlretrieve e (url self year) with
        | HTTPError code => (Ok None, w1)
        | URLError => (Raise (Exception "Gotta wait a bit"), w1)
        | Fetched text =>
            let w2 := {| fs := <[filepath self year :=
                                   {| content := text; mtime := now e |}]> (fs w1);
                         requests := requests w1 |} in
            (parse_file text, w2)
        end
    end.


(* ---------------------------------------------------------------- *)
(** *** [get_stations] and [find_stations_in_geometry] *)

(** [station_table.values()] is the catalogue, in table order. *)
Definition get_stations (station_table : list station)
    (start_date end_date : option date) : list station :=
  let stations := station_table in
  let stations :=
    match start_date with
    | Some sd => filter (fun s => Datetime.lt sd (record_end s) = true) stations
    | None => stations
    end in
  match end_date with
  | Some ed => filter (fun s => Datetime.lt (record_start s) ed = true) stations
  | None => stations
  end.

Section Geometry.
Context {Shape SubShape : Type}.
Variable np : NumPy.
Variable sh : Shapely Shape SubShape.

(** The cutoff distance "beyond which stations are ignored". *)
Definition cutoff (shape : Shape) (contour_dist : Q) : result Q :=
  let center := centroid sh shape in
  let! furthest_point :=
    py_max (fun x => point_distance sh center x) (hull_points sh shape) in
  let max_dist := distance np (py center) (px center)
                    (py furthest_point) (px furthest_point) in
  Ok (max_dist + contour_dist).

Definition station_point (s : station) : Point :=
  mkPoint (longitude s) (latitude s).

(** The inner loop: the least distance to the projections on the
    exteriors, starting from 99999. *)
Definition border_distance (shape : Shape) (s : station) : Q :=
  foldl (fun distance sub_shape =>
           let projection := nearest_on_exterior sh sub_shape (station_point s) in
           Qmin distance (distance_from np s (py projection) (px projection)))
        99999 (geoms sh shape).

(** The test applied to a station that passed the cutoff. *)
Definition full_test (shape : Shape) (contour_dist : Q) (s : station) : option Q :=
  if existsb (fun sub_shape => contains sh sub_shape (station_point s)) (geoms sh shape)
  then Some 0
  else
    let distance := border_distance shape s in
    if Qlt_le_dec distance contour_dist then Some distance else None.

(** The body of the loop over the stations. *)
Definition station_distance (shape : Shape) (contour_dist max_dist : Q)
    (s : station) : option Q :=
  let center := centroid sh shape in
  let distance_approx := distance_from np s (py center) (px center) in
  if Qlt_le_dec max_dist distance_approx then None
  else full_test shape contour_dist s.

(** [closest]: the stations with a distance, in catalogue order. *)
Definition with_distance (f : station -> option Q) (stations : list station)
  : list (station * Q) :=
  omap (fun s => match f s with Some d => Some (s, d) | None => None end) stations.

Definition find_stations_in_geometry (station_table : list station)
    (shape : Shape) (contour_dist : Q) (start_date end_date : option date)
  : result (list (station * Q)) :=
  let stations := get_stations station_table start_date end_date in
  let! max_dist := cutoff shape contour_dist in
  let closest := with_distance (station_distance shape contour_dist max_dist) stations in
  Ok (sort_by snd closest).

(** The same search with the full test run on every date-qualified
    station (no cutoff). *)
Definition find_stations_unpruned (station_table : list station)
    (shape : Shape) (contour_dist : Q) (start_date end_date : option date)
  : result (list (station * Q)) :=
  let stations := get_stations station_table start_date end_date in
  let! max_dist := cutoff shape contour_dist in
  let closest := with_distance (full_test shape contour_dist) stations in
  Ok (sort_by snd closest).

End Geometry.

(** [find_closest_stations]; [np.sum(distances <= max_dist)] counts the
    distances within [max_dist]. *)
Definition find_closest_stations (np : NumPy) (station_table : list station)
    (latitude longitude : Q) (max_dist : option Q)
    (start_date end_date : option date) : list (station * Q) :=
  let stations := get_stations station_table start_date end_date in
  let distances := map (fun s => distance_from np s latitude longitude) stations in
  let closest := sort_by snd (zip stations distances) in
  match max_dist with
  | Some m => take (length (filter (fun d => Qle_bool d m = true) distances)) closest
  | None => closest
  end.

End Station.

(* ================================================================== *)
(** ** csvtable.py, and the [Station] objects it creates *)

(** A cell of a row cast to its type ([str] or [float]); an empty cell
    is [None]. *)
Inductive cellval : Type :=
  | CStr (s : string)
  | CFloat (x : Q).

(** How building the table can fail: an exception of [exn], a
    [TypeError], or [StopIteration] from [next(reader)]. *)
Inductive failure : Type :=
  | Py (e : exn)
  | TypeError
  | StopIteration.

(** A value, or the failure that ended the build. *)
Inductive outcome (A : Type) : Type :=
  | Done (a : A)
  | Failed (f : failure).
Arguments Done {A} a.
Arguments Failed {A} f.

Definition obind {A B} (r : outcome A) (k : A -> outcome B) : outcome B :=
  match r with
  | Done a => k a
  | Failed f => Failed f
  end.

Notation "'try!' x ':=' r 'in' k" := (obind r (fun x => k))
  (at level 10, x pattern, k at level 200).

(** The value of a run that ended well, and whether it did. *)
Definition from_done {A} (d : A) (r : outcome A) : A :=
  match r with
  | Done a => a
  | Failed _ => d
  end.

Definition is_done {A} (r : outcome A) : bool :=
  match r with
  | Done _ => true
  | Failed _ => false
  end.

(** An exception of [exn] as a failure of the build. *)
Definition of_result {A} (r : result A) : outcome A :=
  match r with
  | Ok a => Done a
  | Raise e => Failed (Py e)
  end.

(** Truth value of a cell: [None], the empty string and zero are
    false. *)
Definition cell_truthy (v : option cellval) : bool :=
  match v with
  | None => false
  | Some (CStr s) => negb (Text.is_empty s)
  | Some (CFloat x) => negb (Qeq_bool x 0)
  end.

(** The [Station] object as [__init__] leaves it. *)
Module StationEntry.
Import Text Decimal Datetime.

Record t : Type := mk {
  name : option cellval;
  usaf : option cellval;
  wban : option cellval;
  icao : option cellval;
  country : option cellval;
  state : option cellval;
  latitude : option cellval;
  longitude : option cellval;
  elevation : option cellval;
  record_start : date;
  record_end : date
}.

(** [d[key]] *)
Definition item (d : gmap string (option cellval)) (key : string) : outcome (option cellval) :=
  match d !! key with
  | Some v => Done v
  | None => Failed (Py KeyError)
  end.

(** [datetime.strptime(v, Station.time_format).date()] *)
Definition parse_date (v : option cellval) : outcome date :=
  match v with
  | Some (CStr s) => of_result (strptime_Ymd s)
  | _ => Failed TypeError
  end.

(** [Station.__init__] *)
Definition init (d : gmap string (option cellval)) : outcome t :=
  try! name := item d "stationname" in
  try! usaf := item d "usaf" in
  try! wban := item d "wban" in
  try! icao := item d "icao" in
  try! country := item d "ctry" in
  try! state := item d "state" in
  try! latitude := item d "lat" in
  try! longitude := item d "lon" in
  try! elevation := item d "elevm" in
  try! b := item d "begin" in
  try! record_start := parse_date b in
  try! e := item d "end" in
  try! record_end := parse_date e in
  Done (mk name usaf wban icao country state latitude longitude elevation
           record_start record_end).

(** [is_valid], as the condition [if not entry.is_valid()] reads it *)
Definition is_valid (self : t) : bool :=
  cell_truthy (usaf self) && cell_truthy (wban self) &&
  cell_truthy (longitude self) && cell_truthy (latitude self).

Section Keys.
(** [str(x)] for a float, left to the interpreter. *)
Variable float_str : Q -> string.

(** [str(v)] *)
Definition str (v : option cellval) : string :=
  match v with
  | None => "None"
  | Some (CStr s) => s
  | Some (CFloat x) => float_str x
  end.

(** [as_key]: [usaf + str(wban)] *)
Definition as_key (usaf wban : option cellval) : outcome string :=
  match usaf with
  | Some (CStr u) => Done (u +:+ str wban)
  | _ => Failed TypeError
  end.

(** [get_key] *)
Definition get_key (self : t) : outcome string :=
  as_key (usaf self) (wban self).

End Keys.

End StationEntry.

Module CsvTable.
Import Text Decimal.

(** The types of a [format]. *)
Inductive dtype : Type := TStr | TFloat.

(** [str.isalpha] on the ASCII range *)
Definition is_alpha (c : ascii) : bool :=
  let n := nat_of_ascii c in
  ((65 <=? n)%nat && (n <=? 90)%nat) || ((97 <=? n)%nat && (n <=? 122)%nat).

(** The characters of [s] that satisfy [P], in order. *)
Fixpoint keep_chars (P : ascii -> bool) (s : string) : string :=
  match s with
  | EmptyString => EmptyString
  | String c s' => if P c then String c (keep_chars P s') else keep_chars P s'
  end.

(** [__format_name] (ASCII column names) *)
Definition format_name (colname : string) : string :=
  let colname := lower (replace_char space "_" colname) in
  keep_chars is_alpha colname.

(** [__datum_as_type] *)
Definition datum_as_type (t : dtype) (datum : string) : result (option cellval) :=
  if is_empty datum then Ok None
  else match t with
       | TStr => Ok (Some (CStr datum))
       | TFloat => let! x := float datum in Ok (Some (CFloat x))
       end.

(** The [format] of [station_table]: [str] * 6 + [float] * 3 + [str] * 2 *)
Definition station_format : list dtype :=
  [TStr; TStr; TStr; TStr; TStr; TStr; TFloat; TFloat; TFloat; TStr; TStr].

Section Build.
Variable float_str : Q -> string.

(** The entry of a row: the cells cast, named by the headers, handed
    to [Station]. *)
Definition row_entry (headers : list string) (format : list dtype)
    (row : list string) : outcome StationEntry.t :=
  try! data := of_result (mapM (fun p : dtype * string => datum_as_type p.1 p.2)
                               (zip format row)) in
  let named_data := py_dict (zip headers data) in
  StationEntry.init named_data.

(** "Create entries from the rows", for [entry_type=Station] and
    [key=Station.get_key]. *)
Fixpoint add_rows (headers : list string) (format : list dtype)
    (rows : list (list string)) (table : gmap string StationEntry.t)
  : outcome (gmap string StationEntry.t) :=
  match rows with
  | [] => Done table
  | row :: rest =>
      try! entry := row_entry headers format row in
      if negb (StationEntry.is_valid entry) then add_rows headers format rest table
      else
        try! key := StationEntry.get_key float_str entry in
        add_rows headers format rest (<[key := entry]> table)
  end.

(** "Build the table" of [build], on the rows that [csv.reader] yields
    (the first one gives the headers), for a table created without
    [headers]. *)
Definition build (format : list dtype) (csv_rows : list (list string))
  : outcome (gmap string StationEntry.t) :=
  match csv_rows with
  | [] => Failed StopIteration
  | first :: rows => add_rows (map format_name first) format rows ∅
  end.

End Build.

End CsvTable.

(* ================================================================== *)
(** ** record.py *)

(** One day of the output series: attribute name to weighted mean. *)
Abbreviation aggregate := (gmap string (option Q)).

(** Computations that read and change the [world]. *)
Definition sbind {A B} (m : world -> result A * world)
    (k : A -> world -> result B * world) (w : world) : result B * world :=
  match m w with
  | (Ok a, w1) => k a w1
  | (Raise ex, w1) => (Raise ex, w1)
  end.

Definition lift {A} (r : result A) (w : world) : result A * world := (r, w).

Notation "'do!' x ':=' m 'in' k" := (sbind m (fun x => k))
  (at level 10, x pattern, k at level 200).

Module Record.
Import Text Decimal Datetime.

(** [Record.attributes] *)
Definition attributes : list string :=
  ["min"; "temp"; "max"; "wdsp"; "mxspd"; "prcp"; "dewp"; "sndp"; "stp";
   "slp"; "visib"; "fog"; "rain"; "snow"; "hail"; "thunder"; "tornado"].

(** [Record.max_station_distance] *)
Definition max_station_distance : Q := 50.

(** The fields of a [Record] object; [data] is [None] as long as the
    attribute has not been assigned. *)
Record t (Shape : Type) : Type := mk {
  name : string;
  shape : Shape;
  contour_dist : Q;
  max_stations : Z;
  start_date : date;
  end_date : date;
  collection_info : string;
  data : option (list (date * aggregate))
}.
Arguments mk {Shape}.
Arguments name {Shape}.
Arguments shape {Shape}.
Arguments contour_dist {Shape}.
Arguments max_stations {Shape}.
Arguments start_date {Shape}.
Arguments end_date {Shape}.
Arguments collection_info {Shape}.
Arguments data {Shape}.

(** [Record.distance_weight] *)
Definition distance_weight (distance : Q) : Q :=
  if Qle_bool max_station_distance distance then 0
  else 1 - (distance / max_station_distance) ^ 2.

(** What [__log] appends to [collection_info]. *)
Definition log_entry (message : string) : string :=
  "# " +:+ replace_char nl (String nl "# ") message +:+ String nl "".

(** [__log], on the text of [collection_info] *)
Definition log (collection_info : string) (message : string) : string :=
  collection_info +:+ log_entry message.

(** [__init__] up to the call of [__build]; [today] is [date.today()]. *)
Definition init {Shape} (today : date) (name : string) (shape : Shape)
    (start_date : string) (end_date : option string)
    (contour_dist : Q) (max_stations : Z) : result (t Shape) :=
  let! sd := strptime_Ymd start_date in
  let! ed := match end_date with
             | None => add_days today (-1)
             | Some text => strptime_Ymd text
             end in
  Ok (mk name shape contour_dist max_stations sd ed "" None).

(* ------------------------------------------------------------------ *)
(** *** The daily aggregation *)

(** "Gather daily data": the daily records found under [date_key], each
    with the trust of its station ([daily_data] and [daily_trusts], kept
    as one list of pairs). *)
Definition gather (date_key : string)
    (all_yearly_data : list (option observations)) (base_weights : list Q)
  : list (datum * Q) :=
  omap (fun entry : option observations * Q =>
          match entry.1 with
          | None => None
          | Some yearly_data =>
              match yearly_data !! date_key with
              | Some daily_datum => Some (daily_datum, entry.2)
              | None => None
              end
          end)
       (zip all_yearly_data base_weights).

(** One step of the inner loop: [value] and [total_weight] after a
    daily record. *)
Definition accumulate (attribute : string) (acc : result (Q * Q))
    (entry : datum * Q) : result (Q * Q) :=
  let! vt := acc in
  match entry.1 !! attribute with
  | None => Raise KeyError
  | Some None => Ok vt
  | Some (Some v) => Ok (vt.1 + num v * entry.2, vt.2 + entry.2)
  end.

(** "Perform a weighted average" *)
Definition weighted_average (attribute : string) (daily : list (datum * Q))
  : result (option Q) :=
  let! vt := foldl (accumulate attribute) (Ok (0, 0)) daily in
  if Qeq_bool vt.2 0 then Ok None else Ok (Some (vt.1 / vt.2)).

(** "Populate attributes" *)
Definition populate (daily : list (datum * Q)) : result aggregate :=
  foldl (fun acc attribute =>
           let! datum := acc in
           let! value := weighted_average attribute daily in
           Ok (<[attribute := value]> datum))
        (Ok ∅) attributes.

(** The datum of one date, from the yearly data in memory. *)
Definition daily_aggregate (all_yearly_data : list (option observations))
    (base_weights : list Q) (date : date) : result aggregate :=
  populate (gather (strftime_Ymd date) all_yearly_data base_weights).

(* ------------------------------------------------------------------ *)
(** *** [__build] *)

(** [[station.retrieve_obs(year) for station in stations]]; the process
    pool maps the same job over the same list, in an order of its own:
    the jobs are run here in the order of the list, and what is stated
    of the requests of a year does not depend on their order. *)
Fixpoint fetch_year (e : env) (stations : list Station.station) (year : Z)
  : world -> result (list (option observations)) * world :=
  match stations with
  | [] => lift (Ok [])
  | station :: rest =>
      do! obs := Station.retrieve_obs e station year in
      do! others := fetch_year e rest year in
      lift (Ok (obs :: others))
  end.

(** The [while date <= self.end_date] loop; [days] is the number of
    dates for which the condition still holds. *)
Fixpoint gather_days (e : env) (stations : list Station.station)
    (base_weights : list Q) (days : nat) (date : date) (year : Z)
    (all_yearly_data : list (option observations))
    (data : list (Datetime.date * aggregate))
  : world -> result (list (Datetime.date * aggregate)) * world :=
  match days with
  | O => lift (Ok data)
  | S days' =>
      do! all_yearly_data :=
        (if negb (year =? Datetime.year date)%Z
         then fetch_year e stations (Datetime.year date)
         else lift (Ok all_yearly_data)) in
      do! datum := lift (daily_aggregate all_yearly_data base_weights date) in
      do! next := lift (add_days date 1) in
      gather_days e stations base_weights days' next (Datetime.year date)
        all_yearly_data (data ++ [(date, datum)])
  end.

(** The line logged for a selected station. *)
Definition station_message (station : Station.station) (distance weight : Q) : string :=
  ljust 20 (slice 0 20 (Station.name station)) +:+
  ljust 14 (" at " +:+ format_f 2 distance +:+ "km") +:+
  "(trust: " +:+ format_f 2 (weight * 100) +:+ "%)".

Section Build.
Context {Shape SubShape : Type}.
Variable np : NumPy.
Variable sh : Shapely Shape SubShape.
Variable station_table : list Station.station.
Variable e : env.

(** The stations kept after "Prune unnecessary stations". *)
Definition pruned (max_stations : Z) (closest_stations : list (Station.station * Q))
  : list (Station.station * Q) :=
  py_take (Z.min max_stations (Z.of_nat (length closest_stations))) closest_stations.

(** The lines logged under "STATIONS:". *)
Definition log_stations (info : string) (closest_stations : list (Station.station * Q))
    (base_weights : list Q) : string :=
  foldl (fun info (entry : Station.station * Q * Q) =>
           log info (station_message entry.1.1 entry.1.2 entry.2))
        info (zip closest_stations base_weights).

Definition build (self : t Shape) : world -> result (t Shape) * world :=
  let info := log (collection_info self) (upper (name self)) in
  let info := log info ("From " +:+ strftime_dmY (start_date self) +:+ " to " +:+
                        strftime_dmY (end_date self) +:+ String nl "") in
  do! closest_stations :=
    lift (Station.find_stations_in_geometry np sh station_table (shape self)
            (contour_dist self) (Some (start_date self)) (Some (end_date self))) in
  if (length closest_stations =? 0)%nat
  then lift (Ok (mk (name self) (shape self) (contour_dist self) (max_stations self)
                    (start_date self) (end_date self) info (data self)))
  else
    let max_stations := Z.min (max_stations self) (Z.of_nat (length closest_stations)) in
    let closest_stations := pruned (Record.max_stations self) closest_stations in
    (* unpacking the zip of an empty list into stations, distances fails *)
    do! _ := lift (if (length closest_stations =? 0)%nat
                   then Raise ValueError else Ok tt) in
    let stations := map fst closest_stations in
    let distances := map snd closest_stations in
    let info := log info "STATIONS:" in
    let base_weights := map distance_weight distances in
    let info := log_stations info closest_stations base_weights in
    do! data :=
      gather_days e stations base_weights
        (Z.to_nat (end_date self - start_date self + 1)) (start_date self)
        (-1)%Z [] [] in
    lift (Ok (mk (name self) (shape self) (contour_dist self) max_stations
                 (start_date self) (end_date self) info (Some data))).

(** [Record(...)]: the constructor. *)
Definition new (today : date) (name : string) (shape : Shape)
    (start_date : string) (end_date : option string)
    (contour_dist : Q) (max_stations : Z)
  : world -> result (t Shape) * world :=
  do! self := lift (init today name shape start_date end_date contour_dist max_stations) in
  build self.

End Build.

(* ------------------------------------------------------------------ *)
(** *** [export_as_csv]: the text written to the file, and how the call
    ends *)

Definition just_size : nat := 11.

Definition last_attribute : string := "tornado".   (* Record.attributes[-1] *)

Definition header_row : string :=
  ljust just_size "DATE," +:+
  concat (map (fun attribute =>
                 ljust just_size
                   (upper attribute +:+
                    (if String.eqb attribute last_attribute then "" else ",")))
              attributes) +:+
  String nl "".

(** The cells of one row, up to the first attribute missing from the
    datum. *)
Fixpoint write_cells (datum : aggregate) (attrs : list string) : string * result unit :=
  match attrs with
  | [] => (""%string, Ok tt)
  | attribute :: rest =>
      match datum !! attribute with
      | None => (""%string, Raise (Exception "Corrupted record data"))
      | Some value =>
          let text := match value with
                      | None => "NA"%string
                      | Some x => format_f 3 x
                      end in
          let text := if String.eqb attribute last_attribute then text
                      else text +:+ ", " in
          let '(out, r) := write_cells datum rest in
          (ljust just_size text +:+ out, r)
      end
  end.

Fixpoint write_rows (rows : list (date * aggregate)) : string * result unit :=
  match rows with
  | [] => (""%string, Ok tt)
  | (date, datum) :: rest =>
      let first := ljust just_size (strftime_Ymd date +:+ ", ") in
      match write_cells datum attributes with
      | (cells, Raise ex) => (first +:+ cells, Raise ex)
      | (cells, Ok _) =>
          let '(out, r) := write_rows rest in
          (first +:+ cells +:+ String nl "" +:+ out, r)
      end
  end.

Definition export_as_csv {Shape} (self : t Shape) : string * result unit :=
  let head := collection_info self +:+ String nl "" +:+ header_row in
  match data self with
  | None => (head, Raise AttributeError)
  | Some rows =>
      let '(out, r) := write_rows rows in (head +:+ out, r)
  end.

(* ------------------------------------------------------------------ *)
(** *** [read_from_csv], on the text of the file *)

(** "Skip header": the value of [line] when the first loop ends, and
    the lines left in the file. *)
Fixpoint skip_header (line : option string) (lines : list string)
  : option string * list string :=
  match lines with
  | [] => (line, [])
  | l :: rest =>
      let line := rstrip l in
      match line with
      | String c _ =>
          if negb (Ascii.eqb c "#") then (Some line, rest)
          else skip_header (Some line) rest
      | EmptyString => skip_header (Some line) rest
      end
  end.

Definition true_rownames : list string := "date"%string :: attributes.

Definition read_value (value : string) : result (option Q) :=
  if String.eqb value "NA" then Ok None
  else let! x := float value in Ok (Some x).

Definition read_row (line : string) : result (date * aggregate) :=
  let text_datum := split "," (remove_char space (rstrip line)) in
  let! date := strptime_Ymd (hd ""%string text_datum) in
  let! values := mapM read_value (tail text_datum) in
  Ok (date, py_dict (zip attributes values)).

Definition read_from_csv (content : string) : result (list (date * aggregate)) :=
  let '(line, rest) := skip_header None (file_lines content) in
  let! line := of_option UnboundLocalError line in
  let csv_rownames := split "," (remove_char space (lower line)) in
  if negb (bool_decide (csv_rownames = true_rownames))
  then Raise (Exception "Header mismatch")
  else mapM read_row rest.

End Record.

(* ================================================================== *)
(** ** The weighted mean, as the specification words it *)

Module Spec.

(** The sum of a list of numbers. *)
Definition sum_Q (l : list Q) : Q := foldl Qplus 0 l.

(** The stations that contribute a present value for [attribute] on a
    day: that value and the station's weight. *)
Definition present_values (attribute : string) (daily : list (datum * Q))
  : list (Q * Q) :=
  omap (fun entry : datum * Q =>
          match entry.1 !! attribute with
          | Some (Some v) => Some (num v, entry.2)
          | _ => None
          end)
       daily.

Definition total_weight (vw : list (Q * Q)) : Q := sum_Q (map snd vw).

(** The sum of v_i * w_i over the sum of w_i; absent when the total
    weight is zero. *)
Definition weighted_mean (vw : list (Q * Q)) : option Q :=
  if Qeq_bool (total_weight vw) 0 then None
  else Some (sum_Q (map (fun p => p.1 * p.2) vw) / total_weight vw).

End Spec.

(* ================================================================== *)
(** ** Sample inputs *)

Module Sample.
Import Text.

(** A complete observation line. *)
Definition line_ok : string :=
  "010010 99999  20200101    25.3 24    20.1 24  1005.2 24  1004.0 24    9.9  6   10.5 24   19.4   29.9    30.2    20.1*  0.00G 999.9  001000".

(** A line whose temperature, sea level pressure, visibility,
    precipitation and snow depth carry their sentinels; rain is reported,
    snow is not. *)
Definition line_sentinels : string :=
  "010010 99999  20200102  9999.9  0    20.1 24  9999.9  0  1004.0 24  999.9  0   10.5 24   19.4   29.9    30.2    20.1* 99.99  999.9  010000".

(** A line cut short. *)
Definition line_truncated : string :=
  "010010 99999  20200103    25.3 24    20.1 24  1005.2 24".

Definition header : string :=
  "STN--- WBAN   YEARMODA    TEMP       DEWP      SLP        STP       VISIB      WDSP     MXSPD   GUST    MAX     MIN   PRCP   SNDP   FRSHTT".

Definition file_ok : string :=
  header +:+ String nl line_ok +:+ String nl line_sentinels +:+ String nl "".

Definition file_malformed : string :=
  header +:+ String nl line_ok +:+ String nl line_truncated +:+ String nl "".

(** *** A geometry backend for the samples

    Rational stand-ins for the numpy functions, rounded to twelve
    decimals, good to about 1e-9 on the angles of the samples (arguments
    below 1.2 rad, quotients below 0.1 for the arc tangent). *)

Definition round12 (x : Q) : Q := Qfloor (x * 1000000000000) # 1000000000000.

Definition approx_pi : Q := 3.141592653589793.

(** Truncated series in nested form, rounded at every level. *)
Definition approx_sin (x : Q) : Q :=
  let x2 := round12 (x * x) in
  let s := round12 (1 - x2 / 72) in
  let s := round12 (1 - x2 / 42 * s) in
  let s := round12 (1 - x2 / 20 * s) in
  let s := round12 (1 - x2 / 6 * s) in
  round12 (x * s).

Definition approx_cos (x : Q) : Q :=
  let x2 := round12 (x * x) in
  let s := round12 (1 - x2 / 132) in
  let s := round12 (1 - x2 / 90 * s) in
  let s := round12 (1 - x2 / 56 * s) in
  let s := round12 (1 - x2 / 30 * s) in
  let s := round12 (1 - x2 / 12 * s) in
  round12 (1 - x2 / 2 * s).

(** Newton's iteration, stopped when it no longer moves. *)
Fixpoint newton_sqrt (steps : nat) (a x : Q) : Q :=
  match steps with
  | O => x
  | S n =>
      let x' := round12 ((x + a / x) / 2) in
      if Qeq_bool x' x then x else newton_sqrt n a x'
  end.

Definition approx_sqrt (a : Q) : Q :=
  if Qle_bool a 0 then 0 else newton_sqrt 40 a 1.

Definition approx_arctan2 (y x : Q) : Q :=
  let t := round12 (y / x) in
  let t2 := round12 (t * t) in
  let s := round12 ((1 # 5) - t2 / 7) in
  let s := round12 ((1 # 3) - t2 * s) in
  let s := round12 (1 - t2 * s) in
  round12 (t * s).

Definition numpy : NumPy :=
  {| np_sin := approx_sin;
     np_cos := approx_cos;
     np_deg2rad := fun x => round12 (x * approx_pi / 180);
     np_sqrt := approx_sqrt;
     np_arctan2 := approx_arctan2 |}.

(** A region in the shape of a rhombus with horizontal and vertical
    diagonals: centre (longitude, latitude) and half-diagonals, in
    degrees.  Its centroid is its centre, its convex hull is itself. *)
Record rhombus : Type := { cx : Q; cy : Q; rx : Q; ry : Q }.

Definition clamp01 (t : Q) : Q := Qmax 0 (Qmin 1 t).

Definition sign_of (x : Q) : Q := if Qlt_le_dec x 0 then -1 else 1.

(** The point of the boundary nearest to [p], in the plane of the
    coordinates: the projection of [p], folded into the first quadrant,
    on the edge from (rx, 0) to (0, ry). *)
Definition rhombus_nearest (s : rhombus) (p : Point) : Point :=
  let u := Qabs (px p - cx s) in
  let v := Qabs (py p - cy s) in
  let t := clamp01 (((u - rx s) * - rx s + v * ry s) / (rx s * rx s + ry s * ry s)) in
  mkPoint (cx s + sign_of (px p - cx s) * (rx s * (1 - t)))
          (cy s + sign_of (py p - cy s) * (ry s * t)).

Definition shapely : Shapely rhombus rhombus :=
  {| centroid := fun s => mkPoint (cx s) (cy s);
     hull_points := fun s =>
       [mkPoint (cx s - rx s) (cy s); mkPoint (cx s) (cy s - ry s);
        mkPoint (cx s + rx s) (cy s); mkPoint (cx s) (cy s + ry s);
        mkPoint (cx s - rx s) (cy s)];
     point_distance := fun p q =>
       approx_sqrt ((px p - px q) * (px p - px q) + (py p - py q) * (py p - py q));
     geoms := fun s => [s];
     contains := fun s p =>
       if Qlt_le_dec (Qabs (px p - cx s) / rx s + Qabs (py p - cy s) / ry s) 1
       then true else false;
     nearest_on_exterior := rhombus_nearest |}.

(** A region around 60 N: 4 degrees of longitude wide, 3.8 degrees of
    latitude high. *)
Definition region : rhombus := {| cx := 0; cy := 60; rx := 2; ry := 1.9 |}.



(** A station inside the region, close to its northern corner. *)
Definition oslo : Station.station :=
  {| Station.name := "OSLO"; Station.usaf := "010010"; Station.wban := "99999";
     Station.latitude := 61.8; Station.longitude := 0;
     Station.record_start := 730120%Z;      (* 2000-01-01 *)
     Station.record_end := 738885%Z |}.     (* 2023-12-31 *)

(** A station outside the region, some 8 km off its north-east edge. *)
Definition bergen : Station.station :=
  {| Station.name := "BERGEN"; Station.usaf := "013170"; Station.wban := "99999";
     Station.latitude := 60.6; Station.longitude := 1.5;
     Station.record_start := 730120%Z;
     Station.record_end := 738885%Z |}.

(** The clock reads 2020-09-15; the server has no file for any request. *)
Definition env_404 : env :=
  {| now := 1600200000; current_year := 2020; urlretrieve := fun _ => HTTPError 404 |}.


(** A server that has the complete file for every request. *)
Definition env_up : env :=
  {| now := 1600200000; current_year := 2020; urlretrieve := fun _ => Fetched file_ok |}.

Definition empty_world : world := {| fs := ∅; requests := [] |}.

(** A daily record with a temperature only. *)
Definition only_temp (v : option pyval) : datum :=
  <["temp" := v]> (py_dict (map (fun a => (a, None)) Record.attributes)).

(** Three stations on 2020-01-01: 10 and 20 degrees, and no value. *)
Definition three_stations : list (option observations) :=
  [Some {[ "20200101"%string := only_temp (Some (PFloat 10)) ]};
   Some {[ "20200101"%string := only_temp (Some (PFloat 20)) ]};
   Some {[ "20200101"%string := only_temp None ]}].

Definition three_weights : list Q := [0.5; 0.25; 0].

(** A record for the last day of 2019 and the first two of 2020. *)
Definition record_3days : Record.t rhombus :=
  Record.mk "sample" region 25 12 737424%Z 737426%Z "" None.

(** A cache that holds a file of the current year, older than a day. *)
Definition stale_world : world :=
  {| fs := {[ "cache/010010-99999-2020.op.gz"%string :=
               {| content := file_ok; mtime := 1600000000 |} ]};
     requests := [] |}.

(** A cache that holds a damaged file for 2019. *)
Definition damaged_world : world :=
  {| fs := {[ "cache/010010-99999-2019.op.gz"%string :=
               {| content := file_malformed; mtime := 1580000000 |} ]};
     requests := [] |}.

(** A table with the expected header and a row that is not a date. *)
Definition bad_row_file : string :=
  Record.header_row +:+ "yesterday, 1.000" +:+ String nl "".

(** The record of [record_3days] under a name with a carriage return. *)
Definition record_cr : Record.t rhombus :=
  Record.mk (String "a" (String cr "b")) region 25 12 737424%Z 737426%Z "" None.

(** The line of 2020-01-01 again, with another mean temperature. *)
Definition line_revised : string :=
  "010010 99999  20200101    26.3 24    20.1 24  1005.2 24  1004.0 24    9.9  6   10.5 24   19.4   29.9    30.2    20.1*  0.00G 999.9  001000".

(** A file with two lines for 2020-01-01. *)
Definition file_revised : string :=
  header +:+ String nl line_ok +:+ String nl line_revised +:+ String nl "".

(** The record of [record_3days] with no station allowed. *)
Definition record_no_station : Record.t rhombus :=
  Record.mk "sample" region 25 0 737424%Z 737426%Z "" None.

(** A record whose end date precedes its start date. *)
Definition record_backwards : Record.t rhombus :=
  Record.mk "sample" region 25 12 737426%Z 737424%Z "" None.

(** A record with a row that holds no attribute. *)
Definition record_corrupted : Record.t rhombus :=
  Record.mk "sample" region 25 12 737425%Z 737425%Z "" (Some [(737425%Z, ∅)]).

(** A row of a table with two value cells. *)
Definition short_row : string := "20200101,  1.000,     NA" +:+ String nl "".

(** The first row of the catalogue of stations, and three of its rows:
    a station, a station on the prime meridian, and a row without a
    BEGIN date. *)
Definition catalogue_header : list string :=
  ["USAF"; "WBAN"; "STATION NAME"; "CTRY"; "STATE"; "ICAO"; "LAT"; "LON";
   "ELEV(M)"; "BEGIN"; "END"].

Definition row_jan_mayen : list string :=
  ["010010"; "99999"; "JAN MAYEN"; "NO"; ""; "ENJA"; "+70.933"; "-008.667";
   "+0009.0"; "19310101"; "20231231"].

Definition row_greenwich : list string :=
  ["037760"; "99999"; "GREENWICH"; "UK"; ""; ""; "+51.478"; "+000.000";
   "+0047.0"; "19730101"; "20231231"].

Definition row_no_begin : list string :=
  ["999999"; "99999"; "UNKNOWN"; "US"; ""; ""; "+40.000"; "-100.000";
   "+0100.0"; ""; "20231231"].

(** A rendering of floats, for keys made of a number. *)
Definition float_str (x : Q) : string := Decimal.format_f 1 x.

End Sample.

(* ================================================================== *)
(** * Notions used in the statements *)

(** ** The attributes of each sentinel *)

Definition nines_9999 : list string := ["temp"; "dewp"; "slp"; "stp"; "max"; "min"].
Definition nines_999 : list string := ["visib"; "wdsp"; "mxspd"; "gust"; "sndp"].

(** All the keys of a daily record as [parse_line] builds it. *)
Definition raw_keys : list string :=
  ["temp"; "dewp"; "slp"; "stp"; "visib"; "wdsp"; "mxspd"; "gust"; "max"; "min";
   "prcp"; "sndp"; "fog"; "rain"; "snow"; "hail"; "thunder"; "tornado"].

(* ------------------------------------------------------------------ *)
(** ** Complete records and retrieval that cannot abort *)

Section RetrievalNotions.
Import Record Spec Station.

(** A daily record is complete when it has a value or [None] under
    each tracked attribute. *)
Definition complete (d : datum) : Prop :=
  forall a, a ∈ attributes -> is_Some (d !! a).

(** [all_yearly_data] is what the retrieval returned for [year]. *)
Definition fetched (e : env) (stations : list station) (year : Z)
    (all_yearly_data : list (option observations)) : Prop :=
  exists w0 w1, fetch_year e stations year w0 = (Ok all_yearly_data, w1).

(** What a row of the output is: the aggregate of its date, over the
    data retrieved for the year of that date. *)
Definition row_ok (e : env) (stations : list station) (base_weights : list Q)
    (row : Datetime.date * aggregate) : Prop :=
  exists all_yearly_data,
    fetched e stations (Datetime.year row.1) all_yearly_data /\
    daily_aggregate all_yearly_data base_weights row.1 = Ok row.2.

(** Retrieval that cannot abort: the server always answers, and every
    text it serves or that lies in the cache parses. *)
Definition good_text (text : string) : Prop :=
  raises (parse_gsod_data text) = false.

Definition good_env (e : env) : Prop :=
  forall u, match urlretrieve e u with
            | URLError => False
            | Fetched text => good_text text
            | HTTPError _ => True
            end.

Definition good_world (w : world) : Prop :=
  forall path f, fs w !! path = Some f -> good_text (content f).

Definition complete_obs (o : option observations) : Prop :=
  forall obs key d, o = Some obs -> obs !! key = Some d -> complete d.

End RetrievalNotions.

(* ------------------------------------------------------------------ *)
(** ** The search *)

Section SearchNotions.
Import Record Station.
Context {Shape SubShape : Type}.
Variable np : NumPy.
Variable sh : Shapely Shape SubShape.
Variable station_table : list station.


Definition inside (shape : Shape) (s : station) : bool :=
  existsb (fun sub_shape => contains sh sub_shape (station_point s)) (geoms sh shape).

(** The stations that [__build] receives from the search. *)
Definition found (self : Record.t Shape) : result (list (station * Q)) :=
  find_stations_in_geometry np sh station_table (shape self) (contour_dist self)
    (Some (start_date self)) (Some (end_date self)).

(** The stations and weights a build works with. *)
Definition chosen_stations (self : Record.t Shape) (closest : list (station * Q)) :=
  map fst (pruned (max_stations self) closest).

Definition chosen_weights (self : Record.t Shape) (closest : list (station * Q)) :=
  map distance_weight (map snd (pruned (max_stations self) closest)).

End SearchNotions.

(** The dates of the sample searches. *)
Definition sample_start : option Datetime.date := Some 737424%Z.  (* 2019-12-31 *)
Definition sample_end : option Datetime.date := Some 737426%Z.    (* 2020-01-02 *)

(* ------------------------------------------------------------------ *)
(** ** The calendar *)

Section CalendarNotions.
Import Datetime.
Local Open Scope Z_scope.

(** The month and day that [ord2ymd] derives from the day of the year. *)
Definition month_day (n : Z) (leapyear : bool) : Z * Z :=
  let month := Z.shiftr (n + 50) 5 in
  let preceding :=
    DAYS_BEFORE_MONTH month + (if (2 <? month) && leapyear then 1 else 0) in
  if n <? preceding then
    let month' := month - 1 in
    let preceding' :=
      preceding -
      (DAYS_IN_MONTH month' + (if (month' =? 2) && leapyear then 1 else 0)) in
    (month', n - preceding' + 1)
  else (month, n - preceding + 1).

(** The month and day are those of the [n]-th day of the year. *)
Definition month_day_ok (leapyear : bool) (n : Z) : bool :=
  let '(m, d) := month_day n leapyear in
  (1 <=? m) && (m <=? 12) && (1 <=? d) &&
  (d <=? (if (m =? 2) && leapyear then 29 else DAYS_IN_MONTH m)) &&
  (DAYS_BEFORE_MONTH m + (if (2 <? m) && leapyear then 1 else 0) + d =? n + 1).

End CalendarNotions.

(* ------------------------------------------------------------------ *)
(** ** Characters of a text *)

(** Every character of a string satisfies a test. *)
Fixpoint all_chars (P : ascii -> bool) (s : string) : bool :=
  match s with
  | EmptyString => true
  | String c s' => P c && all_chars P s'
  end.

Definition is_not (c0 : ascii) (c : ascii) : bool := negb (Ascii.eqb c c0).

(** The characters of decimal numbers. *)
Definition numeric (c : ascii) : bool :=
  Text.is_digit c || Ascii.eqb c "-" || Ascii.eqb c ".".

(** Letters of the missing-value token too. *)
Definition cell_char (c : ascii) : bool :=
  numeric c || Ascii.eqb c "N" || Ascii.eqb c "A".

(** A text without carriage return. *)
Definition no_cr (s : string) : Prop := all_chars (is_not Text.cr) s = true.

(* ------------------------------------------------------------------ *)
(** ** The table, as [export_as_csv] lays it out *)

(** The text of a value in the table. *)
Definition value_text (v : option Q) : string :=
  match v with
  | None => "NA"
  | Some x => Decimal.format_f 3 x
  end.

(** A value as it is read back. *)
Definition round_value (v : option Q) : option Q :=
  match v with
  | None => None
  | Some x => Some (Decimal.round_to 3 x)
  end.

(** The value of an attribute of a row. *)
Definition value_of (datum : aggregate) (a : string) : option Q :=
  default None (datum !! a).

(** The cell written for an attribute. *)
Definition cell (datum : aggregate) (a : string) : string :=
  Text.ljust Record.just_size
    (if String.eqb a Record.last_attribute then value_text (value_of datum a)
     else value_text (value_of datum a) +:+ ", ").

(** The line written for a row, without its newline. *)
Definition row_text (row : Datetime.date * aggregate) : string :=
  Text.ljust Record.just_size (Datetime.strftime_Ymd row.1 +:+ ", ") +:+
  Text.concat (map (cell row.2) Record.attributes).

(** Fields separated by commas. *)
Fixpoint join_comma (fs : list string) : string :=
  match fs with
  | [] => ""
  | f :: fs' =>
      match fs' with
      | [] => f
      | _ => f +:+ String "," (join_comma fs')
      end
  end.

(** The characters of a row. *)
Definition row_char (c : ascii) : bool :=
  cell_char c || Ascii.eqb c "," || Ascii.eqb c Text.space.

(** A row of a built record: a representable date, and exactly the
    tracked attributes. *)
Definition well_formed_row (row : Datetime.date * aggregate) : Prop :=
  Datetime.valid_date row.1 /\
  forall a, is_Some (row.2 !! a) <-> a ∈ Record.attributes.

Section TableNotions.
Import Text Record.

(** The attributes but the last. *)
Definition init_attributes : list string :=
  ["min"; "temp"; "max"; "wdsp"; "mxspd"; "prcp"; "dewp"; "sndp"; "stp";
   "slp"; "visib"; "fog"; "rain"; "snow"; "hail"; "thunder"].

(** The header line. *)
Definition header_text : string :=
  ljust just_size "DATE," +:+
  Text.concat (map (fun attribute =>
                      ljust just_size
                        (upper attribute +:+
                         (if String.eqb attribute last_attribute then "" else ",")))
                   attributes).

End TableNotions.

(** A text made of lines that begin with the comment mark. *)
Inductive comment_block : string -> Prop :=
  | comment_nil : comment_block ""
  | comment_line t rest :
      all_chars (is_not Text.nl) t = true -> comment_block rest ->
      comment_block (String "#" t +:+ String Text.nl rest).

(* ------------------------------------------------------------------ *)
(** ** Further notions: order, rows, column names, tables *)

(** Order by a key, as [sort(key=...)] compares. *)
Definition by_key {A} (key : A -> Q) (a b : A) : Prop := key a <= key b.

(** A row that holds an entry for each attribute. *)
Definition has_attributes (row : Datetime.date * aggregate) : Prop :=
  Forall (fun a => is_Some (row.2 !! a)) Record.attributes.

(** The ASCII range, and its lower-case letters. *)
Definition is_ascii (c : ascii) : bool := (nat_of_ascii c <? 128)%nat.
Definition is_lower (c : ascii) : bool :=
  let n := nat_of_ascii c in (97 <=? n)%nat && (n <=? 122)%nat.

(** A table whose entries are valid and stored under their own key. *)
Definition keyed (float_str : Q -> string) (table : gmap string StationEntry.t) : Prop :=
  forall key entry, table !! key = Some entry ->
    StationEntry.is_valid entry = true /\
    StationEntry.get_key float_str entry = Done key.

(* ================================================================== *)
(** * Theorems *)

Section DistanceWeight.
Import Record.

Lemma distance_weight_far d :
  max_station_distance <= d -> distance_weight d = 0.
Proof.
  intros H. unfold distance_weight.
  apply Qle_bool_iff in H. now rewrite H.
Qed.

Lemma distance_weight_near d :
  d < max_station_distance ->
  distance_weight d = 1 - (d / max_station_distance) ^ 2.
Proof.
  intros H. unfold distance_weight.
  destruct (Qle_bool max_station_distance d) eqn:E; [|reflexivity].
  apply Qle_bool_iff in E. exfalso. apply (Qlt_not_le _ _ H E).
Qed.

Lemma quadratic_falloff d :
  1 - (d / max_station_distance) ^ 2 == 1 - d * d * (1 # 2500).
Proof. unfold max_station_distance. field. Qed.

Lemma square_lt a b : 0 <= a -> a < b -> a * a < b * b.
Proof. intros. nra. Qed.

(** C4: for every distance d >= 0, distance_weight d is
    max(0, 1 - (d/50)^2); it is 1 at 0, 0 from 50 on, strictly
    decreasing on [0, 50) and always within [0, 1]. *)
Theorem distance_weight_spec :
  (forall d, 0 <= d ->
     distance_weight d == Qmax 0 (1 - (d / 50) ^ 2)) /\
  distance_weight 0 == 1 /\
  (forall d, 50 <= d -> distance_weight d == 0) /\
  (forall a b, 0 <= a -> a < b -> b < 50 ->
     distance_weight b < distance_weight a) /\
  (forall d, 0 <= d -> 0 <= distance_weight d /\ distance_weight d <= 1).
Proof.
  assert (Hnear : forall d, 0 <= d -> d < 50 ->
            distance_weight d == 1 - d * d * (1 # 2500) /\ 0 < 1 - d * d * (1 # 2500)).
  { intros d H0 H1. rewrite distance_weight_near by exact H1.
    split; [apply quadratic_falloff|].
    assert (d * d < 50 * 50) by (apply square_lt; assumption).
    lra. }
  split; [|split; [|split; [|split]]].
  - intros d H0. destruct (Qlt_le_dec d 50) as [Hlt|Hge].
    + destruct (Hnear d H0 Hlt) as [He Hp].
      rewrite Q.max_r; [now rewrite distance_weight_near|].
      change 50 with max_station_distance.
      rewrite quadratic_falloff. lra.
    + rewrite distance_weight_far by exact Hge.
      rewrite Q.max_l; [reflexivity|].
      change 50 with max_station_distance.
      rewrite quadratic_falloff.
      assert (50 * 50 <= d * d) by nra. lra.
  - reflexivity.
  - intros d H. now rewrite distance_weight_far.
  - intros a b Ha Hab Hb.
    assert (Ha50 : a < 50) by lra.
    assert (Hb0 : 0 <= b) by lra.
    destruct (Hnear a Ha Ha50) as [Ea _].
    destruct (Hnear b Hb0 Hb) as [Eb _].
    rewrite Ea, Eb.
    assert (a * a < b * b) by (apply square_lt; assumption).
    lra.
  - intros d H. destruct (Qlt_le_dec d 50) as [Hlt|Hge].
    + destruct (Hnear d H Hlt) as [He Hp]. rewrite He.
      assert (0 <= d * d) by nra. lra.
    + rewrite distance_weight_far by exact Hge. lra.
Qed.

Lemma distance_weight_spec_witness :
  distance_weight 30 == Qmax 0 (1 - (30 / 50) ^ 2) /\
  distance_weight 60 == 0 /\
  distance_weight 40 < distance_weight 10 /\
  (0 <= distance_weight 25 /\ distance_weight 25 <= 1).
Proof.
  destruct distance_weight_spec as (H1 & _ & H3 & H4 & H5).
  split; [apply H1; vm_compute; discriminate|].
  split; [apply H3; vm_compute; discriminate|].
  split; [apply H4; vm_compute; (reflexivity || discriminate)|].
  apply H5; vm_compute; discriminate.
Defined.

End DistanceWeight.

(* ================================================================== *)
(** ** The result monad *)

Lemma bind_ok {A B} (r : result A) (k : A -> result B) (b : B) :
  bind r k = Ok b -> exists a, r = Ok a /\ k a = Ok b.
Proof. destruct r as [a|ex]; simpl; [eauto|discriminate]. Qed.

Lemma bind_raise {A B} (r : result A) (k : A -> result B) (ex : exn) :
  bind r k = Raise ex ->
  r = Raise ex \/ exists a, r = Ok a /\ k a = Raise ex.
Proof. destruct r as [a|ex']; simpl; [eauto|]. intros [= ->]. now left. Qed.

Lemma from_ok_eq {A} (d : A) (r : result A) :
  raises r = false -> r = Ok (from_ok d r).
Proof. destruct r; [reflexivity|discriminate]. Qed.

Section ResultFacts.
Context {A B : Type}.

Lemma mapM_ok (f : A -> result B) (l : list A) (bs : list B) :
  mapM f l = Ok bs <-> Forall2 (fun a b => f a = Ok b) l bs.
Proof.
  revert bs. induction l as [|a l IH]; intros bs; simpl.
  - split; [intros [= <-]; constructor|inversion 1; reflexivity].
  - split.
    + intros H. apply bind_ok in H as (b & Hb & H).
      apply bind_ok in H as (bs' & Hbs & [= <-]).
      constructor; [exact Hb|now apply IH].
    + inversion 1 as [|? b ? bs' Hb Hbs]; subst.
      rewrite Hb. simpl. apply IH in Hbs. now rewrite Hbs.
Qed.


Lemma mapM_raises (f : A -> result B) (l : list A) :
  Exists (fun a => raises (f a) = true) l -> raises (mapM f l) = true.
Proof.
  induction 1 as [a l Ha|a l _ IH]; simpl.
  - destruct (f a); [discriminate|reflexivity].
  - destruct (f a); simpl; [|reflexivity].
    destruct (mapM f l); [discriminate|reflexivity].
Qed.

End ResultFacts.

(* ================================================================== *)
(** ** Dictionaries built from pairs *)

Section PyDict.
Context {V : Type}.
Implicit Types (l : list (string * V)) (m : gmap string V).

Lemma py_dict_snoc l k v : py_dict (l ++ [(k, v)]) = <[k := v]> (py_dict l).
Proof. unfold py_dict. now rewrite foldl_app. Qed.

Lemma py_dict_lookup_snoc l k v k' :
  py_dict (l ++ [(k, v)]) !! k' =
  if decide (k = k') then Some v else py_dict l !! k'.
Proof. rewrite py_dict_snoc. apply lookup_insert. Qed.

(** Every key of the list is a key of the dictionary. *)
Lemma py_dict_covers l k v : (k, v) ∈ l -> is_Some (py_dict l !! k).
Proof.
  induction l as [|[k1 v1] l IH] using rev_ind; [inversion 1|].
  rewrite elem_of_app, list_elem_of_singleton, py_dict_lookup_snoc.
  intros [Hin|[= -> ->]].
  - case_decide; [eauto|now apply IH].
  - rewrite decide_True by reflexivity. eauto.
Qed.

(** A value found in the dictionary is the value of a pair of the list,
    and no later pair has that key. *)
Lemma py_dict_lookup_last l k v :
  py_dict l !! k = Some v <->
  exists l1 l2, l = l1 ++ (k, v) :: l2 /\ Forall (fun kv => kv.1 <> k) l2.
Proof.
  induction l as [|[k1 v1] l IH] using rev_ind.
  - split; [unfold py_dict; simpl; rewrite lookup_empty; discriminate|].
    intros (l1 & l2 & H & _). destruct l1; discriminate.
  - rewrite py_dict_lookup_snoc. case_decide as Hk.
    + subst k1. split.
      * intros [= ->]. exists l, []. split; [reflexivity|constructor].
      * intros (l1 & l2 & H & Hl2).
        destruct l2 as [|kv l2 _] using rev_ind.
        -- apply app_inj_tail in H as [_ [= ->]]. reflexivity.
        -- rewrite app_comm_cons, app_assoc in H.
           apply app_inj_tail in H as [_ Hkv]. subst kv.
           apply Forall_app in Hl2 as [_ Hl2]. inversion Hl2; subst.
           simpl in *. congruence.
    + rewrite IH. split.
      * intros (l1 & l2 & -> & Hl2). exists l1, (l2 ++ [(k1, v1)]).
        split; [now rewrite <- app_assoc|].
        apply Forall_app. split; [exact Hl2|]. repeat constructor. exact Hk.
      * intros (l1 & l2 & H & Hl2).
        destruct l2 as [|kv l2 _] using rev_ind.
        -- apply app_inj_tail in H as [_ [= -> ->]]. congruence.
        -- rewrite app_comm_cons, app_assoc in H.
           apply app_inj_tail in H as [Hl Hkv]. subst kv l.
           apply Forall_app in Hl2 as [Hl2 _]. eauto.
Qed.

End PyDict.

(* ================================================================== *)
(** ** station.py: the observation parser *)

Section Parser.
Import Text Decimal Station.

Lemma lookup_clear_sentinel sentinel (d : datum) a b :
  clear_sentinel sentinel d a !! b =
  if decide (a = b) then
    (if equals (d !! a) sentinel then Some None else d !! a)
  else d !! b.
Proof.
  unfold clear_sentinel. destruct (equals (d !! a) sentinel) eqn:E.
  - rewrite lookup_insert. now repeat case_decide.
  - case_decide; congruence.
Qed.

Lemma equals_cleared sentinel : equals (Some None) sentinel = false.
Proof. reflexivity. Qed.

(** Clearing sentinels over a list of names touches those names only. *)
Lemma lookup_clear_sentinels sentinel names : forall (d : datum) b,
  foldl (clear_sentinel sentinel) d names !! b =
  if decide (b ∈ names) then
    (if equals (d !! b) sentinel then Some None else d !! b)
  else d !! b.
Proof.
  induction names as [|a names IH]; intros d b; cbn [foldl].
  - case_decide as H; [inversion H|reflexivity].
  - rewrite IH, !lookup_clear_sentinel.
    destruct (decide (b ∈ a :: names)) as [Hin|Hin];
      destruct (decide (a = b)) as [->|Hab];
      destruct (decide (b ∈ names)) as [Hin'|Hin'];
      try (exfalso; apply elem_of_cons in Hin as [?|?]; congruence);
      try (exfalso; apply Hin, elem_of_cons; auto; fail);
      destruct (equals (d !! b) sentinel) eqn:E; simpl; rewrite ?E; reflexivity.
Qed.

Lemma lookup_missing_values (d : datum) b :
  missing_values d !! b =
  if decide (b ∈ nines_9999) then
    (if equals (d !! b) 9999.9 then Some None else d !! b)
  else if decide (b ∈ nines_999) then
    (if equals (d !! b) 999.9 then Some None else d !! b)
  else d !! b.
Proof.
  unfold missing_values. fold nines_9999 nines_999.
  rewrite !lookup_clear_sentinels.
  destruct (decide (b ∈ nines_9999)) as [H1|H1];
    destruct (decide (b ∈ nines_999)) as [H2|H2]; try reflexivity.
  - exfalso. revert H1 H2. unfold nines_9999, nines_999.
    rewrite !elem_of_cons, !elem_of_nil. intros H1 H2.
    repeat (destruct H1 as [H1|H1]; [subst b;
      repeat (destruct H2 as [H2|H2]; [discriminate|]); exact H2|]). exact H1.
Qed.

Ltac names_ne :=
  repeat (apply not_elem_of_cons; split; [discriminate|]); apply not_elem_of_nil.

Lemma lookup_missing_values_other (d : datum) b :
  b ∉ nines_9999 -> b ∉ nines_999 -> missing_values d !! b = d !! b.
Proof.
  intros H1 H2. rewrite lookup_missing_values.
  now rewrite !decide_False by assumption.
Qed.

Lemma lookup_missing_values_999 (d : datum) b :
  b ∈ nines_999 ->
  missing_values d !! b = if equals (d !! b) 999.9 then Some None else d !! b.
Proof.
  intros H2. rewrite lookup_missing_values.
  rewrite (decide_True (P := b ∈ nines_999)) by assumption.
  case_decide as H1; [|reflexivity].
  exfalso. revert H1 H2. unfold nines_9999, nines_999.
  rewrite !elem_of_cons, !elem_of_nil. intros H1 H2.
  repeat (destruct H1 as [H1|H1]; [subst b;
    repeat (destruct H2 as [H2|H2]; [discriminate|]); exact H2|]). exact H1.
Qed.

(** The daily record of a line, in terms of its raw dictionary. *)
Lemma parse_line_steps line key d :
  parse_line line = Ok (key, d) ->
  exists r flag,
    raw_datum line = Ok r /\ index 123 line = Ok flag /\
    key = slice 14 22 line /\
    d = snow_flag (precipitation_flag flag (missing_values r)).
Proof.
  unfold parse_line. intros H.
  apply bind_ok in H as (r & Hr & H).
  apply bind_ok in H as (flag & Hf & [= <- <-]).
  eauto 6.
Qed.

Lemma lookup_precipitation_flag flag (d : datum) b :
  b <> "prcp"%string -> precipitation_flag flag d !! b = d !! b.
Proof.
  intros Hb. unfold precipitation_flag.
  repeat match goal with
         | |- context [if ?c then _ else _] => destruct c
         end; rewrite ?lookup_insert_ne by congruence; reflexivity.
Qed.

Lemma lookup_snow_flag (d : datum) b :
  b <> "sndp"%string -> snow_flag d !! b = d !! b.
Proof.
  intros Hb. unfold snow_flag.
  destruct (_ && _); rewrite ?lookup_insert_ne by congruence; reflexivity.
Qed.

(** C7: a field that carries its sentinel (9999.9 for temp, dewp, slp,
    stp, max, min; 999.9 for visib, wdsp, mxspd, gust, sndp; 99.99 or the
    flag I for prcp) is absent after the translation; precipitation and
    snow depth that are absent then become 0 exactly when the rain,
    respectively snow, indicator is false, and stay absent otherwise. *)
Theorem sentinels_become_absent line key (r d : datum) :
  raw_datum line = Ok r ->
  parse_line line = Ok (key, d) ->
  let rain := truthy (default None (r !! "rain")) in
  let snow := truthy (default None (r !! "snow")) in
  (forall a, a ∈ nines_9999 -> equals (r !! a) 9999.9 = true ->
     missing_values r !! a = Some None /\ d !! a = Some None) /\
  (forall a, a ∈ ["visib"; "wdsp"; "mxspd"; "gust"]%string ->
     equals (r !! a) 999.9 = true ->
     missing_values r !! a = Some None /\ d !! a = Some None) /\
  (String.get 123 line = Some "I"%char \/ equals (r !! "prcp") 99.99 = true ->
     d !! "prcp" = Some (if rain then None else Some (PFloat 0))) /\
  (equals (r !! "sndp") 999.9 = true ->
     missing_values r !! "sndp" = Some None /\
     d !! "sndp" = Some (if snow then None else Some (PFloat 0))).
Proof.
  intros Hr Hp rain snow.
  apply parse_line_steps in Hp as (r' & flag & Hr' & Hflag & _ & ->).
  rewrite Hr in Hr'. injection Hr' as <-.
  assert (Hmv : forall a, a ∈ nines_9999 ++ nines_999 ->
            equals (r !! a) (if decide (a ∈ nines_9999) then 9999.9 else 999.9) = true ->
            missing_values r !! a = Some None).
  { intros a Ha E. rewrite lookup_missing_values.
    destruct (decide (a ∈ nines_9999)) as [H1|H1]; [now rewrite E|].
    apply elem_of_app in Ha as [Ha|Ha]; [tauto|].
    rewrite decide_True by exact Ha. now rewrite E. }
  split; [|split; [|split]].
  - intros a Ha E.
    assert (missing_values r !! a = Some None) as Hm.
    { apply Hmv; [apply elem_of_app; now left|]. now rewrite decide_True. }
    split; [exact Hm|].
    rewrite lookup_snow_flag, lookup_precipitation_flag; [exact Hm| |];
      intros ->; revert Ha; unfold nines_9999;
      rewrite !elem_of_cons, elem_of_nil; intros Ha;
      repeat (destruct Ha as [Ha|Ha]; [discriminate|]); exact Ha.
  - intros a Ha E.
    assert (Hn : a ∉ nines_9999).
    { revert Ha. unfold nines_9999. rewrite !elem_of_cons, !elem_of_nil.
      intros Ha Hb.
      repeat (destruct Ha as [Ha|Ha]; [subst a;
        repeat (destruct Hb as [Hb|Hb]; [discriminate|]); exact Hb|]). exact Ha. }
    assert (missing_values r !! a = Some None) as Hm.
    { apply Hmv.
      - apply elem_of_app. right. revert Ha. unfold nines_999.
        rewrite !elem_of_cons, !elem_of_nil. tauto.
      - now rewrite decide_False. }
    split; [exact Hm|].
    rewrite lookup_snow_flag, lookup_precipitation_flag; [exact Hm| |];
      intros ->; revert Ha; rewrite !elem_of_cons, elem_of_nil; intros Ha;
      repeat (destruct Ha as [Ha|Ha]; [discriminate|]); exact Ha.
  - intros Hs.
    rewrite lookup_snow_flag by discriminate.
    assert (Hp : missing_values r !! "prcp" = r !! "prcp")
      by (apply lookup_missing_values_other; names_ne).
    assert (Hrain : missing_values r !! "rain" = r !! "rain")
      by (apply lookup_missing_values_other; names_ne).
    assert (Hcond : Ascii.eqb flag "I" || equals (missing_values r !! "prcp") 99.99 = true).
    { rewrite Hp. destruct Hs as [Hs|Hs].
      - unfold index in Hflag. rewrite Hs in Hflag. injection Hflag as <-.
        reflexivity.
      - rewrite Hs. apply orb_true_r. }
    unfold precipitation_flag. rewrite Hcond.
    rewrite (lookup_insert_ne _ "prcp" "rain") by discriminate.
    rewrite lookup_insert_eq, Hrain. fold rain.
    destruct rain; cbn [negb andb is_none]; apply lookup_insert_eq.
  - intros Hs.
    assert (Hm : missing_values r !! "sndp" = Some None).
    { rewrite lookup_missing_values_999, Hs; [reflexivity|].
      unfold nines_999. rewrite !elem_of_cons. tauto. }
    assert (Hsnow : missing_values r !! "snow" = r !! "snow")
      by (apply lookup_missing_values_other; names_ne).
    split; [exact Hm|].
    unfold snow_flag.
    rewrite !lookup_precipitation_flag by discriminate.
    rewrite Hm, Hsnow. fold snow.
    destruct snow; cbn [negb andb is_none].
    + rewrite lookup_precipitation_flag by discriminate. exact Hm.
    + apply lookup_insert_eq.
Qed.

Lemma sentinels_become_absent_witness :
  exists key d,
    parse_line Sample.line_sentinels = Ok (key, d) /\
    d !! "temp" = Some None /\ d !! "visib" = Some None /\
    d !! "prcp" = Some None /\ d !! "sndp" = Some (Some (PFloat 0)).
Proof.
  pose (r := from_ok ∅ (raw_datum Sample.line_sentinels)).
  pose (kd := from_ok (""%string, ∅) (parse_line Sample.line_sentinels)).
  assert (Hr : raw_datum Sample.line_sentinels = Ok r)
    by (apply from_ok_eq; vm_compute; reflexivity).
  assert (Hp : parse_line Sample.line_sentinels = Ok (kd.1, kd.2)).
  { rewrite <- surjective_pairing. apply from_ok_eq. vm_compute. reflexivity. }
  exists kd.1, kd.2. split; [exact Hp|].
  destruct (sentinels_become_absent _ _ _ _ Hr Hp) as (H1 & H2 & H3 & H4).
  split; [apply H1; [unfold nines_9999; rewrite !elem_of_cons; tauto|
                     vm_compute; reflexivity]|].
  split; [apply H2; [rewrite !elem_of_cons; tauto|vm_compute; reflexivity]|].
  split; [apply H3; right; vm_compute; reflexivity|].
  apply H4; vm_compute; reflexivity.
Defined.



Lemma data_lines_file_malformed :
  data_lines Sample.file_malformed = [Sample.line_ok; Sample.line_truncated].
Proof. vm_compute. reflexivity. Qed.



End Parser.

(* ================================================================== *)
(** ** station.py: retrieval *)

Section Retrieval.
Import Station.





End Retrieval.

(* ================================================================== *)
(** ** record.py: the weighted average of a day *)

Section Aggregation.
Import Record Spec.

Lemma present_values_cons attribute (entry : datum * Q) daily :
  present_values attribute (entry :: daily) =
  match entry.1 !! attribute with
  | Some (Some v) => (num v, entry.2) :: present_values attribute daily
  | _ => present_values attribute daily
  end.
Proof.
  unfold present_values. cbn [omap list_omap].
  destruct (entry.1 !! attribute) as [[v|]|]; reflexivity.
Qed.

(** The inner loop keeps the two running sums of the present values. *)
Lemma accumulate_sums attribute (daily : list (datum * Q)) : forall v t vt,
  foldl (accumulate attribute) (Ok (v, t)) daily = Ok vt ->
  vt.1 = foldl Qplus v (map (fun p => p.1 * p.2) (present_values attribute daily)) /\
  vt.2 = foldl Qplus t (map snd (present_values attribute daily)).
Proof.
  induction daily as [|entry daily IH]; intros v t vt; cbn [foldl].
  - intros [= <-]. split; reflexivity.
  - unfold accumulate at 2. cbn [bind]. rewrite present_values_cons.
    destruct (entry.1 !! attribute) as [[x|]|] eqn:E.
    + intros H. apply IH in H. cbn [map foldl fst snd] in *. exact H.
    + intros H. apply IH in H. exact H.
    + intros H. exfalso. clear -H.
      induction daily as [|e' daily IH']; [discriminate|]. now apply IH'.
Qed.

Lemma accumulate_total attribute (daily : list (datum * Q)) : forall acc,
  Forall (fun entry : datum * Q => is_Some (entry.1 !! attribute)) daily ->
  exists vt, foldl (accumulate attribute) (Ok acc) daily = Ok vt.
Proof.
  induction daily as [|entry daily IH]; intros acc; cbn [foldl]; [eauto|].
  inversion 1 as [|? ? [x Hx] Hrest]; subst.
  unfold accumulate at 2. cbn [bind]. rewrite Hx.
  destruct x; apply IH, Hrest.
Qed.

(** The value the code stores for an attribute is the weighted mean of
    the present values. *)
Lemma weighted_average_spec attribute (daily : list (datum * Q)) value :
  weighted_average attribute daily = Ok value ->
  value = weighted_mean (present_values attribute daily).
Proof.
  unfold weighted_average. intros H.
  apply bind_ok in H as (vt & Hvt & H).
  apply accumulate_sums in Hvt as [Hv Ht].
  unfold weighted_mean, total_weight, sum_Q. rewrite <- Hv, <- Ht.
  destruct (Qeq_bool vt.2 0); congruence.
Qed.

Lemma weighted_average_total attribute (daily : list (datum * Q)) :
  Forall (fun entry : datum * Q => is_Some (entry.1 !! attribute)) daily ->
  exists value, weighted_average attribute daily = Ok value.
Proof.
  intros H. destruct (accumulate_total attribute daily (0, 0) H) as [vt Hvt].
  unfold weighted_average. rewrite Hvt. cbn [bind].
  destruct (Qeq_bool vt.2 0); eauto.
Qed.

(** The loop over the attributes. *)
Lemma populate_loop (daily : list (datum * Q)) attrs : forall (m datum : aggregate),
  foldl (fun acc attribute =>
           let! datum := acc in
           let! value := weighted_average attribute daily in
           Ok (<[attribute := value]> datum)) (Ok m) attrs = Ok datum ->
  forall a,
    (a ∈ attrs -> exists value,
       weighted_average a daily = Ok value /\ datum !! a = Some value) /\
    (a ∉ attrs -> datum !! a = m !! a).
Proof.
  induction attrs as [|b attrs IH]; intros m datum; cbn [foldl].
  - intros [= <-] a. split; [inversion 1|reflexivity].
  - cbn [bind]. destruct (weighted_average b daily) as [vb|ex] eqn:Hb; cbn [bind].
    + intros H a. destruct (IH _ _ H a) as [Hin Hout].
      split.
      * intros Ha. destruct (decide (a ∈ attrs)) as [Hd|Hd]; [auto|].
        apply elem_of_cons in Ha as [->|Ha]; [|contradiction].
        exists vb. split; [exact Hb|].
        rewrite (Hout Hd). apply lookup_insert_eq.
      * intros Ha. apply not_elem_of_cons in Ha as [Hab Ha].
        rewrite (Hout Ha). apply lookup_insert_ne. congruence.
    + intros H. exfalso. clear -H.
      induction attrs as [|c attrs IH']; [discriminate|]. now apply IH'.
Qed.

Lemma populate_total (daily : list (datum * Q)) attrs : forall (m : aggregate),
  Forall (fun a => exists value, weighted_average a daily = Ok value) attrs ->
  exists datum,
    foldl (fun acc attribute =>
             let! datum := acc in
             let! value := weighted_average attribute daily in
             Ok (<[attribute := value]> datum)) (Ok m) attrs = Ok datum.
Proof.
  induction attrs as [|b attrs IH]; intros m; cbn [foldl]; [eauto|].
  inversion 1 as [|? ? [vb Hb] Hrest]; subst.
  cbn [bind]. rewrite Hb. cbn [bind]. apply IH, Hrest.
Qed.

Lemma daily_aggregate_spec all_yearly_data base_weights date (datum : aggregate) :
  daily_aggregate all_yearly_data base_weights date = Ok datum ->
  forall a, a ∈ attributes ->
    datum !! a =
    Some (weighted_mean
            (present_values a
               (gather (Datetime.strftime_Ymd date) all_yearly_data base_weights))).
Proof.
  unfold daily_aggregate, populate. intros H a Ha.
  destruct (populate_loop _ _ _ _ H a) as [Hin _].
  destruct (Hin Ha) as (value & Hv & ->).
  now rewrite (weighted_average_spec _ _ _ Hv).
Qed.

Lemma daily_aggregate_total all_yearly_data base_weights date :
  Forall (fun entry : datum * Q => complete entry.1)
         (gather (Datetime.strftime_Ymd date) all_yearly_data base_weights) ->
  exists datum, daily_aggregate all_yearly_data base_weights date = Ok datum.
Proof.
  intros Hc. unfold daily_aggregate, populate. apply populate_total.
  apply Forall_forall. intros a Ha. apply weighted_average_total.
  eapply Forall_impl; [exact Hc|]. intros entry He. now apply He.
Qed.

End Aggregation.

(* ================================================================== *)
(** ** datetime: years *)

Section DatetimeFacts.
Import Datetime.
Local Open Scope Z_scope.

Lemma year_positive (d : date) : 1 <= d -> 1 <= year d.
Proof.
  intros Hd. unfold year, ord2ymd.
  set (n := d - 1).
  assert (Hn : 0 <= n) by (unfold n; lia).
  pose proof (Z.div_pos n 146097 Hn ltac:(lia)) as H400.
  pose proof (Z.mod_pos_bound n 146097 ltac:(lia)) as [M1 _].
  pose proof (Z.div_pos _ 36524 M1 ltac:(lia)) as H100.
  pose proof (Z.mod_pos_bound (n mod 146097) 36524 ltac:(lia)) as [M2 _].
  pose proof (Z.div_pos _ 1461 M2 ltac:(lia)) as H4.
  pose proof (Z.mod_pos_bound ((n mod 146097) mod 36524) 1461 ltac:(lia)) as [M3 _].
  pose proof (Z.div_pos _ 365 M3 ltac:(lia)) as H1.
  set (n400 := n / 146097) in *.
  set (n100 := n mod 146097 / 36524) in *.
  set (n4 := (n mod 146097) mod 36524 / 1461) in *.
  set (n1 := ((n mod 146097) mod 36524) mod 1461 / 365) in *.
  destruct ((n1 =? 4) || (n100 =? 4)) eqn:E.
  - cbn [fst]. apply orb_true_iff in E as [E|E]; apply Z.eqb_eq in E; lia.
  - match goal with
    | |- context [if ?c then _ else _] => destruct c
    end; cbn [fst]; lia.
Qed.

End DatetimeFacts.

(* ================================================================== *)
(** ** record.py: the loop over the days *)

Section Loop.
Import Record Spec Station.

Lemma sbind_ok {A B} (m : world -> result A * world)
    (k : A -> world -> result B * world) w b w' :
  sbind m k w = (Ok b, w') ->
  exists a w1, m w = (Ok a, w1) /\ k a w1 = (Ok b, w').
Proof.
  unfold sbind. destruct (m w) as [[a|ex] w1]; [eauto|discriminate].
Qed.

Lemma gather_days_rows e stations base_weights : forall days date year yd data w rows w',
  (year = Datetime.year date -> fetched e stations year yd) ->
  gather_days e stations base_weights days date year yd data w = (Ok rows, w') ->
  exists new,
    rows = data ++ new /\
    map fst new = seqZ date (Z.of_nat days) /\
    Forall (row_ok e stations base_weights) new.
Proof.
  induction days as [|days IH]; intros date year yd data w rows w' Hyd; cbn [gather_days].
  - intros [= <- <-]. exists []. rewrite app_nil_r. repeat split. constructor.
  - intros H.
    apply sbind_ok in H as (yd1 & w1 & Hfetch & H).
    apply sbind_ok in H as (datum & w2 & Hdatum & H).
    apply sbind_ok in H as (next & w3 & Hnext & H).
    unfold lift in Hdatum, Hnext.
    injection Hdatum as Hdatum <-. injection Hnext as Hnext <-.
    assert (Hyd1 : fetched e stations (Datetime.year date) yd1).
    { destruct (year =? Datetime.year date)%Z eqn:E; cbn [negb] in Hfetch.
      - apply Z.eqb_eq in E. injection Hfetch as <- <-.
        rewrite <- E. now apply Hyd.
      - now exists w, w1. }
    assert (Hn : next = (date + 1)%Z).
    { unfold Datetime.add_days in Hnext.
      destruct (_ && _); congruence. }
    subst next.
    apply IH in H as (new & -> & Hdates & Hrows).
    + exists ((date, datum) :: new). split; [now rewrite <- app_assoc|].
      split.
      * cbn [map fst]. rewrite Hdates.
        rewrite (seqZ_cons date (Z.of_nat (S days))) by lia.
        f_equal. f_equal; lia.
      * constructor; [|exact Hrows]. now exists yd1.
    + intros _. exact Hyd1.
Qed.

Lemma py_dict_covers_key {V} (l : list (string * V)) k :
  k ∈ map fst l -> is_Some (py_dict l !! k).
Proof.
  intros H. apply list_elem_of_fmap in H as ([k' v] & -> & Hin).
  eapply py_dict_covers, Hin.
Qed.

Lemma attributes_raw_keys :
  Forall (fun a => a ∈ raw_keys) ("gust"%string :: attributes).
Proof.
  unfold attributes, raw_keys.
  repeat (constructor;
          [apply list_elem_of_In; cbn [In];
           repeat first [left; reflexivity | right]|]).
  constructor.
Qed.

Lemma raw_datum_keys line (r : datum) a :
  raw_datum line = Ok r -> a ∈ "gust"%string :: attributes -> is_Some (r !! a).
Proof.
  unfold raw_datum. intros H Ha.
  repeat (apply bind_ok in H as (? & _ & H)).
  injection H as <-.
  apply py_dict_covers_key. cbn [map fst].
  pose proof attributes_raw_keys as Hk. rewrite Forall_forall in Hk.
  apply Hk, Ha.
Qed.

Lemma is_Some_clear_sentinels sentinel names (d : datum) b :
  is_Some (d !! b) -> is_Some (foldl (clear_sentinel sentinel) d names !! b).
Proof.
  intros H. rewrite lookup_clear_sentinels.
  repeat case_match; eauto.
Qed.

Lemma is_Some_insert {V} (m : gmap string V) a v b :
  is_Some (m !! b) -> is_Some (<[a := v]> m !! b).
Proof. rewrite lookup_insert_is_Some'. auto. Qed.

Lemma parse_line_complete line key (d : datum) :
  parse_line line = Ok (key, d) -> complete d.
Proof.
  intros H a Ha.
  apply parse_line_steps in H as (r & flag & Hr & _ & _ & ->).
  assert (H0 : is_Some (r !! a))
    by (eapply raw_datum_keys; [exact Hr|now apply list_elem_of_further]).
  assert (H1 : is_Some (missing_values r !! a))
    by (unfold missing_values; now do 2 apply is_Some_clear_sentinels).
  assert (H2 : is_Some (precipitation_flag flag (missing_values r) !! a)).
  { unfold precipitation_flag.
    repeat match goal with
           | |- context [if ?c then _ else _] => destruct c
           end; repeat apply is_Some_insert; exact H1. }
  unfold snow_flag. destruct (_ && _); repeat apply is_Some_insert; exact H2.
Qed.

Lemma parse_gsod_data_complete text obs :
  parse_gsod_data text = Ok obs -> complete_obs (Some obs).
Proof.
  intros H obs' key d [= <-] Hl.
  unfold parse_gsod_data in H.
  apply bind_ok in H as (entries & He & [= <-]).
  apply mapM_ok in He.
  apply py_dict_lookup_last in Hl as (l1 & l2 & -> & _).
  assert (Hin : (key, d) ∈ l1 ++ (key, d) :: l2)
    by (apply elem_of_app; right; apply list_elem_of_here).
  apply list_elem_of_lookup in Hin as [i Hi].
  destruct (Forall2_lookup_r _ _ _ _ _ He Hi) as (line & _ & Hp).
  eapply parse_line_complete, Hp.
Qed.

Lemma sbind_eq {A B} (m : world -> result A * world)
    (k : A -> world -> result B * world) w a w1 :
  m w = (Ok a, w1) -> sbind m k w = k a w1.
Proof. unfold sbind. now intros ->. Qed.

Lemma cached_in_cache e self year w f :
  cached e self year w = Some f -> fs w !! filepath self year = Some f.
Proof.
  unfold cached. destruct (fs w !! filepath self year) as [f'|]; [|discriminate].
  destruct (_ && _); [discriminate|]. now intros [= ->].
Qed.

Lemma parse_file_good text :
  good_text text ->
  exists obs, parse_file text = Ok (Some obs) /\ complete_obs (Some obs).
Proof.
  unfold good_text, parse_file. intros H.
  destruct (parse_gsod_data text) as [obs|] eqn:E; [|discriminate].
  exists obs. split; [reflexivity|]. eapply parse_gsod_data_complete, E.
Qed.

(** With a server that answers and texts that parse, a retrieval
    returns, and the cache stays parseable. *)
Lemma retrieve_obs_total e self year w :
  good_env e -> good_world w ->
  exists o w', retrieve_obs e self year w = (Ok o, w') /\
               good_world w' /\ complete_obs o.
Proof.
  intros He Hw. unfold retrieve_obs.
  destruct (in_range self year); cbn [negb].
  - destruct (cached e self year w) as [f|] eqn:Hc.
    + apply cached_in_cache, Hw in Hc.
      destruct (parse_file_good _ Hc) as (obs & -> & Hobs). eauto.
    + specialize (He (url self year)).
      destruct (urlretrieve e (url self year)) as [text|code|]; [| |contradiction].
      * destruct (parse_file_good _ He) as (obs & -> & Hobs).
        eexists _, _. split; [reflexivity|]. split; [|exact Hobs].
        intros path f. cbn [fs]. rewrite lookup_insert.
        case_decide; [intros [= <-]; exact He|apply Hw].
      * eexists _, _. split; [reflexivity|]. split; [exact Hw|].
        intros ? ? ? [=].
  - eexists _, _. split; [reflexivity|]. split; [exact Hw|]. intros ? ? ? [=].
Qed.

Lemma fetch_year_total e stations year : forall w,
  good_env e -> good_world w ->
  exists yd w', fetch_year e stations year w = (Ok yd, w') /\
                good_world w' /\ Forall complete_obs yd.
Proof.
  induction stations as [|s stations IH]; intros w He Hw; cbn [fetch_year].
  - exists [], w. repeat split; [exact Hw|constructor].
  - destruct (retrieve_obs_total e s year w He Hw) as (o & w1 & Ho & Hw1 & Hc).
    destruct (IH w1 He Hw1) as (yd & w2 & Hyd & Hw2 & Hcs).
    exists (o :: yd), w2.
    rewrite (sbind_eq _ _ _ _ _ Ho), (sbind_eq _ _ _ _ _ Hyd).
    repeat split; [exact Hw2|]. constructor; assumption.
Qed.

Lemma gather_complete key yd base_weights :
  Forall complete_obs yd ->
  Forall (fun entry : datum * Q => complete entry.1) (gather key yd base_weights).
Proof.
  intros Hyd. apply Forall_forall. intros [d t] Hin.
  unfold gather in Hin. apply list_elem_of_omap in Hin as ([o t'] & Hz & Hf).
  cbn [fst snd] in Hf.
  destruct o as [obs|]; [|discriminate].
  destruct (obs !! key) as [d'|] eqn:Hl; [|discriminate].
  injection Hf as <- <-.
  apply elem_of_zip_l in Hz.
  rewrite Forall_forall in Hyd. eapply Hyd; [exact Hz|reflexivity|exact Hl].
Qed.

Lemma gather_days_total e stations base_weights : forall days date year yd data w,
  good_env e -> good_world w -> Forall complete_obs yd ->
  (0 <= date)%Z -> (date + Z.of_nat days <= Datetime.MAXORDINAL)%Z ->
  exists rows w',
    gather_days e stations base_weights days date year yd data w = (Ok rows, w').
Proof.
  induction days as [|days IH]; intros date year yd data w He Hw Hyd H0 Hmax;
    cbn [gather_days]; [unfold lift; eauto|].
  assert (exists yd1 w1,
            (if negb (year =? Datetime.year date)%Z
             then fetch_year e stations (Datetime.year date)
             else lift (Ok yd)) w = (Ok yd1, w1) /\
            good_world w1 /\ Forall complete_obs yd1)
    as (yd1 & w1 & Hf & Hw1 & Hyd1).
  { destruct (negb _).
    - now apply fetch_year_total.
    - exists yd, w. auto. }
  rewrite (sbind_eq _ _ _ _ _ Hf).
  destruct (daily_aggregate_total yd1 base_weights date) as [datum Hd];
    [now apply gather_complete|].
  rewrite (sbind_eq _ _ w1 datum w1) by (unfold lift; now rewrite Hd).
  assert (Hn : Datetime.add_days date 1 = Ok (date + 1)%Z).
  { unfold Datetime.add_days.
    replace (0 <? date + 1)%Z with true by lia.
    replace (date + 1 <=? Datetime.MAXORDINAL)%Z with true by lia.
    reflexivity. }
  rewrite (sbind_eq _ _ w1 (date + 1)%Z w1) by (unfold lift; now rewrite Hn).
  apply IH; try assumption; lia.
Qed.

End Loop.

(* ================================================================== *)
(** ** station.py: the search around a region *)

Section Search.
Import Station.
Context {Shape SubShape : Type}.
Variable np : NumPy.
Variable sh : Shapely Shape SubShape.

Lemma insert_by_perm {A} (key : A -> Q) x l : insert_by key x l ≡ₚ x :: l.
Proof.
  induction l as [|y l IH]; cbn [insert_by]; [reflexivity|].
  destruct (Qle_bool (key x) (key y)); [reflexivity|].
  rewrite IH. apply Permutation_swap.
Qed.

Lemma sort_by_perm {A} (key : A -> Q) (l : list A) : sort_by key l ≡ₚ l.
Proof.
  induction l as [|x l IH]; [reflexivity|].
  unfold sort_by. cbn [foldr]. fold (sort_by key l).
  now rewrite insert_by_perm, IH.
Qed.

Lemma elem_of_with_distance (f : station -> option Q) stations s d :
  (s, d) ∈ with_distance f stations <-> s ∈ stations /\ f s = Some d.
Proof.
  unfold with_distance. rewrite list_elem_of_omap. split.
  - intros (s' & Hin & H). destruct (f s') as [d'|] eqn:E; [|discriminate].
    injection H as -> ->. auto.
  - intros [Hin H]. exists s. now rewrite H.
Qed.

(** Membership in the result of the search. *)
Lemma elem_of_find station_table shape contour_dist sd ed closest s d :
  find_stations_in_geometry np sh station_table shape contour_dist sd ed = Ok closest ->
  (s, d) ∈ closest <->
  s ∈ get_stations station_table sd ed /\
  exists max_dist, cutoff np sh shape contour_dist = Ok max_dist /\
    station_distance np sh shape contour_dist max_dist s = Some d.
Proof.
  unfold find_stations_in_geometry. intros H.
  apply bind_ok in H as (max_dist & Hm & [= <-]).
  rewrite sort_by_perm, elem_of_with_distance. split.
  - intros [? ?]. eauto.
  - intros (? & max_dist' & Hm' & ?). rewrite Hm in Hm'. injection Hm' as <-. auto.
Qed.



End Search.

Section SearchSamples.
Import Station Sample.






End SearchSamples.

(* ================================================================== *)
(** ** record.py: building the series *)

Section BuildFacts.
Import Record Spec Station.
Context {Shape SubShape : Type}.
Variable np : NumPy.
Variable sh : Shapely Shape SubShape.
Variable station_table : list station.
Variable e : env.

Lemma length_zero_iff {A} (l : list A) : (length l =? 0)%nat = true <-> l = [].
Proof. destruct l; cbn; split; congruence. Qed.

(** Without a station the constructor returns before [data] is assigned. *)
Lemma build_no_station self w :
  found np sh station_table self = Ok [] ->
  exists r, build np sh station_table e self w = (Ok r, w) /\ data r = data self.
Proof.
  intros Hf. unfold build. fold (found np sh station_table self). rewrite Hf.
  eexists. split; reflexivity.
Qed.

(** The series of a completed build. *)
Lemma build_rows self w r w' closest :
  found np sh station_table self = Ok closest -> closest <> [] ->
  (1 <= start_date self)%Z ->
  build np sh station_table e self w = (Ok r, w') ->
  exists rows,
    data r = Some rows /\
    map fst rows = seqZ (start_date self)
                     (Z.of_nat (Z.to_nat (end_date self - start_date self + 1))) /\
    Forall (row_ok e (chosen_stations self closest) (chosen_weights self closest)) rows.
Proof.
  intros Hf Hne Hstart H. unfold build in H. fold (found np sh station_table self) in H.
  apply sbind_ok in H as (c & w1 & Hc & H).
  unfold lift in Hc. rewrite Hf in Hc. injection Hc as <- <-.
  destruct (length closest =? 0)%nat eqn:El;
    [apply length_zero_iff in El; contradiction|].
  apply sbind_ok in H as (_ & w2 & _ & H).
  apply sbind_ok in H as (rows & w3 & Hrows & H).
  unfold lift in H. injection H as <- <-.
  apply gather_days_rows in Hrows as (new & -> & Hdates & Hok).
  - exists new. repeat split; assumption.
  - intros Hy. pose proof (year_positive _ Hstart). lia.
Qed.

Lemma pruned_nonempty (max_stations : Z) (closest : list (station * Q)) :
  closest <> [] -> (1 <= max_stations)%Z -> pruned max_stations closest <> [].
Proof.
  intros Hne Hmax. unfold pruned, py_take.
  destruct closest as [|c closest]; [contradiction|].
  set (k := Z.min max_stations (Z.of_nat (length (c :: closest)))).
  assert (Hk : (1 <= k)%Z) by (unfold k; cbn [length]; lia).
  destruct (Z.ltb_spec k 0) as [?|_]; [lia|].
  destruct (Z.to_nat k) eqn:E; [lia|discriminate].
Qed.

(** A build whose retrievals cannot abort completes. *)
Lemma build_total self w closest :
  found np sh station_table self = Ok closest -> closest <> [] ->
  (1 <= max_stations self)%Z ->
  (1 <= start_date self)%Z -> (start_date self <= end_date self)%Z ->
  (end_date self < Datetime.MAXORDINAL)%Z ->
  good_env e -> good_world w ->
  exists r w', build np sh station_table e self w = (Ok r, w').
Proof.
  intros Hf Hne Hmax Hstart Hle Hend He Hw. unfold build. fold (found np sh station_table self).
  rewrite Hf. unfold sbind at 1, lift at 1.
  destruct (length closest =? 0)%nat eqn:El;
    [apply length_zero_iff in El; contradiction|].
  pose proof (pruned_nonempty _ _ Hne Hmax) as Hp.
  destruct (length (pruned (max_stations self) closest) =? 0)%nat eqn:El';
    [apply length_zero_iff in El'; contradiction|].
  unfold sbind at 1, lift at 1.
  match goal with
  | |- context [gather_days e ?st ?bw ?n ?d ?y ?yd ?data] =>
      destruct (gather_days_total e st bw n d y yd data w He Hw) as (rows & w' & Hrows);
        [constructor|lia|lia|]
  end.
  rewrite (sbind_eq _ _ _ _ _ Hrows). unfold lift. eauto.
Qed.

(** C5: when at least one station qualifies and start_date <= end_date,
    the series of a completed build has exactly the days from start_date
    to end_date, in ascending order; each row is the aggregate of its date
    over the data retrieved for its year, and a date for which no station
    has a record is in the series with every attribute absent.  The build
    completes when no retrieval aborts (and max_stations is at least 1,
    end_date before the last representable day). *)
Theorem one_row_per_day self w closest :
  found np sh station_table self = Ok closest -> closest <> [] ->
  (1 <= start_date self)%Z -> (start_date self <= end_date self)%Z ->
  (forall r w', build np sh station_table e self w = (Ok r, w') ->
     exists rows,
       data r = Some rows /\
       map fst rows = seqZ (start_date self) (end_date self - start_date self + 1) /\
       forall date row, (date, row) ∈ rows ->
         exists all_yearly_data,
           fetched e (chosen_stations self closest) (Datetime.year date) all_yearly_data /\
           daily_aggregate all_yearly_data (chosen_weights self closest) date = Ok row /\
           (gather (Datetime.strftime_Ymd date) all_yearly_data
                   (chosen_weights self closest) = [] ->
            forall a, a ∈ attributes -> row !! a = Some None)) /\
  ((1 <= max_stations self)%Z -> (end_date self < Datetime.MAXORDINAL)%Z ->
   good_env e -> good_world w ->
   exists r w', build np sh station_table e self w = (Ok r, w')).
Proof.
  intros Hf Hne Hstart Hle. split.
  - intros r w' Hb.
    destruct (build_rows _ _ _ _ _ Hf Hne Hstart Hb) as (rows & Hd & Hdates & Hrows).
    exists rows. split; [exact Hd|]. split; [rewrite Hdates; f_equal; lia|].
    intros date row Hin. rewrite Forall_forall in Hrows.
    destruct (Hrows _ Hin) as (yd & Hyd & Hagg). cbn [fst snd] in *.
    exists yd. split; [exact Hyd|]. split; [exact Hagg|].
    intros Hnone a Ha.
    rewrite (daily_aggregate_spec _ _ _ _ Hagg a Ha), Hnone. reflexivity.
  - intros Hmax Hend He Hw. eapply build_total; eassumption.
Qed.

(** C1: for every date of the series and each tracked attribute, the
    value is the sum of v_i * w_i over the sum of w_i, taken over the
    stations with a record for the date whose value for the attribute is
    present, w_i being the station's trust weight; the attribute is absent
    exactly when that total weight is zero. *)
Theorem weighted_mean_of_present_values :
  (forall all_yearly_data base_weights date (row : aggregate) a,
     daily_aggregate all_yearly_data base_weights date = Ok row ->
     a ∈ attributes ->
     let vw := present_values a
                 (gather (Datetime.strftime_Ymd date) all_yearly_data base_weights) in
     row !! a = Some (weighted_mean vw) /\
     (row !! a = Some None <-> total_weight vw == 0) /\
     (forall x, row !! a = Some (Some x) ->
        x = sum_Q (map (fun p => p.1 * p.2) vw) / sum_Q (map snd vw))) /\
  (forall self w closest r w',
     found np sh station_table self = Ok closest -> closest <> [] -> (1 <= start_date self)%Z ->
     build np sh station_table e self w = (Ok r, w') ->
     exists rows,
       data r = Some rows /\
       forall date row, (date, row) ∈ rows ->
         exists all_yearly_data,
           fetched e (chosen_stations self closest) (Datetime.year date) all_yearly_data /\
           daily_aggregate all_yearly_data (chosen_weights self closest) date = Ok row).
Proof.
  split.
  - intros yd ws date row a Hagg Ha vw.
    pose proof (daily_aggregate_spec _ _ _ _ Hagg a Ha) as Hrow.
    fold vw in Hrow. split; [exact Hrow|].
    rewrite Hrow. unfold weighted_mean.
    destruct (Qeq_bool (total_weight vw) 0) eqn:E.
    + split; [|discriminate]. split; [intros _|reflexivity].
      now apply Qeq_bool_iff.
    + split; [|now intros x [= <-]].
      split; [discriminate|]. intros H. apply Qeq_bool_iff in H. congruence.
  - intros self w closest r w' Hf Hne Hstart Hb.
    destruct (build_rows _ _ _ _ _ Hf Hne Hstart Hb) as (rows & Hd & _ & Hrows).
    exists rows. split; [exact Hd|].
    intros date row Hin. rewrite Forall_forall in Hrows.
    exact (Hrows _ Hin).
Qed.

Lemma init_data today name (shape : Shape) sd ed contour max_st self :
  init today name shape sd ed contour max_st = Ok self -> data self = None.
Proof.
  unfold init. intros H.
  apply bind_ok in H as (? & _ & H). apply bind_ok in H as (? & _ & [= <-]).
  reflexivity.
Qed.

(** C10: when the search returns no station, the constructor returns
    without ever assigning the series, and exporting the record fails
    with an error once the header is written, instead of producing a table
    without rows. *)
Theorem no_station_no_data today name (shape : Shape) sd ed contour max_st self w :
  init today name shape sd ed contour max_st = Ok self ->
  found np sh station_table self = Ok [] ->
  exists r,
    new np sh station_table e today name shape sd ed contour max_st w = (Ok r, w) /\
    data r = None /\
    (export_as_csv r).2 = Raise AttributeError.
Proof.
  intros Hi Hf. unfold new.
  rewrite (sbind_eq _ _ w self w) by (unfold lift; now rewrite Hi).
  destruct (build_no_station self w Hf) as (r & Hb & Hd).
  exists r. split; [exact Hb|].
  rewrite (init_data _ _ _ _ _ _ _ _ Hi) in Hd.
  split; [exact Hd|]. unfold export_as_csv. now rewrite Hd.
Qed.

End BuildFacts.

Section BuildSamples.
Import Record Spec Station Sample.

Lemma good_env_up : good_env env_up.
Proof. intros u. cbn [urlretrieve env_up]. vm_compute. reflexivity. Qed.

Lemma good_empty_world : good_world empty_world.
Proof. intros path f. cbn [fs empty_world]. rewrite lookup_empty. discriminate. Qed.

Lemma one_row_per_day_witness :
  exists r w' rows,
    build numpy shapely [oslo; bergen] env_up record_3days empty_world = (Ok r, w') /\
    data r = Some rows /\
    map fst rows = [737424; 737425; 737426]%Z.
Proof.
  pose (closest := from_ok [] (found numpy shapely [oslo; bergen] record_3days)).
  assert (Hf : found numpy shapely [oslo; bergen] record_3days = Ok closest)
    by (apply from_ok_eq; vm_compute; reflexivity).
  assert (Hlen : length closest = 1%nat) by (vm_compute; reflexivity).
  clearbody closest.
  assert (Hne : closest <> []) by (intros ->; discriminate Hlen).
  destruct (one_row_per_day numpy shapely [oslo; bergen] env_up record_3days
              empty_world closest Hf Hne) as [HB HA].
  - cbn. lia.
  - cbn. lia.
  - destruct HA as (r & w' & Hb).
    + cbn. lia.
    + cbn. unfold Datetime.MAXORDINAL. lia.
    + exact good_env_up.
    + exact good_empty_world.
    + destruct (HB r w' Hb) as (rows & Hd & Hdates & _).
      exists r, w', rows. split; [exact Hb|]. split; [exact Hd|exact Hdates].
Defined.

Lemma weighted_mean_of_present_values_witness :
  exists (row : aggregate) x,
    daily_aggregate three_stations three_weights 737425%Z = Ok row /\
    row !! "temp" = Some (Some x) /\
    x = (0 + 10 * 0.5 + 20 * 0.25) / (0 + 0.5 + 0.25) /\
    x == 40 # 3.
Proof.
  pose (row := from_ok ∅ (daily_aggregate three_stations three_weights 737425%Z)).
  assert (Hr : daily_aggregate three_stations three_weights 737425%Z = Ok row)
    by (apply from_ok_eq; vm_compute; reflexivity).
  destruct (weighted_mean_of_present_values numpy shapely [] env_up) as [H _].
  destruct (H three_stations three_weights 737425%Z row "temp"%string Hr)
    as (H1 & _ & H3).
  { unfold attributes. rewrite !elem_of_cons. tauto. }
  exists row, ((0 + 10 * 0.5 + 20 * 0.25) / (0 + 0.5 + 0.25)).
  split; [exact Hr|]. split; [|split; reflexivity].
  rewrite H1. vm_compute. reflexivity.
Defined.

Lemma no_station_no_data_witness :
  exists r,
    new numpy shapely [] env_up 737791%Z "nowhere" region "20191231" (Some "20200102"%string)
      25 12 empty_world = (Ok r, empty_world) /\
    data r = None /\
    (export_as_csv r).2 = Raise AttributeError.
Proof.
  eapply (no_station_no_data numpy shapely [] env_up 737791%Z "nowhere" region
            "20191231" (Some "20200102"%string) 25 12
            (mk "nowhere" region 25 12 737424%Z 737426%Z "" None)).
  - vm_compute. reflexivity.
  - vm_compute. reflexivity.
Defined.

End BuildSamples.

(* ------------------------------------------------------------------ *)
(** ** The calendar: [ord2ymd] inverts [ymd2ord] *)

Section Calendar.
Import Datetime.
Local Open Scope Z_scope.

Lemma month_day_table :
  forallb (month_day_ok true) (seqZ 0 366) = true /\
  forallb (month_day_ok false) (seqZ 0 365) = true.
Proof. split; vm_compute; reflexivity. Qed.

Lemma month_day_spec (n : Z) (leapyear : bool) :
  0 <= n -> n < (if leapyear then 366 else 365) ->
  month_day_ok leapyear n = true.
Proof.
  intros H0 H1. destruct month_day_table as [Ht Hf].
  destruct leapyear.
  - rewrite forallb_forall in Ht. apply Ht.
    apply list_elem_of_In, elem_of_seqZ. lia.
  - rewrite forallb_forall in Hf. apply Hf.
    apply list_elem_of_In, elem_of_seqZ. lia.
Qed.

Lemma is_leap_spec y :
  (is_leap y = true /\ y mod 4 = 0 /\ (y mod 100 <> 0 \/ y mod 400 = 0)) \/
  (is_leap y = false /\ (y mod 4 <> 0 \/ (y mod 100 = 0 /\ y mod 400 <> 0))).
Proof.
  unfold is_leap.
  destruct (Z.eqb_spec (y mod 4) 0); destruct (Z.eqb_spec (y mod 100) 0);
    destruct (Z.eqb_spec (y mod 400) 0); cbn [andb orb negb]; tauto.
Qed.

(** Quotients and remainders of a year count written in 400-, 100-,
    4- and 1-year cycles. *)
Lemma cycles_div a b c e :
  0 <= b <= 3 -> 0 <= c <= 24 -> 0 <= e <= 3 ->
  let y := 400 * a + 100 * b + 4 * c + e in
  y / 4 = 100 * a + 25 * b + c /\ y / 100 = 4 * a + b /\ y / 400 = a /\
  y mod 4 = e /\ y mod 100 = 4 * c + e /\ y mod 400 = 100 * b + 4 * c + e.
Proof.
  intros Hb Hc He y. unfold y.
  repeat split.
  - symmetry; apply (Z.div_unique_pos _ _ _ e); lia.
  - symmetry; apply (Z.div_unique_pos _ _ _ (4 * c + e)); lia.
  - symmetry; apply (Z.div_unique_pos _ _ _ (100 * b + 4 * c + e)); lia.
  - symmetry; apply (Z.mod_unique_pos _ _ (100 * a + 25 * b + c)); lia.
  - symmetry; apply (Z.mod_unique_pos _ _ (4 * a + b)); lia.
  - symmetry; apply (Z.mod_unique_pos _ _ a); lia.
Qed.

Lemma div_step y k :
  0 < k -> y / k = (y - 1) / k + (if y mod k =? 0 then 1 else 0).
Proof.
  intros Hk.
  pose proof (Z.div_mod y k ltac:(lia)) as Hy.
  pose proof (Z.mod_pos_bound y k Hk) as Hr.
  destruct (Z.eqb_spec (y mod k) 0) as [E|E].
  - assert ((y - 1) / k = y / k - 1); [|lia].
    symmetry. apply (Z.div_unique_pos _ _ _ (k - 1)); nia.
  - assert ((y - 1) / k = y / k); [|lia].
    symmetry. apply (Z.div_unique_pos _ _ _ (y mod k - 1)); nia.
Qed.

Lemma mod_of_mod y : y mod 400 = 0 -> y mod 100 = 0 /\ y mod 4 = 0.
Proof.
  intros H. apply Z.mod_divide in H; [|lia]. destruct H as [q ->].
  split; apply Z.mod_divide; try lia.
  - exists (4 * q). lia.
  - exists (100 * q). lia.
Qed.

Lemma mod_of_mod100 y : y mod 100 = 0 -> y mod 4 = 0.
Proof.
  intros H. apply Z.mod_divide in H; [|lia]. destruct H as [q ->].
  apply Z.mod_divide; [lia|]. exists (25 * q). lia.
Qed.

(** A year has 365 days, and one more when it is a leap year. *)
Lemma days_before_next_year y :
  days_before_year (y + 1) =
  days_before_year y + 365 + (if is_leap y then 1 else 0).
Proof.
  unfold days_before_year. replace (y + 1 - 1) with y by lia.
  rewrite (div_step y 4), (div_step y 100), (div_step y 400) by lia.
  unfold is_leap.
  destruct (Z.eqb_spec (y mod 400) 0) as [E400|E400].
  - destruct (mod_of_mod y E400) as [E100 E4].
    rewrite E100, E4. cbn. lia.
  - destruct (Z.eqb_spec (y mod 100) 0) as [E100|E100].
    + rewrite (mod_of_mod100 y E100). cbn. lia.
    + destruct (Z.eqb_spec (y mod 4) 0); cbn; lia.
Qed.

(** The days before the year that follows [a] 400-year cycles, [b]
    centuries, [c] 4-year cycles and [e] years. *)
Lemma days_before_cycles a b c e :
  0 <= b <= 3 -> 0 <= c <= 24 -> 0 <= e <= 3 ->
  days_before_year (400 * a + 100 * b + 4 * c + e + 1) =
  146097 * a + 36524 * b + 1461 * c + 365 * e.
Proof.
  intros Hb Hc He. unfold days_before_year.
  replace (400 * a + 100 * b + 4 * c + e + 1 - 1)
    with (400 * a + 100 * b + 4 * c + e) by lia.
  destruct (cycles_div a b c e Hb Hc He) as (-> & -> & -> & _). lia.
Qed.

Lemma is_leap_cycles a b c e :
  0 <= b <= 3 -> 0 <= c <= 24 -> 0 <= e <= 3 ->
  is_leap (400 * a + 100 * b + 4 * c + e + 1) =
  (e =? 3) && (negb (c =? 24) || (b =? 3)).
Proof.
  intros Hb Hc He.
  assert (Hcase :
    exists a' b' c' e', 0 <= b' <= 3 /\ 0 <= c' <= 24 /\ 0 <= e' <= 3 /\
      400 * a + 100 * b + 4 * c + e + 1 = 400 * a' + 100 * b' + 4 * c' + e' /\
      ((e' = 0 /\ (c' <> 0 \/ b' = 0)) <-> (e = 3 /\ (c <> 24 \/ b = 3)))).
  { destruct (Z.eq_dec e 3) as [->|Ee];
      [destruct (Z.eq_dec c 24) as [->|Ec];
        [destruct (Z.eq_dec b 3) as [->|Eb]|]|].
    - exists (a + 1), 0, 0, 0. lia.
    - exists a, (b + 1), 0, 0. lia.
    - exists a, b, (c + 1), 0. lia.
    - exists a, b, c, (e + 1). lia. }
  destruct Hcase as (a' & b' & c' & e' & Hb' & Hc' & He' & -> & Hiff).
  unfold is_leap.
  destruct (cycles_div a' b' c' e' Hb' Hc' He') as (_ & _ & _ & -> & -> & ->).
  destruct (Z.eqb_spec e' 0); destruct (Z.eqb_spec (4 * c' + e') 0);
    destruct (Z.eqb_spec (100 * b' + 4 * c' + e') 0);
    destruct (Z.eqb_spec e 3); destruct (Z.eqb_spec c 24);
    destruct (Z.eqb_spec b 3); cbn [andb orb negb]; try reflexivity;
    exfalso; lia.
Qed.

Lemma ord2ymd_inverse (d : date) :
  valid_date d ->
  let '(y, m, dd) := ord2ymd d in
  1 <= y <= 9999 /\ 1 <= m <= 12 /\ 1 <= dd <= days_in_month y m /\
  ymd2ord y m dd = d.
Proof.
  unfold valid_date, MAXORDINAL. intros Hd.
  unfold ord2ymd.
  set (n := d - 1).
  set (n400 := n / 146097).
  set (r400 := n mod 146097).
  set (n100 := r400 / 36524).
  set (r100 := r400 mod 36524).
  set (n4 := r100 / 1461).
  set (r4 := r100 mod 1461).
  set (n1 := r4 / 365).
  set (r1 := r4 mod 365).
  assert (En : n = 146097 * n400 + r400 /\ 0 <= r400 < 146097)
    by (unfold n400, r400; split; [apply Z.div_mod; lia|apply Z.mod_pos_bound; lia]).
  assert (E400 : r400 = 36524 * n100 + r100 /\ 0 <= r100 < 36524)
    by (unfold n100, r100; split; [apply Z.div_mod; lia|apply Z.mod_pos_bound; lia]).
  assert (E100 : r100 = 1461 * n4 + r4 /\ 0 <= r4 < 1461)
    by (unfold n4, r4; split; [apply Z.div_mod; lia|apply Z.mod_pos_bound; lia]).
  assert (E4 : r4 = 365 * n1 + r1 /\ 0 <= r1 < 365)
    by (unfold n1, r1; split; [apply Z.div_mod; lia|apply Z.mod_pos_bound; lia]).
  assert (Hn : n = d - 1) by reflexivity.
  clearbody n n400 r400 n100 r100 n4 r4 n1 r1.
  assert (B400 : 0 <= n400 <= 24) by lia.
  assert (B100 : 0 <= n100 <= 4) by lia.
  assert (B4 : 0 <= n4 <= 24) by lia.
  assert (B1 : 0 <= n1 <= 4) by lia.
  destruct ((n1 =? 4) || (n100 =? 4)) eqn:Ecase.
  - (* the last day of a leap year that closes a cycle *)
    assert (Hy : exists a b c,
               0 <= b <= 3 /\ 0 <= c <= 24 /\
               n400 * 400 + 1 + n100 * 100 + n4 * 4 + n1 - 1 = 400 * a + 100 * b + 4 * c /\
               d = 146097 * a + 36524 * b + 1461 * c /\
               1 <= 400 * a + 100 * b + 4 * c <= 9999).
    { apply orb_true_iff in Ecase as [E|E]; apply Z.eqb_eq in E.
      - exists n400, n100, (n4 + 1). lia.
      - exists (n400 + 1), 0, 0. lia. }
    destruct Hy as (a & b & c & Hb & Hc & -> & Hdd & Hrange).
    set (y := 400 * a + 100 * b + 4 * c) in *.
    pose proof (days_before_next_year y) as Hnext.
    pose proof (days_before_cycles a b c 0 Hb Hc ltac:(lia)) as Hcyc.
    replace (400 * a + 100 * b + 4 * c + 0 + 1) with (y + 1) in Hcyc by (unfold y; lia).
    unfold ymd2ord, days_before_month, days_in_month.
    change (12 =? 2) with false. change (2 <? 12) with true.
    cbn [DAYS_BEFORE_MONTH DAYS_IN_MONTH andb].
    destruct (is_leap y); repeat split; lia.
  - apply orb_false_iff in Ecase as [E1 E100']. apply Z.eqb_neq in E1, E100'.
    set (leapyear := (n1 =? 3) && (negb (n4 =? 24) || (n100 =? 3))).
    set (year := n400 * 400 + 1 + n100 * 100 + n4 * 4 + n1).
    assert (Eyear : year = 400 * n400 + 100 * n100 + 4 * n4 + n1 + 1)
      by (unfold year; lia).
    assert (Hleap : is_leap year = leapyear)
      by (rewrite Eyear; apply is_leap_cycles; lia).
    assert (Hy : days_before_year year = n - r1)
      by (rewrite Eyear, days_before_cycles; lia).
    assert (Hr1 : r1 < (if leapyear then 366 else 365))
      by (destruct leapyear; lia).
    assert (Hyear : 1 <= year <= 9999) by lia.
    pose proof (month_day_spec r1 leapyear ltac:(lia) Hr1) as Hmd.
    unfold month_day_ok, month_day in Hmd.
    match goal with
    | |- context [if ?c then _ else _] => destruct c
    end;
      repeat (apply andb_prop in Hmd as [Hmd ?]);
      unfold ymd2ord, days_before_month, days_in_month; rewrite Hleap, Hy;
      repeat split; try lia.
Qed.

End Calendar.

(* ------------------------------------------------------------------ *)
(** ** Strings *)

Lemma app_cons_s x (a b : string) : String x a +:+ b = String x (a +:+ b).
Proof. reflexivity. Qed.

Lemma app_nil_l_s (b : string) : "" +:+ b = b.
Proof. reflexivity. Qed.

Ltac sapp := rewrite ?app_cons_s, ?app_nil_l_s.

Section Strings.
Import Text.

Lemma app_assoc_s (a b c : string) : (a +:+ b) +:+ c = a +:+ (b +:+ c).
Proof. induction a as [|x a IH]; sapp; [reflexivity|now rewrite IH]. Qed.

Lemma app_nil_r_s (a : string) : a +:+ "" = a.
Proof. induction a as [|x a IH]; sapp; [reflexivity|now rewrite IH]. Qed.

Lemma length_app_s (a b : string) :
  String.length (a +:+ b) = (String.length a + String.length b)%nat.
Proof. induction a as [|x a IH]; sapp; simpl; [reflexivity|now rewrite IH]. Qed.

Lemma all_chars_app P a b :
  all_chars P (a +:+ b) = all_chars P a && all_chars P b.
Proof.
  induction a as [|x a IH]; sapp; simpl; [reflexivity|]. now rewrite IH, andb_assoc.
Qed.

Lemma all_chars_impl (P Q : ascii -> bool) s :
  (forall c, P c = true -> Q c = true) ->
  all_chars P s = true -> all_chars Q s = true.
Proof.
  intros HPQ. induction s as [|x s IH]; simpl; [reflexivity|].
  intros H. apply andb_prop in H as [Hx Hs]. now rewrite (HPQ _ Hx), IH.
Qed.

Lemma all_chars_concat P (l : list string) :
  Forall (fun s => all_chars P s = true) l -> all_chars P (Text.concat l) = true.
Proof.
  induction 1 as [|s l Hs _ IH]; cbn [Text.concat]; [reflexivity|].
  now rewrite all_chars_app, Hs, IH.
Qed.

Lemma all_chars_repeat P c n : P c = true -> all_chars P (repeat_char c n) = true.
Proof. intros H. induction n as [|n IH]; simpl; [reflexivity|now rewrite H, IH]. Qed.

Lemma all_chars_ljust P n s :
  P space = true -> all_chars P s = true -> all_chars P (ljust n s) = true.
Proof.
  intros Hs H. unfold ljust. now rewrite all_chars_app, H, all_chars_repeat.
Qed.

(** *** Newlines and lines *)

Lemma universal_newlines_id s :
  all_chars (is_not cr) s = true -> universal_newlines s = s.
Proof.
  induction s as [|c s IH]; simpl; [reflexivity|].
  unfold is_not at 1. intros H. apply andb_prop in H as [Hc Hs].
  apply negb_true_iff in Hc. rewrite Hc. now rewrite IH.
Qed.

Lemma lines_keepends_line t rest :
  all_chars (is_not nl) t = true ->
  lines_keepends (t +:+ String nl rest) = (t +:+ String nl "") :: lines_keepends rest.
Proof.
  induction t as [|c t IH]; sapp; cbn [lines_keepends all_chars].
  - intros _. now rewrite Ascii.eqb_refl.
  - unfold is_not at 1. intros H. apply andb_prop in H as [Hc Ht].
    apply negb_true_iff in Hc. rewrite Hc, (IH Ht). reflexivity.
Qed.

(** *** Stripping *)

Lemma rstrip_spaces w : all_chars is_space w = true -> rstrip w = "".
Proof.
  induction w as [|c w IH]; simpl; [reflexivity|].
  intros H. apply andb_prop in H as [Hc Hw]. now rewrite (IH Hw), Hc.
Qed.

Lemma rstrip_app_spaces t w :
  all_chars is_space w = true -> rstrip (t +:+ w) = rstrip t.
Proof.
  intros Hw. induction t as [|c t IH]; sapp; cbn [rstrip].
  - now apply rstrip_spaces.
  - now rewrite IH.
Qed.

Lemma rstrip_id s :
  all_chars (fun c => negb (is_space c)) s = true -> rstrip s = s.
Proof.
  induction s as [|c s IH]; simpl; [reflexivity|].
  intros H. apply andb_prop in H as [Hc Hs]. apply negb_true_iff in Hc.
  now rewrite (IH Hs), Hc, andb_false_r.
Qed.

Lemma lstrip_id c s : is_space c = false -> lstrip (String c s) = String c s.
Proof. intros H. cbn. now rewrite H. Qed.

Lemma rstrip_head c s :
  is_space c = false -> rstrip (String c s) = String c (rstrip s).
Proof. intros H. cbn. now rewrite H, andb_false_r. Qed.

(** Once the blanks are removed, it does not matter whether trailing
    blanks were stripped first. *)
Lemma remove_spaces_rstrip t :
  all_chars (fun c => negb (is_space c) || Ascii.eqb c space) t = true ->
  remove_char space (rstrip t) = remove_char space t.
Proof.
  induction t as [|c t IH]; cbn [rstrip remove_char all_chars]; [reflexivity|].
  intros H. apply andb_prop in H as [Hc Ht]. specialize (IH Ht).
  destruct (is_empty (rstrip t) && is_space c) eqn:E.
  - apply andb_prop in E as [Ee Es]. rewrite Es in Hc. cbn in Hc.
    rewrite Hc. rewrite <- IH. destruct (rstrip t); [reflexivity|discriminate].
  - cbn [remove_char]. now rewrite IH.
Qed.

Lemma remove_char_app c a b :
  remove_char c (a +:+ b) = remove_char c a +:+ remove_char c b.
Proof.
  induction a as [|x a IH]; sapp; cbn [remove_char]; [reflexivity|].
  destruct (Ascii.eqb x c); sapp; now rewrite IH.
Qed.

Lemma remove_char_repeat c n : remove_char c (repeat_char c n) = "".
Proof. induction n as [|n IH]; simpl; [reflexivity|]. now rewrite Ascii.eqb_refl. Qed.

Lemma remove_char_id c s :
  all_chars (is_not c) s = true -> remove_char c s = s.
Proof.
  induction s as [|x s IH]; simpl; [reflexivity|].
  unfold is_not at 1. intros H. apply andb_prop in H as [Hx Hs].
  apply negb_true_iff in Hx. now rewrite Hx, IH.
Qed.

Lemma remove_spaces_ljust n s :
  remove_char space (ljust n s) = remove_char space s.
Proof.
  unfold ljust. now rewrite remove_char_app, remove_char_repeat, app_nil_r_s.
Qed.

(** *** Splitting *)

Lemma split_nonempty c s : split c s <> [].
Proof.
  destruct s as [|x s]; cbn; [discriminate|].
  destruct (Ascii.eqb x c); [discriminate|]. destruct (split c s); discriminate.
Qed.

Lemma split_field c f :
  all_chars (is_not c) f = true -> split c f = [f].
Proof.
  induction f as [|x f IH]; simpl; [reflexivity|].
  unfold is_not at 1. intros H. apply andb_prop in H as [Hx Hf].
  apply negb_true_iff in Hx. now rewrite Hx, (IH Hf).
Qed.

Lemma split_app c f rest :
  all_chars (is_not c) f = true ->
  split c (f +:+ String c rest) = f :: split c rest.
Proof.
  induction f as [|x f IH]; sapp; cbn [split all_chars].
  - intros _. now rewrite Ascii.eqb_refl.
  - unfold is_not at 1. intros H. apply andb_prop in H as [Hx Hf].
    apply negb_true_iff in Hx. now rewrite Hx, (IH Hf).
Qed.

(** *** Slices *)

Lemma substring_app_l a b :
  String.substring 0 (String.length a) (a +:+ b) = a.
Proof.
  induction a as [|x a IH]; sapp; simpl.
  - destruct b; reflexivity.
  - now rewrite IH.
Qed.

Lemma substring_app_r a b n m :
  String.substring (String.length a + n) m (a +:+ b) = String.substring n m b.
Proof. induction a as [|x a IH]; sapp; simpl; [reflexivity|exact IH]. Qed.

End Strings.

(* ------------------------------------------------------------------ *)
(** ** Decimal digits *)

Section Digits.
Import Text Decimal.
Local Open Scope N_scope.

Lemma digit_char_spec d :
  d < 10 -> is_digit (digit_char d) = true /\ digit_val (digit_char d) = d.
Proof.
  intros H.
  assert (d = 0 \/ d = 1 \/ d = 2 \/ d = 3 \/ d = 4 \/ d = 5 \/ d = 6 \/
          d = 7 \/ d = 8 \/ d = 9) as Hd by lia.
  repeat (destruct Hd as [->|Hd]; [split; reflexivity|]). subst. split; reflexivity.
Qed.

Lemma length_digits_fixed k n : String.length (digits_fixed k n) = k.
Proof.
  revert n. induction k as [|k IH]; intros n; cbn [digits_fixed]; [reflexivity|].
  rewrite length_app_s, IH. cbn. lia.
Qed.

Lemma all_digits_fixed k n : all_chars is_digit (digits_fixed k n) = true.
Proof.
  revert n. induction k as [|k IH]; intros n; cbn [digits_fixed]; [reflexivity|].
  rewrite all_chars_app, IH. cbn [all_chars andb].
  destruct (digit_char_spec (n mod 10)) as [-> _]; [|reflexivity].
  apply N.mod_lt. lia.
Qed.

Lemma digits_value_app a b acc :
  digits_value acc (a +:+ b) =
  match digits_value acc a with
  | Some v => digits_value v b
  | None => None
  end.
Proof.
  revert acc. induction a as [|c a IH]; intros acc; sapp; cbn [digits_value];
    [reflexivity|].
  destruct (is_digit c); [apply IH|reflexivity].
Qed.

(** Reading back [k] printed digits. *)
Lemma digits_value_fixed k : forall n acc,
  digits_value acc (digits_fixed k n) = Some (acc * 10 ^ N.of_nat k + n mod 10 ^ N.of_nat k).
Proof.
  induction k as [|k IH]; intros n acc.
  - cbn [digits_fixed digits_value]. change (N.of_nat 0) with 0.
    rewrite N.pow_0_r, N.mod_1_r. f_equal. lia.
  - cbn [digits_fixed]. rewrite digits_value_app, IH. cbn [digits_value].
    destruct (digit_char_spec (n mod 10)) as [-> ->]; [apply N.mod_lt; lia|].
    f_equal. rewrite Nat2N.inj_succ, N.pow_succ_r by lia.
    rewrite (N.Div0.mod_mul_r n 10 (10 ^ N.of_nat k)). lia.
Qed.

Lemma num_digits_aux_bound fuel : forall n,
  n < 2 ^ N.of_nat fuel -> n < 10 ^ N.of_nat (num_digits_aux fuel n).
Proof.
  induction fuel as [|fuel IH]; intros n Hn; cbn [num_digits_aux].
  - change (N.of_nat 0) with 0 in Hn. rewrite N.pow_0_r in Hn.
    change (N.of_nat 1) with 1. rewrite N.pow_1_r. lia.
  - destruct (N.ltb_spec n 10) as [Hlt|Hge].
    + change (N.of_nat 1) with 1. rewrite N.pow_1_r. exact Hlt.
    + rewrite Nat2N.inj_succ, N.pow_succ_r by lia.
      rewrite Nat2N.inj_succ, N.pow_succ_r in Hn by lia.
      assert (Hq : n / 10 < 2 ^ N.of_nat fuel).
      { apply N.Div0.div_lt_upper_bound. lia. }
      specialize (IH _ Hq).
      pose proof (N.Div0.div_mod n 10) as Hdm.
      pose proof (N.mod_lt n 10 ltac:(lia)). lia.
Qed.

Lemma num_digits_bound n : n < 10 ^ N.of_nat (num_digits n).
Proof.
  unfold num_digits. apply num_digits_aux_bound.
  rewrite N2Nat.id. destruct n as [|p]; [reflexivity|].
  apply N.size_gt.
Qed.

Lemma num_digits_pos n : (1 <= num_digits n)%nat.
Proof.
  unfold num_digits. destruct (N.to_nat (N.size n)); cbn [num_digits_aux]; [lia|].
  destruct (n <? 10); lia.
Qed.

Lemma digits_value_str_N n acc :
  digits_value acc (str_N n) = Some (acc * 10 ^ N.of_nat (num_digits n) + n).
Proof.
  unfold str_N. rewrite digits_value_fixed. f_equal.
  rewrite N.mod_small by apply num_digits_bound. reflexivity.
Qed.

Lemma all_digits_str_N n : all_chars is_digit (str_N n) = true.
Proof. apply all_digits_fixed. Qed.

Lemma str_N_nonempty n : exists c r, str_N n = String c r /\ is_digit c = true.
Proof.
  pose proof (all_digits_str_N n) as Hd.
  pose proof (length_digits_fixed (num_digits n) n) as Hl.
  pose proof (num_digits_pos n) as Hp.
  fold (str_N n) in Hl.
  destruct (str_N n) as [|c r]; [cbn in Hl; lia|].
  cbn in Hd. apply andb_prop in Hd as [Hc _]. eauto.
Qed.

End Digits.

(* ------------------------------------------------------------------ *)
(** ** Formatting and reading numbers *)

Ltac ascii_cases c :=
  let b0 := fresh in let b1 := fresh in let b2 := fresh in let b3 := fresh in
  let b4 := fresh in let b5 := fresh in let b6 := fresh in let b7 := fresh in
  destruct c as [b0 b1 b2 b3 b4 b5 b6 b7];
  destruct b0, b1, b2, b3, b4, b5, b6, b7.

Section Formatting.
Import Text Decimal.

Lemma digit_is_numeric c : is_digit c = true -> numeric c = true.
Proof. intros H. unfold numeric. now rewrite H. Qed.

(** What the characters of a cell are not. *)
Lemma cell_char_plain c :
  cell_char c = true ->
  is_space c = false /\ is_not "," c = true /\ is_not nl c = true /\
  is_not cr c = true /\ is_not space c = true.
Proof. ascii_cases c; vm_compute; intros H; try discriminate H; auto. Qed.

Lemma digit_plain c :
  is_digit c = true ->
  is_not "." c = true /\ is_not "-" c = true /\ is_not "+" c = true /\
  cell_char c = true.
Proof. ascii_cases c; vm_compute; intros H; try discriminate H; auto. Qed.

Lemma numeric_cell_char c : numeric c = true -> cell_char c = true.
Proof. intros H. unfold cell_char. now rewrite H. Qed.

Lemma split_sign_digit c r :
  is_digit c = true -> split_sign (String c r) = (false, String c r).
Proof. ascii_cases c; vm_compute; intros H; try discriminate H; reflexivity. Qed.

Lemma all_numeric_format_f prec x : all_chars numeric (format_f prec x) = true.
Proof.
  unfold format_f. rewrite !all_chars_app.
  rewrite (all_chars_impl _ _ _ digit_is_numeric (all_digits_str_N _)).
  rewrite (all_chars_impl _ _ _ digit_is_numeric (all_digits_fixed _ _)).
  destruct (Qlt_le_dec x 0); reflexivity.
Qed.

Lemma scaled_split x :
  let m := scaled 3 x in
  (m / 1000 * 10 ^ N.of_nat 3 + (m mod 1000) mod 10 ^ N.of_nat 3 = m)%N.
Proof.
  intros m. change (10 ^ N.of_nat 3)%N with 1000%N.
  rewrite N.Div0.mod_mod. pose proof (N.Div0.div_mod m 1000). lia.
Qed.

(** Reading back a printed number gives the number rounded to three
    decimals. *)
Lemma float_format_f x : float (format_f 3 x) = Ok (round_to 3 x).
Proof.
  pose proof (all_numeric_format_f 3 x) as Hnum.
  assert (Hstrip : strip (format_f 3 x) = format_f 3 x).
  { unfold strip.
    assert (Hl : lstrip (format_f 3 x) = format_f 3 x).
    { destruct (format_f 3 x) as [|c r]; [reflexivity|].
      cbn [all_chars] in Hnum. apply andb_prop in Hnum as [Hc _].
      apply lstrip_id. now apply cell_char_plain, numeric_cell_char. }
    rewrite Hl. apply rstrip_id.
    eapply all_chars_impl; [|exact Hnum].
    intros c Hc. apply numeric_cell_char, cell_char_plain in Hc as [-> _]. reflexivity. }
  unfold float. rewrite Hstrip. unfold format_f, round_to.
  set (m := scaled 3 x).
  change (N.pos (scale10 3)) with 1000%N.
  set (ipS := str_N (m / 1000)). set (fpS := digits_fixed 3 (m mod 1000)).
  assert (Hsign : split_sign ((if Qlt_le_dec x 0 then "-" else "") +:+ ipS +:+ "." +:+ fpS)
                  = (if Qlt_le_dec x 0 then true else false, ipS +:+ "." +:+ fpS)).
  { destruct (Qlt_le_dec x 0); [reflexivity|].
    sapp. destruct (str_N_nonempty (m / 1000)) as (c & r & Hc & Hd).
    fold ipS in Hc. rewrite Hc. sapp. now apply split_sign_digit. }
  rewrite Hsign.
  assert (Hip : all_chars (is_not ".") ipS = true).
  { eapply all_chars_impl; [|apply all_digits_str_N].
    intros c Hc. now apply digit_plain in Hc as [-> _]. }
  assert (Hfp : all_chars (is_not ".") fpS = true).
  { eapply all_chars_impl; [|apply all_digits_fixed].
    intros c Hc. now apply digit_plain in Hc as [-> _]. }
  change ("." +:+ fpS) with (String "." fpS).
  rewrite (split_app "." ipS fpS Hip), (split_field "." fpS Hfp).
  destruct (str_N_nonempty (m / 1000)) as (c & r & Hc & _). fold ipS in Hc.
  replace (is_empty ipS) with false by (now rewrite Hc).
  cbn [andb].
  unfold ipS at 1, fpS at 1.
  rewrite digits_value_app, digits_value_str_N, digits_value_fixed.
  replace ((0 * 10 ^ N.of_nat (num_digits (m / 1000)) + m / 1000) * 10 ^ N.of_nat 3
           + (m mod 1000) mod 10 ^ N.of_nat 3)%N with m
    by (rewrite N.mul_0_l, N.add_0_l; symmetry; apply scaled_split).
  cbn [of_option bind].
  unfold fpS. rewrite length_digits_fixed.
  destruct (Qlt_le_dec x 0); reflexivity.
Qed.

End Formatting.

(* ------------------------------------------------------------------ *)
(** ** Dates written and read back *)

Section Dates.
Import Text Decimal Datetime.

Lemma slice_app_l a b k : String.length a = k -> slice 0 k (a +:+ b) = a.
Proof.
  intros <-. unfold slice. rewrite Nat.sub_0_r. apply substring_app_l.
Qed.

Lemma slice_full a k : String.length a = k -> slice 0 k a = a.
Proof.
  intros H. pose proof (slice_app_l a "" k H) as E. now rewrite app_nil_r_s in E.
Qed.

Lemma slice_app_r a b k i j :
  String.length a = k -> slice (k + i) (k + j) (a +:+ b) = slice i j b.
Proof.
  intros <-. unfold slice.
  replace (String.length a + j - (String.length a + i))%nat with (j - i)%nat by lia.
  apply substring_app_r.
Qed.

Lemma digits_value_fixed_small k n :
  (n < 10 ^ N.of_nat k)%N -> digits_value 0 (digits_fixed k n) = Some n.
Proof.
  intros H. rewrite digits_value_fixed, N.mod_small by exact H. reflexivity.
Qed.

Lemma all_digits_strftime d : all_chars is_digit (strftime_Ymd d) = true.
Proof. unfold strftime_Ymd. now rewrite !all_chars_app, !all_digits_fixed. Qed.

(** Parsing a printed date gives the date back. *)
Lemma strptime_strftime d :
  valid_date d -> strptime_Ymd (strftime_Ymd d) = Ok d.
Proof.
  intros Hd. pose proof (ord2ymd_inverse d Hd) as Hinv.
  unfold strftime_Ymd, strptime_Ymd, year, month, day.
  destruct (ord2ymd d) as [[y m] dd]. cbn [fst snd].
  destruct Hinv as (Hy & Hm & Hdd & Hord).
  set (A := digits_fixed 4 (Z.to_N y)).
  set (B := digits_fixed 2 (Z.to_N m)).
  set (C := digits_fixed 2 (Z.to_N dd)).
  assert (HA : String.length A = 4%nat) by apply length_digits_fixed.
  assert (HB : String.length B = 2%nat) by apply length_digits_fixed.
  assert (HC : String.length C = 2%nat) by apply length_digits_fixed.
  rewrite !length_app_s, HA, HB, HC. cbn [Nat.add Nat.eqb negb].
  rewrite (slice_app_l A _ 4 HA).
  rewrite (slice_app_r A _ 4 0 2 HA), (slice_app_l B _ 2 HB).
  rewrite (slice_app_r A _ 4 2 4 HA), (slice_app_r B _ 2 0 2 HB).
  rewrite (slice_full C 2 HC).
  assert (Hdim : (dd <= 31)%Z).
  { unfold days_in_month in Hdd. destruct (_ && _); [lia|].
    assert (DAYS_IN_MONTH m <= 31)%Z; [|lia].
    assert (m = 1 \/ m = 2 \/ m = 3 \/ m = 4 \/ m = 5 \/ m = 6 \/ m = 7 \/
            m = 8 \/ m = 9 \/ m = 10 \/ m = 11 \/ m = 12)%Z as Hc by lia.
    repeat (destruct Hc as [->|Hc]; [cbn; lia|]). subst. cbn. lia. }
  unfold A, B, C.
  rewrite !digits_value_fixed_small
    by (change (N.of_nat 4) with 4%N; change (N.of_nat 2) with 2%N; cbn; lia).
  cbn [of_option bind]. rewrite !Z2N.id by lia.
  unfold make_date.
  replace ((1 <=? y) && (y <=? 9999) && (1 <=? m) && (m <=? 12) && (1 <=? dd)
           && (dd <=? days_in_month y m))%Z with true.
  - now rewrite Hord.
  - symmetry. repeat (apply andb_true_intro; split); lia.
Qed.

End Dates.

(* ------------------------------------------------------------------ *)
(** ** A row written and read back *)

Section Rows.
Import Text Decimal Datetime Record.

Lemma row_char_plain c :
  row_char c = true ->
  negb (is_space c) || Ascii.eqb c space = true /\
  is_not nl c = true /\ is_not cr c = true.
Proof. ascii_cases c; vm_compute; intros H; try discriminate H; auto. Qed.

Lemma cell_row_char c : cell_char c = true -> row_char c = true.
Proof. intros H. unfold row_char. now rewrite H. Qed.

Lemma all_cell_value_text v : all_chars cell_char (value_text v) = true.
Proof.
  destruct v as [x|]; [|reflexivity].
  eapply all_chars_impl; [apply numeric_cell_char|apply all_numeric_format_f].
Qed.

Lemma read_value_text v : read_value (value_text v) = Ok (round_value v).
Proof.
  destruct v as [x|]; [|reflexivity].
  unfold read_value. cbn [value_text round_value].
  destruct (String.eqb_spec (format_f 3 x) "NA") as [E|_].
  - pose proof (all_numeric_format_f 3 x) as H. rewrite E in H. discriminate H.
  - now rewrite float_format_f.
Qed.

Lemma write_cells_ok (datum : aggregate) attrs :
  Forall (fun a => is_Some (datum !! a)) attrs ->
  write_cells datum attrs = (Text.concat (map (cell datum) attrs), Ok tt).
Proof.
  induction 1 as [|a attrs [v Hv] _ IH]; cbn [write_cells map Text.concat];
    [reflexivity|].
  rewrite Hv, IH. unfold cell, value_of. rewrite Hv. cbn [default].
  destruct (String.eqb a last_attribute); destruct v; reflexivity.
Qed.

Lemma write_rows_ok (rows : list (date * aggregate)) :
  Forall well_formed_row rows ->
  write_rows rows =
  (Text.concat (map (fun row => row_text row +:+ String nl "") rows), Ok tt).
Proof.
  induction 1 as [|[d datum] rows [_ Hrow] _ IH]; cbn [write_rows map Text.concat];
    [reflexivity|].
  rewrite write_cells_ok, IH.
  - unfold row_text. cbn [fst snd]. now rewrite !app_assoc_s.
  - apply Forall_forall. intros a Ha. now apply Hrow.
Qed.

(** *** Fields *)

Lemma join_comma_cons f fs :
  fs <> [] -> join_comma (f :: fs) = f +:+ String "," (join_comma fs).
Proof. destruct fs; [contradiction|reflexivity]. Qed.

Lemma split_join fs :
  fs <> [] -> Forall (fun f => all_chars (is_not ",") f = true) fs ->
  split "," (join_comma fs) = fs.
Proof.
  intros Hne Hall. induction Hall as [|f fs Hf Hfs IH]; [contradiction|].
  destruct fs as [|g fs].
  - cbn [join_comma]. now apply split_field.
  - rewrite join_comma_cons by discriminate.
    rewrite split_app by exact Hf. f_equal. apply IH. discriminate.
Qed.

Lemma remove_spaces_value_text v :
  remove_char space (value_text v) = value_text v.
Proof.
  apply remove_char_id. eapply all_chars_impl; [|apply all_cell_value_text].
  intros c Hc. now apply cell_char_plain in Hc.
Qed.

Lemma remove_spaces_cells (datum : aggregate) init :
  Forall (fun a => a <> last_attribute) init ->
  remove_char space (Text.concat (map (cell datum) (init ++ [last_attribute]))) =
  join_comma (map (fun a => value_text (value_of datum a)) (init ++ [last_attribute])).
Proof.
  induction 1 as [|a init Ha _ IH]; cbn [app map Text.concat].
  - rewrite remove_char_app. unfold cell at 1.
    rewrite String.eqb_refl, remove_spaces_ljust, remove_spaces_value_text.
    cbn [remove_char join_comma]. apply app_nil_r_s.
  - rewrite remove_char_app, IH. unfold cell at 1.
    apply String.eqb_neq in Ha. rewrite Ha.
    rewrite remove_spaces_ljust, remove_char_app, remove_spaces_value_text.
    rewrite join_comma_cons by (destruct init; discriminate).
    change (remove_char space ", ") with ","%string.
    now rewrite app_assoc_s.
Qed.

Lemma attributes_init : attributes = init_attributes ++ [last_attribute].
Proof. reflexivity. Qed.

Lemma init_not_last : Forall (fun a => a <> last_attribute) init_attributes.
Proof. unfold init_attributes. repeat (constructor; [discriminate|]). constructor. Qed.

(** The fields of a row, once blanks are removed. *)
Lemma remove_spaces_row_text (row : date * aggregate) :
  remove_char space (row_text row) =
  join_comma (strftime_Ymd row.1 ::
              map (fun a => value_text (value_of row.2 a)) attributes).
Proof.
  unfold row_text. rewrite remove_char_app, remove_spaces_ljust, remove_char_app.
  rewrite attributes_init, (remove_spaces_cells _ _ init_not_last).
  rewrite join_comma_cons by (rewrite map_app; destruct (map _ init_attributes); discriminate).
  change (remove_char space ", ") with ","%string.
  rewrite (remove_char_id space (strftime_Ymd row.1)).
  - rewrite app_assoc_s. reflexivity.
  - eapply all_chars_impl; [|apply all_digits_strftime].
    intros c Hc. apply digit_plain in Hc as (_ & _ & _ & Hc).
    now apply cell_char_plain in Hc.
Qed.

Lemma all_row_char_cell (datum : aggregate) a : all_chars row_char (cell datum a) = true.
Proof.
  unfold cell. apply all_chars_ljust; [reflexivity|].
  pose proof (all_chars_impl _ _ _ cell_row_char (all_cell_value_text (value_of datum a))) as H.
  destruct (String.eqb a last_attribute); [exact H|].
  now rewrite all_chars_app, H.
Qed.

Lemma all_row_char_row_text row : all_chars row_char (row_text row) = true.
Proof.
  unfold row_text. rewrite all_chars_app. apply andb_true_intro. split.
  - apply all_chars_ljust; [reflexivity|]. rewrite all_chars_app.
    apply andb_true_intro. split; [|reflexivity].
    eapply all_chars_impl; [|apply all_digits_strftime].
    intros c Hc. apply digit_plain in Hc as (_ & _ & _ & Hc). now apply cell_row_char.
  - apply all_chars_concat, Forall_forall. intros s Hs.
    apply list_elem_of_fmap in Hs as (a & -> & _). apply all_row_char_cell.
Qed.

Lemma mapM_read_values (vs : list (option Q)) :
  mapM read_value (map value_text vs) = Ok (map round_value vs).
Proof.
  induction vs as [|v vs IH]; cbn [map mapM]; [reflexivity|].
  now rewrite read_value_text, IH.
Qed.

(** *** The dictionary of a row read back *)

Lemma py_dict_pairs {V} (g : string -> V) attrs k :
  py_dict (map (fun a => (a, g a)) attrs) !! k =
  if decide (k ∈ attrs) then Some (g k) else None.
Proof.
  induction attrs as [|a attrs IH] using rev_ind.
  - cbn. rewrite lookup_empty. now rewrite decide_False by apply not_elem_of_nil.
  - rewrite map_app. cbn [map]. rewrite py_dict_lookup_snoc, IH.
    destruct (decide (a = k)) as [->|Hne].
    + rewrite decide_True; [reflexivity|].
      apply elem_of_app. right. apply list_elem_of_here.
    + destruct (decide (k ∈ attrs)) as [Hin|Hin].
      * rewrite decide_True; [reflexivity|]. apply elem_of_app. now left.
      * rewrite decide_False; [reflexivity|].
        rewrite elem_of_app, list_elem_of_singleton. intros [?|?]; congruence.
Qed.

Lemma zip_map_pairs {V} (g : string -> V) (attrs : list string) :
  zip attrs (map g attrs) = map (fun a => (a, g a)) attrs.
Proof. induction attrs as [|a attrs IH]; cbn; [reflexivity|now rewrite IH]. Qed.

Lemma read_dict (datum : aggregate) :
  (forall a, is_Some (datum !! a) <-> a ∈ attributes) ->
  py_dict (zip attributes (map round_value (map (value_of datum) attributes)))
  = round_value <$> datum.
Proof.
  intros Hdom. rewrite map_map.
  rewrite (zip_map_pairs (fun a => round_value (value_of datum a))).
  apply map_eq. intros k. rewrite py_dict_pairs, lookup_fmap.
  destruct (decide (k ∈ attributes)) as [Hin|Hin].
  - apply Hdom in Hin as [v Hv]. unfold value_of. now rewrite Hv.
  - destruct (datum !! k) as [v|] eqn:Hv; [|reflexivity].
    exfalso. apply Hin, Hdom. eauto.
Qed.

(** Reading the line of a row gives the row, its values rounded. *)
Lemma read_row_text (row : date * aggregate) :
  well_formed_row row ->
  read_row (row_text row +:+ String nl "") = Ok (row.1, round_value <$> row.2).
Proof.
  intros [Hvalid Hdom]. unfold read_row.
  rewrite rstrip_app_spaces by reflexivity.
  rewrite remove_spaces_rstrip.
  2:{ eapply all_chars_impl; [|apply all_row_char_row_text].
      intros c Hc. now apply row_char_plain in Hc. }
  rewrite remove_spaces_row_text.
  rewrite split_join.
  - cbn [hd tail]. rewrite (strptime_strftime _ Hvalid). cbn [bind].
    rewrite <- (map_map (value_of row.2) value_text), mapM_read_values.
    cbn [bind]. now rewrite (read_dict _ Hdom).
  - discriminate.
  - constructor.
    + eapply all_chars_impl; [|apply all_digits_strftime].
      intros c Hc. apply digit_plain in Hc as (_ & _ & _ & Hc).
      now apply cell_char_plain in Hc.
    + apply Forall_forall. intros f Hf.
      apply list_elem_of_fmap in Hf as (a & -> & _).
      eapply all_chars_impl; [|apply all_cell_value_text].
      intros c Hc. now apply cell_char_plain in Hc.
Qed.

End Rows.

(* ------------------------------------------------------------------ *)
(** ** The file written and read back *)

Section File.
Import Text Decimal Datetime Record.

Lemma comment_block_app a b :
  comment_block a -> comment_block b -> comment_block (a +:+ b).
Proof.
  induction 1 as [|t rest Ht _ IH]; intros Hb; [exact Hb|].
  rewrite app_assoc_s. sapp. apply (comment_line t (rest +:+ b) Ht (IH Hb)).
Qed.

Lemma comment_block_entry msg : forall pre,
  all_chars (is_not nl) pre = true ->
  comment_block (String "#" pre +:+ replace_char nl (String nl "# ") msg +:+ String nl "").
Proof.
  induction msg as [|c msg IH]; intros pre Hpre; cbn [replace_char].
  - sapp. apply (comment_line pre "" Hpre comment_nil).
  - destruct (Ascii.eqb_spec c nl) as [->|Hc].
    + rewrite !app_assoc_s. sapp.
      apply (comment_line pre _ Hpre).
      change (String "#" (String " " (replace_char nl (String nl "# ") msg +:+ String nl "")))
        with (String "#" " " +:+ replace_char nl (String nl "# ") msg +:+ String nl "").
      now apply IH.
    + sapp.
      replace (pre +:+ String c (replace_char nl (String nl "# ") msg +:+ String nl ""))
        with ((pre +:+ String c "") +:+
              (replace_char nl (String nl "# ") msg +:+ String nl ""))
        by (now rewrite app_assoc_s).
      rewrite <- app_cons_s.
      apply IH. rewrite all_chars_app, Hpre. cbn [all_chars andb].
      unfold is_not. apply Ascii.eqb_neq in Hc. now rewrite Hc.
Qed.

Lemma comment_block_log_entry msg : comment_block (log_entry msg).
Proof. unfold log_entry. apply (comment_block_entry msg " "). reflexivity. Qed.

Lemma comment_block_log info msg :
  comment_block info -> comment_block (log info msg).
Proof. intros H. apply comment_block_app; [exact H|apply comment_block_log_entry]. Qed.

(** The first loop of the reader runs over a block of comments. *)
Lemma skip_header_block b : comment_block b ->
  forall acc rest, exists acc',
    skip_header acc (lines_keepends (b +:+ rest)) =
    skip_header acc' (lines_keepends rest).
Proof.
  induction 1 as [|t rest0 Ht _ IH]; intros acc rest; [eauto|].
  rewrite app_assoc_s. sapp.
  change (String "#" (t +:+ String nl (rest0 +:+ rest)))
    with (String "#" t +:+ String nl (rest0 +:+ rest)).
  rewrite lines_keepends_line by (cbn [all_chars]; now rewrite Ht).
  cbn [skip_header]. sapp. rewrite rstrip_head by reflexivity.
  cbn [Ascii.eqb Bool.eqb negb]. apply IH.
Qed.

Lemma skip_header_found acc line rest c r :
  rstrip line = String c r -> Ascii.eqb c "#" = false ->
  skip_header acc (line :: rest) = (Some (rstrip line), rest).
Proof. intros H H'. cbn [skip_header]. now rewrite H, H'. Qed.

Lemma skip_header_blank acc rest :
  skip_header acc (String nl "" :: rest) = skip_header (Some ""%string) rest.
Proof. reflexivity. Qed.

Lemma header_row_text : header_row = header_text +:+ String nl "".
Proof. unfold header_row, header_text. now rewrite app_assoc_s. Qed.

Lemma header_text_plain :
  all_chars (is_not nl) header_text = true /\
  all_chars (is_not cr) header_text = true.
Proof. split; vm_compute; reflexivity. Qed.

Lemma header_text_names :
  (exists c r, rstrip (header_text +:+ String nl "") = String c r /\
               Ascii.eqb c "#" = false) /\
  split "," (remove_char space (lower (rstrip (header_text +:+ String nl "")))) =
  true_rownames.
Proof.
  split; [|vm_compute; reflexivity].
  eexists _, _. split; [vm_compute; reflexivity|reflexivity].
Qed.

Lemma lines_of_rows (rows : list (date * aggregate)) :
  lines_keepends (Text.concat (map (fun row => row_text row +:+ String nl "") rows)) =
  map (fun row => row_text row +:+ String nl "") rows.
Proof.
  induction rows as [|row rows IH]; cbn [map Text.concat]; [reflexivity|].
  rewrite app_assoc_s. sapp. rewrite lines_keepends_line, IH; [reflexivity|].
  eapply all_chars_impl; [|apply all_row_char_row_text].
  intros c Hc. now apply row_char_plain in Hc.
Qed.

Lemma rows_no_cr (rows : list (date * aggregate)) :
  all_chars (is_not cr)
    (Text.concat (map (fun row => row_text row +:+ String nl "") rows)) = true.
Proof.
  apply all_chars_concat, Forall_forall. intros s Hs.
  apply list_elem_of_fmap in Hs as (row & -> & _).
  rewrite all_chars_app. apply andb_true_intro. split; [|reflexivity].
  eapply all_chars_impl; [|apply all_row_char_row_text].
  intros c Hc. now apply row_char_plain in Hc.
Qed.

Lemma mapM_read_rows (rows : list (date * aggregate)) :
  Forall well_formed_row rows ->
  mapM read_row (map (fun row => row_text row +:+ String nl "") rows) =
  Ok (map (fun row => (row.1, round_value <$> row.2)) rows).
Proof.
  induction 1 as [|row rows Hrow _ IH]; cbn [map mapM]; [reflexivity|].
  now rewrite (read_row_text _ Hrow), IH.
Qed.

(** Writing a record with a series and reading the text back. *)
Lemma export_read {Shape} (self : Record.t Shape) rows :
  data self = Some rows ->
  comment_block (collection_info self) ->
  all_chars (is_not cr) (collection_info self) = true ->
  Forall well_formed_row rows ->
  (export_as_csv self).2 = Ok tt /\
  read_from_csv (export_as_csv self).1 =
  Ok (map (fun row => (row.1, round_value <$> row.2)) rows).
Proof.
  intros Hdata Hblock Hcr Hrows.
  unfold export_as_csv. rewrite Hdata, (write_rows_ok _ Hrows). cbn [fst snd].
  split; [reflexivity|].
  set (body := Text.concat (map (fun row => row_text row +:+ String nl "") rows)).
  rewrite header_row_text.
  replace ((collection_info self +:+ String nl "" +:+ header_text +:+ String nl "") +:+ body)
    with (collection_info self +:+ String nl (header_text +:+ String nl body))
    by (rewrite !app_assoc_s; sapp; reflexivity).
  destruct header_text_plain as [Hnl Hhcr].
  unfold read_from_csv, file_lines.
  rewrite universal_newlines_id.
  2:{ rewrite all_chars_app, Hcr. cbn [all_chars andb].
      rewrite all_chars_app, Hhcr. cbn [all_chars andb].
      change (is_not cr nl) with true. cbn [andb]. apply rows_no_cr. }
  destruct (skip_header_block _ Hblock None (String nl (header_text +:+ String nl body)))
    as [acc ->].
  change (String nl (header_text +:+ String nl body))
    with ("" +:+ String nl (header_text +:+ String nl body)).
  rewrite lines_keepends_line by reflexivity.
  rewrite lines_keepends_line by exact Hnl.
  sapp. rewrite skip_header_blank.
  destruct header_text_names as [(c & r & Hc & Hc') Hnames].
  rewrite (skip_header_found _ _ _ c r Hc Hc'). cbn [of_option bind].
  rewrite Hnames, bool_decide_eq_true_2 by reflexivity. cbn [negb].
  unfold body. rewrite lines_of_rows. now apply mapM_read_rows.
Qed.

(** A header that names other columns is refused. *)
Lemma read_header_mismatch content line rest :
  skip_header None (file_lines content) = (Some line, rest) ->
  split "," (remove_char space (lower line)) <> true_rownames ->
  read_from_csv content = Raise (Exception "Header mismatch").
Proof.
  intros Hskip Hne. unfold read_from_csv. rewrite Hskip. cbn [of_option bind].
  now rewrite bool_decide_eq_false_2.
Qed.

End File.

(* ------------------------------------------------------------------ *)
(** ** How the reader fails *)

Section ReaderFailures.
Import Text Decimal Datetime Record.

Lemma of_option_raise {A} ex' (o : option A) ex :
  of_option ex' o = Raise ex -> ex = ex'.
Proof. destruct o; cbn; [discriminate|now intros [= ->]]. Qed.

Lemma mapM_raise {A B} (f : A -> result B) l ex :
  mapM f l = Raise ex -> exists a, a ∈ l /\ f a = Raise ex.
Proof.
  induction l as [|a l IH]; cbn [mapM]; [discriminate|].
  intros H. apply bind_raise in H as [H|(b & _ & H)].
  - exists a. split; [apply list_elem_of_here|exact H].
  - apply bind_raise in H as [H|(bs & _ & H)]; [|discriminate].
    destruct (IH H) as (a' & Hin & Ha'). exists a'.
    split; [now apply list_elem_of_further|exact Ha'].
Qed.

Lemma strptime_Ymd_raise s ex : strptime_Ymd s = Raise ex -> ex = ValueError.
Proof.
  unfold strptime_Ymd. destruct (negb _); [now intros [= ->]|].
  intros H.
  apply bind_raise in H as [H|(y & _ & H)]; [now apply of_option_raise in H|].
  apply bind_raise in H as [H|(m & _ & H)]; [now apply of_option_raise in H|].
  apply bind_raise in H as [H|(d & _ & H)]; [now apply of_option_raise in H|].
  unfold make_date in H. destruct (_ && _) in H; [discriminate|now injection H as <-].
Qed.

Lemma float_raise s ex : float s = Raise ex -> ex = ValueError.
Proof.
  unfold float. destruct (split_sign (strip s)) as [neg body].
  destruct (split "." body) as [|ip [|fp [|? ?]]]; try (now intros [= ->]).
  - destruct (is_empty ip); [now intros [= ->]|]. intros H.
    apply bind_raise in H as [H|(m & _ & H)]; [now apply of_option_raise in H|discriminate].
  - destruct (_ && _); [now intros [= ->]|]. intros H.
    apply bind_raise in H as [H|(m & _ & H)]; [now apply of_option_raise in H|discriminate].
Qed.

Lemma read_row_raise line ex : read_row line = Raise ex -> ex = ValueError.
Proof.
  unfold read_row. intros H.
  apply bind_raise in H as [H|(d & _ & H)]; [now apply strptime_Ymd_raise in H|].
  apply bind_raise in H as [H|(vs & _ & H)]; [|discriminate].
  apply mapM_raise in H as (v & _ & H). unfold read_value in H.
  destruct (String.eqb v "NA"); [discriminate|].
  apply bind_raise in H as [H|(x & _ & H)]; [now apply float_raise in H|discriminate].
Qed.

Lemma skip_header_some lines : forall acc,
  lines <> [] -> exists line rest, skip_header acc lines = (Some line, rest).
Proof.
  induction lines as [|l lines IH]; intros acc Hne; [contradiction|].
  cbn [skip_header]. destruct (rstrip l) as [|c r].
  - destruct lines as [|l' lines']; [cbn; eauto|]. now apply IH.
  - destruct (negb (Ascii.eqb c "#")); [eauto|].
    destruct lines as [|l' lines']; [cbn; eauto|]. now apply IH.
Qed.

Lemma universal_newlines_nonempty s : s <> ""%string -> universal_newlines s <> ""%string.
Proof.
  induction s as [|c s IH]; intros H; [contradiction|]. cbn [universal_newlines].
  destruct (Ascii.eqb c cr); [|discriminate].
  destruct s as [|c' s']; [discriminate|].
  destruct (Ascii.eqb c' nl); [|discriminate].
  apply IH. discriminate.
Qed.

Lemma lines_keepends_nonempty s : s <> ""%string -> lines_keepends s <> [].
Proof.
  destruct s as [|c s]; intros H; [contradiction|]. cbn [lines_keepends].
  destruct (Ascii.eqb c nl); [discriminate|].
  destruct (lines_keepends s); discriminate.
Qed.

(** The exceptions of the reader. *)
Lemma read_from_csv_raise content ex :
  read_from_csv content = Raise ex ->
  (ex = UnboundLocalError /\ content = ""%string) \/
  ex = Exception "Header mismatch" \/
  ex = ValueError.
Proof.
  intros H. unfold read_from_csv in H.
  destruct (decide (content = ""%string)) as [->|Hne].
  - left. cbn in H. injection H as <-. auto.
  - right.
    destruct (skip_header_some (file_lines content) None) as (line & rest & Hs).
    { apply lines_keepends_nonempty, universal_newlines_nonempty, Hne. }
    rewrite Hs in H. cbn [of_option bind] in H.
    destruct (negb _) in H; [left; now injection H as <-|].
    right. apply mapM_raise in H as (row & _ & Hrow).
    exact (read_row_raise _ _ Hrow).
Qed.

End ReaderFailures.

(* ------------------------------------------------------------------ *)
(** ** The table of a built record *)

Section ExportFacts.
Import Text Decimal Datetime Record Station.
Context {Shape SubShape : Type}.
Variable np : NumPy.
Variable sh : Shapely Shape SubShape.
Variable station_table : list station.
Variable e : env.

Lemma all_chars_map_chars P f s :
  all_chars P (map_chars f s) = all_chars (fun c => P (f c)) s.
Proof. induction s as [|c s IH]; cbn; [reflexivity|now rewrite IH]. Qed.

Lemma upper_char_cr c : is_not cr (upper_char c) = is_not cr c.
Proof. ascii_cases c; vm_compute; reflexivity. Qed.

Lemma no_cr_upper s : no_cr s -> no_cr (upper s).
Proof.
  unfold no_cr, upper. rewrite all_chars_map_chars. intros H.
  eapply all_chars_impl; [|exact H]. intros c Hc. now rewrite upper_char_cr.
Qed.

Lemma no_cr_app a b : no_cr a -> no_cr b -> no_cr (a +:+ b).
Proof. unfold no_cr. intros Ha Hb. now rewrite all_chars_app, Ha, Hb. Qed.

Lemma all_chars_substring P s : forall n m,
  all_chars P s = true -> all_chars P (String.substring n m s) = true.
Proof.
  induction s as [|c s IH]; intros n m H.
  - destruct n, m; reflexivity.
  - cbn [all_chars] in H. apply andb_prop in H as [Hc Hs].
    destruct n as [|n]; cbn [String.substring].
    + destruct m as [|m]; [reflexivity|]. cbn [all_chars]. now rewrite Hc, IH.
    + now apply IH.
Qed.

Lemma no_cr_replace s : no_cr s -> no_cr (replace_char nl (String nl "# ") s).
Proof.
  unfold no_cr. induction s as [|c s IH]; cbn [replace_char all_chars]; [reflexivity|].
  intros H. apply andb_prop in H as [Hc Hs].
  destruct (Ascii.eqb c nl).
  - sapp. cbn [all_chars]. now rewrite (IH Hs).
  - cbn [all_chars]. now rewrite Hc, (IH Hs).
Qed.

Lemma no_cr_log info msg : no_cr info -> no_cr msg -> no_cr (log info msg).
Proof.
  intros Hi Hm. unfold log, log_entry.
  repeat apply no_cr_app; try reflexivity; try assumption.
  now apply no_cr_replace.
Qed.

Lemma no_cr_digits k n : no_cr (digits_fixed k n).
Proof.
  unfold no_cr. eapply all_chars_impl; [|apply all_digits_fixed].
  intros c Hc. apply digit_plain in Hc as (_ & _ & _ & Hc).
  now apply cell_char_plain in Hc.
Qed.

Lemma no_cr_format_f prec x : no_cr (format_f prec x).
Proof.
  unfold no_cr. eapply all_chars_impl; [|apply all_numeric_format_f].
  intros c Hc. now apply numeric_cell_char, cell_char_plain in Hc.
Qed.

Lemma no_cr_ljust n s : no_cr s -> no_cr (ljust n s).
Proof. intros H. now apply all_chars_ljust. Qed.

Ltac no_cr_parts :=
  repeat first
    [ apply no_cr_digits | apply no_cr_format_f | apply no_cr_ljust
    | assumption | reflexivity | apply no_cr_app ].

Lemma no_cr_strftime_dmY d : no_cr (strftime_dmY d).
Proof. unfold strftime_dmY. no_cr_parts. Qed.

Lemma no_cr_station_message s distance weight :
  no_cr (Station.name s) -> no_cr (station_message s distance weight).
Proof.
  intros H. unfold station_message. no_cr_parts.
  now apply all_chars_substring.
Qed.

(** The provenance text after the stations are logged. *)
Lemma log_stations_block info closest weights :
  Forall (fun sd : station * Q => no_cr (Station.name sd.1)) closest ->
  comment_block info -> no_cr info ->
  comment_block (log_stations info closest weights) /\
  no_cr (log_stations info closest weights).
Proof.
  unfold log_stations. intros Hn. revert info weights.
  induction Hn as [|[s d] closest Hs _ IH]; intros info weights Hb Hc.
  - split; assumption.
  - destruct weights as [|wt weights]; [split; assumption|].
    cbn [zip zip_with foldl]. apply IH.
    + now apply comment_block_log.
    + apply no_cr_log; [exact Hc|]. now apply no_cr_station_message.
Qed.

Lemma Forall_py_take {A} (P : A -> Prop) k (l : list A) :
  Forall P l -> Forall P (py_take k l).
Proof. unfold py_take. intros H. destruct (k <? 0)%Z; now apply Forall_take. Qed.

(** The provenance text of a completed build is a block of comments. *)
Lemma build_collection_info self w r w' closest :
  found np sh station_table self = Ok closest -> closest <> [] ->
  build np sh station_table e self w = (Ok r, w') ->
  comment_block (collection_info self) -> no_cr (collection_info self) ->
  no_cr (Record.name self) ->
  Forall (fun sd : station * Q => no_cr (Station.name sd.1)) closest ->
  comment_block (collection_info r) /\ no_cr (collection_info r).
Proof.
  intros Hf Hne H Hb Hc Hname Hst. unfold build in H.
  fold (found np sh station_table self) in H.
  apply sbind_ok in H as (c & w1 & Hcl & H).
  unfold lift in Hcl. rewrite Hf in Hcl. injection Hcl as <- <-.
  destruct (length closest =? 0)%nat eqn:El;
    [apply length_zero_iff in El; contradiction|].
  apply sbind_ok in H as (_ & w2 & _ & H).
  apply sbind_ok in H as (rows & w3 & _ & H).
  unfold lift in H. injection H as <- <-. cbn [collection_info].
  apply log_stations_block.
  - now apply Forall_py_take.
  - repeat apply comment_block_log. exact Hb.
  - repeat apply no_cr_log; try reflexivity; try assumption.
    + now apply no_cr_upper.
    + repeat first [apply no_cr_strftime_dmY | reflexivity | apply no_cr_app].
Qed.

(** A datum of the series has the tracked attributes and no other. *)
Lemma daily_aggregate_keys yd ws d (datum : aggregate) :
  daily_aggregate yd ws d = Ok datum ->
  forall a, is_Some (datum !! a) <-> a ∈ attributes.
Proof.
  unfold daily_aggregate, populate. intros H a.
  destruct (populate_loop _ _ _ _ H a) as [Hin Hout].
  split.
  - intros Hs. destruct (decide (a ∈ attributes)) as [|Hn]; [assumption|].
    rewrite (Hout Hn), lookup_empty in Hs. now destruct Hs.
  - intros Ha. destruct (Hin Ha) as (v & _ & ->). eauto.
Qed.

Lemma build_well_formed self w r w' closest :
  found np sh station_table self = Ok closest -> closest <> [] ->
  (1 <= start_date self)%Z -> (end_date self <= MAXORDINAL)%Z ->
  build np sh station_table e self w = (Ok r, w') ->
  exists rows, data r = Some rows /\ Forall well_formed_row rows.
Proof.
  intros Hf Hne Hstart Hend Hb.
  destruct (build_rows np sh station_table e self w r w' closest Hf Hne Hstart Hb)
    as (rows & Hd & Hdates & Hrows).
  exists rows. split; [exact Hd|].
  apply Forall_forall. intros [d datum] Hin. split.
  - assert (Hdin : d ∈ map fst rows)
      by (apply list_elem_of_fmap; exists (d, datum); auto).
    rewrite Hdates in Hdin. apply elem_of_seqZ in Hdin.
    cbn [fst]. unfold valid_date. lia.
  - rewrite Forall_forall in Hrows.
    destruct (Hrows _ Hin) as (yd & _ & Hagg). cbn [fst snd] in *.
    eapply daily_aggregate_keys, Hagg.
Qed.

(** C8, as the code has it: for a record built from at least one
    station, from the year 1000 on (its name and the station names free
    of carriage returns), reading back the text written by
    [export_as_csv] gives the dates of the series and every value rounded
    to three decimals, absent values staying absent.  The reader refuses
    a header whose names differ from the expected ones; its other
    failures are a ValueError, on a row that does not read, and an
    UnboundLocalError, on a file without any text. *)
Theorem csv_round_trip self w r w' closest :
  found np sh station_table self = Ok closest -> closest <> [] ->
  (ymd2ord 1000 1 1 <= start_date self)%Z -> (end_date self <= MAXORDINAL)%Z ->
  collection_info self = ""%string ->
  no_cr (Record.name self) ->
  Forall (fun sd : station * Q => no_cr (Station.name sd.1)) closest ->
  build np sh station_table e self w = (Ok r, w') ->
  (exists rows,
     data r = Some rows /\
     (export_as_csv r).2 = Ok tt /\
     read_from_csv (export_as_csv r).1 =
     Ok (map (fun row => (row.1, round_value <$> row.2)) rows)) /\
  (forall content line rest,
     skip_header None (file_lines content) = (Some line, rest) ->
     split "," (remove_char space (lower line)) <> true_rownames ->
     read_from_csv content = Raise (Exception "Header mismatch")) /\
  (forall content ex,
     read_from_csv content = Raise ex ->
     (ex = UnboundLocalError /\ content = ""%string) \/
     ex = Exception "Header mismatch" \/
     ex = ValueError).
Proof.
  intros Hf Hne Hstart Hend Hinfo Hname Hst Hb.
  assert (Hstart' : (1 <= start_date self)%Z).
  { change (ymd2ord 1000 1 1) with 364878%Z in Hstart. lia. }
  split; [|split].
  - destruct (build_well_formed _ _ _ _ _ Hf Hne Hstart' Hend Hb) as (rows & Hd & Hwf).
    destruct (build_collection_info _ _ _ _ _ Hf Hne Hb) as [Hblock Hcr];
      try assumption; try (rewrite Hinfo; first [constructor|reflexivity]).
    exists rows. split; [exact Hd|].
    now apply export_read.
  - apply read_header_mismatch.
  - apply read_from_csv_raise.
Qed.

End ExportFacts.

Section ExportSamples.
Import Text Decimal Datetime Record Station Sample.

Lemma csv_round_trip_witness :
  exists r w' rows,
    build numpy shapely [oslo; bergen] env_up record_3days empty_world = (Ok r, w') /\
    data r = Some rows /\
    (export_as_csv r).2 = Ok tt /\
    read_from_csv (export_as_csv r).1 =
    Ok (map (fun row => (row.1, round_value <$> row.2)) rows).
Proof.
  pose (closest := from_ok [] (found numpy shapely [oslo; bergen] record_3days)).
  assert (Hf : found numpy shapely [oslo; bergen] record_3days = Ok closest)
    by (apply from_ok_eq; vm_compute; reflexivity).
  assert (Hlen : length closest = 1%nat) by (vm_compute; reflexivity).
  assert (Hst : forallb (fun sd : station * Q =>
                           all_chars (is_not cr) (Station.name sd.1)) closest = true)
    by (vm_compute; reflexivity).
  clearbody closest.
  assert (Hne : closest <> []) by (intros ->; discriminate Hlen).
  destruct (build_total numpy shapely [oslo; bergen] env_up record_3days
              empty_world closest Hf Hne) as (r & w' & Hb).
  - cbn. lia.
  - cbn. lia.
  - cbn. lia.
  - cbn. unfold MAXORDINAL. lia.
  - exact good_env_up.
  - exact good_empty_world.
  - destruct (csv_round_trip numpy shapely [oslo; bergen] env_up record_3days
                empty_world r w' closest Hf Hne) as [(rows & Hd & Hw & Hr) _].
    + change (ymd2ord 1000 1 1) with 364878%Z. cbn. lia.
    + cbn. unfold MAXORDINAL. lia.
    + reflexivity.
    + reflexivity.
    + apply Forall_forall. intros sd Hin.
      rewrite forallb_forall in Hst. apply Hst. now apply list_elem_of_In.
    + exact Hb.
    + exists r, w', rows. auto.
Defined.

(** Against C8 as stated: a table under the expected header whose row
    does not begin with a date makes the reader raise [ValueError]; and
    the table written for a record whose name holds a carriage return is
    refused, the reader taking the end of the broken comment line for
    the header. *)
Lemma read_from_csv_fails_under_expected_header :
  (exists line rest,
     skip_header None (file_lines bad_row_file) = (Some line, rest) /\
     split "," (remove_char space (lower line)) = true_rownames /\
     read_from_csv bad_row_file = Raise ValueError) /\
  (exists r w',
     build numpy shapely [oslo; bergen] env_up record_cr empty_world = (Ok r, w') /\
     (export_as_csv r).2 = Ok tt /\
     read_from_csv (export_as_csv r).1 = Raise (Exception "Header mismatch")).
Proof.
  split.
  - eexists _, _. split; [vm_compute; reflexivity|].
    split; vm_compute; reflexivity.
  - eexists _, _. split; [vm_compute; reflexivity|].
    split; vm_compute; reflexivity.
Qed.

End ExportSamples.

(* ================================================================== *)
(** * Further properties of the code *)

(* ------------------------------------------------------------------ *)
(** ** station.py: the date filter and the searches *)

Section StationsMore.
Import Text Decimal Datetime Station.

(** X1: The date filter keeps the catalogue order and exactly the stations
    whose record ends after start_date and begins before end_date, both
    strictly: a station whose record ends on start_date is left out. *)
Theorem get_stations_filter station_table sd ed :
  sublist (get_stations station_table sd ed) station_table /\
  forall s, s ∈ get_stations station_table sd ed <->
    s ∈ station_table /\
    (forall d, sd = Some d -> (d < record_end s)%Z) /\
    (forall d, ed = Some d -> (record_start s < d)%Z).
Proof.
  unfold get_stations, Datetime.lt. split.
  - destruct sd as [d1|], ed as [d2|]; try reflexivity;
      repeat (etransitivity; [apply sublist_filter|]); reflexivity.
  - intros s.
    destruct sd as [d1|], ed as [d2|]; rewrite ?list_elem_of_filter, ?Z.ltb_lt.
    + split.
      * intros (H2 & H1 & Hin). split; [exact Hin|].
        split; intros d [= <-]; assumption.
      * intros (Hin & H1 & H2). auto.
    + split.
      * intros (H1 & Hin). split; [exact Hin|].
        split; [intros d [= <-]; assumption|discriminate].
      * intros (Hin & H1 & _). auto.
    + split.
      * intros (H2 & Hin). split; [exact Hin|].
        split; [discriminate|intros d [= <-]; assumption].
      * intros (Hin & _ & H2). auto.
    + split; [intros Hin; split; [exact Hin|split; discriminate]|tauto].
Qed.

End StationsMore.

Lemma filter_none {A} (P : A -> Prop) `{forall x, Decision (P x)} (l : list A) :
  Forall (fun x => ~ P x) l -> filter P l = [].
Proof.
  induction 1 as [|x l Hx _ IH]; [reflexivity|].
  now rewrite filter_cons_False.
Qed.

Lemma filter_fmap_length {A B} (f : A -> B) (P : B -> Prop)
    `{forall x, Decision (P x)} (l : list A) :
  length (filter P (map f l)) = length (filter (fun a => P (f a)) l).
Proof.
  induction l as [|x l IH]; [reflexivity|].
  cbn [map]. rewrite !filter_cons.
  destruct (decide (P (f x))); cbn [length]; now rewrite IH.
Qed.

Section Sorting.
Context {A : Type}.
Variable key : A -> Q.

Lemma insert_by_sorted x l :
  StronglySorted (by_key key) l -> StronglySorted (by_key key) (insert_by key x l).
Proof.
  induction 1 as [|y l Hs IH Hy]; cbn [insert_by].
  - repeat constructor.
  - destruct (Qle_bool (key x) (key y)) eqn:E.
    + apply Qle_bool_iff in E. constructor; [now constructor|].
      constructor; [exact E|].
      eapply Forall_impl; [exact Hy|]. intros z Hz. unfold by_key in *.
      eapply Qle_trans; eassumption.
    + constructor; [exact IH|].
      rewrite (insert_by_perm key x l). constructor; [|exact Hy].
      unfold by_key. destruct (Qlt_le_dec (key y) (key x)) as [H|H].
      * now apply Qlt_le_weak.
      * apply Qle_bool_iff in H. congruence.
Qed.

Lemma sort_by_sorted l : StronglySorted (by_key key) (sort_by key l).
Proof.
  induction l as [|x l IH]; [constructor|].
  cbn [sort_by foldr]. now apply insert_by_sorted.
Qed.

Lemma take_within m l :
  StronglySorted (by_key key) l ->
  take (length (filter (fun a => Qle_bool (key a) m = true) l)) l =
  filter (fun a => Qle_bool (key a) m = true) l.
Proof.
  induction 1 as [|x l Hs IH Hx]; [reflexivity|].
  rewrite filter_cons. destruct (decide (Qle_bool (key x) m = true)) as [E|E].
  - cbn [length take]. now rewrite IH.
  - assert (Hnil : filter (fun a => Qle_bool (key a) m = true) l = []).
    { apply filter_none.
      eapply Forall_impl; [exact Hx|]. intros z Hz Hzm. apply E.
      apply Qle_bool_iff. apply Qle_bool_iff in Hzm.
      eapply Qle_trans; eassumption. }
    now rewrite Hnil.
Qed.

End Sorting.

Section Closest.
Import Station.
Variable np : NumPy.

(** X2: The nearest stations, nearest first; with [max_dist], exactly those
    within [max_dist] (inclusive). *)
Theorem find_closest_stations_within station_table latitude longitude m sd ed :
  let all := find_closest_stations np station_table latitude longitude None sd ed in
  let closest := find_closest_stations np station_table latitude longitude (Some m) sd ed in
  StronglySorted (fun a b : station * Q => a.2 <= b.2) all /\
  all ≡ₚ map (fun s => (s, distance_from np s latitude longitude))
           (get_stations station_table sd ed) /\
  closest = filter (fun a : station * Q => Qle_bool a.2 m = true) all /\
  forall s d, (s, d) ∈ closest <->
    s ∈ get_stations station_table sd ed /\
    d = distance_from np s latitude longitude /\ d <= m.
Proof.
  intros all closest. unfold find_closest_stations in all, closest.
  set (stations := get_stations station_table sd ed) in *.
  set (dist := fun s => distance_from np s latitude longitude) in *.
  assert (Hzip : zip stations (map dist stations) = map (fun s => (s, dist s)) stations).
  { clear. induction stations as [|s l IH]; [reflexivity|]. cbn. now rewrite IH. }
  assert (Hsorted : StronglySorted (by_key snd) all) by apply sort_by_sorted.
  assert (Hperm : all ≡ₚ map (fun s => (s, dist s)) stations).
  { unfold all. now rewrite sort_by_perm, Hzip. }
  assert (Hc : closest = filter (fun a : station * Q => Qle_bool a.2 m = true) all).
  { unfold closest. rewrite <- (take_within snd m all Hsorted). f_equal.
    rewrite (Permutation_length (filter_Permutation _ _ _ Hperm)).
    rewrite (filter_fmap_length (fun s => (s, dist s))
               (fun a : station * Q => Qle_bool a.2 m = true)).
    now rewrite filter_fmap_length. }
  split; [exact Hsorted|]. split; [exact Hperm|]. split; [exact Hc|].
  intros s d. rewrite Hc, list_elem_of_filter, Hperm, list_elem_of_fmap.
  cbn [snd]. rewrite Qle_bool_iff. split.
  - intros (Hle & s' & [= -> ->] & Hin). auto.
  - intros (Hin & -> & Hle). split; [exact Hle|]. now exists s.
Qed.

End Closest.

Section SearchMore.
Import Record Station.
Context {Shape SubShape : Type}.
Variable np : NumPy.
Variable sh : Shapely Shape SubShape.

Lemma find_sorted station_table shape contour_dist sd ed closest :
  find_stations_in_geometry np sh station_table shape contour_dist sd ed = Ok closest ->
  StronglySorted (by_key snd) closest.
Proof.
  unfold find_stations_in_geometry. intros Hfind.
  destruct (cutoff np sh shape contour_dist); [|discriminate].
  cbn [bind] in Hfind. injection Hfind as <-. apply (sort_by_sorted snd).
Qed.

(** X3: The search returns its stations in ascending order of the
    distance it gives them.  A station is returned when it passes the
    date filter and the cutoff and either lies inside the region, with
    the distance 0 whatever contour_dist is, or has a [border_distance]
    (the least great-circle distance to the points that the planar
    projection gives on the exteriors, one per exterior) below
    contour_dist, with that distance. *)
Theorem find_stations_in_geometry_result station_table shape contour_dist sd ed closest :
  find_stations_in_geometry np sh station_table shape contour_dist sd ed = Ok closest ->
  StronglySorted (fun a b : station * Q => a.2 <= b.2) closest /\
  exists max_dist,
    cutoff np sh shape contour_dist = Ok max_dist /\
    forall s d, (s, d) ∈ closest <->
      s ∈ get_stations station_table sd ed /\
      distance_from np s (py (centroid sh shape)) (px (centroid sh shape)) <= max_dist /\
      (if inside sh shape s then d = 0
       else d = border_distance np sh shape s /\ d < contour_dist).
Proof.
  intros Hfind. split.
  - exact (find_sorted _ _ _ _ _ _ Hfind).
  - pose proof Hfind as Hc. unfold find_stations_in_geometry in Hc.
    destruct (cutoff np sh shape contour_dist) as [max_dist|] eqn:Hcut; [|discriminate].
    clear Hc. exists max_dist. split; [reflexivity|].
    intros s d. rewrite (elem_of_find np sh _ _ _ _ _ _ s d Hfind).
    unfold station_distance, full_test. fold (inside sh shape s).
    split.
    + intros (Hs & m & Hm & Hd). rewrite Hcut in Hm. injection Hm as <-.
      split; [exact Hs|].
      destruct (Qlt_le_dec max_dist _) as [|Hle]; [discriminate|].
      split; [exact Hle|].
      destruct (inside sh shape s); [now injection Hd as <-|].
      destruct (Qlt_le_dec _ contour_dist) as [Hlt|]; [|discriminate].
      injection Hd as <-. auto.
    + intros (Hs & Hle & Hd). split; [exact Hs|].
      exists max_dist. split; [exact Hcut|].
      destruct (Qlt_le_dec max_dist _) as [Hlt|_];
        [exfalso; apply (Qlt_not_le _ _ Hlt Hle)|].
      destruct (inside sh shape s); [now rewrite Hd|].
      destruct Hd as [-> Hlt].
      destruct (Qlt_le_dec _ contour_dist) as [|Hge]; [reflexivity|].
      exfalso. apply (Qlt_not_le _ _ Hlt Hge).
Qed.

(** X4: With a contour distance of at most 50 km, every station found (at
    a distance that is not negative) has a positive weight. *)
Theorem found_stations_have_weight station_table shape contour_dist sd ed closest s d :
  find_stations_in_geometry np sh station_table shape contour_dist sd ed = Ok closest ->
  contour_dist <= max_station_distance ->
  (s, d) ∈ closest -> 0 <= d ->
  0 < distance_weight d /\ distance_weight d <= 1.
Proof.
  intros Hfind Hc Hin Hd.
  assert (Hlt : d < max_station_distance).
  { apply (elem_of_find np sh _ _ _ _ _ _ s d Hfind) in Hin as (_ & m & _ & Hs).
    unfold station_distance, full_test in Hs.
    destruct (Qlt_le_dec m _); [discriminate|].
    destruct (existsb _ _); [injection Hs as <-; reflexivity|].
    destruct (Qlt_le_dec _ contour_dist) as [Hlt|]; [|discriminate].
    injection Hs as <-. eapply Qlt_le_trans; eassumption. }
  rewrite (distance_weight_near d Hlt), quadratic_falloff.
  unfold max_station_distance in Hlt.
  assert (d * d < 50 * 50) by (apply square_lt; assumption).
  assert (0 <= d * d) by (apply Qmult_le_0_compat; assumption).
  split; lra.
Qed.

End SearchMore.

Section CutoffMore.
Import Station.
Context {Shape SubShape : Type}.
Variable np : NumPy.
Variable sh : Shapely Shape SubShape.

Lemma elem_of_unpruned station_table shape contour_dist sd ed closest s d :
  find_stations_unpruned np sh station_table shape contour_dist sd ed = Ok closest ->
  (s, d) ∈ closest <->
  s ∈ get_stations station_table sd ed /\ full_test np sh shape contour_dist s = Some d.
Proof.
  unfold find_stations_unpruned. intros H.
  destruct (cutoff np sh shape contour_dist); [|discriminate].
  cbn [bind] in H. injection H as <-.
  now rewrite sort_by_perm, elem_of_with_distance.
Qed.

(** X5: What the cutoff does to the result: it can only remove stations.
    Every station the search returns is returned, with the same distance,
    by the search that tests every station, and the stations that the
    cutoff costs are those further than the cutoff from the centroid. *)
Theorem cutoff_only_removes station_table shape contour_dist sd ed closest full max_dist :
  find_stations_in_geometry np sh station_table shape contour_dist sd ed = Ok closest ->
  find_stations_unpruned np sh station_table shape contour_dist sd ed = Ok full ->
  cutoff np sh shape contour_dist = Ok max_dist ->
  forall s d,
    (s, d) ∈ closest <->
    (s, d) ∈ full /\
    distance_from np s (py (centroid sh shape)) (px (centroid sh shape)) <= max_dist.
Proof.
  intros Hc Hf Hm s d.
  rewrite (elem_of_find np sh _ _ _ _ _ _ s d Hc), (elem_of_unpruned _ _ _ _ _ _ s d Hf).
  unfold station_distance. split.
  - intros (Hs & m & Hm' & Hd). rewrite Hm in Hm'. injection Hm' as <-.
    destruct (Qlt_le_dec max_dist _) as [|Hle]; [discriminate|]. auto.
  - intros ((Hs & Hd) & Hle). split; [exact Hs|]. exists max_dist.
    split; [exact Hm|].
    destruct (Qlt_le_dec max_dist _) as [Hlt|_]; [|exact Hd].
    exfalso. apply (Qlt_not_le _ _ Hlt Hle).
Qed.

End CutoffMore.

(* ------------------------------------------------------------------ *)
(** ** station.py: the cache *)

Section CachePolicy.
Import Text Decimal Datetime Station.

(** X6: The cache policy: a file of a past year is served whatever its
    age, a file of the current year as long as it is at most 24 hours old,
    both without a request; a file of the current year older than that is
    not read: the server is asked, and when it answers with an HTTP error
    the result is absent although the old file is still in the cache. *)
Theorem retrieve_obs_cache_policy e self year w f :
  in_range self year = true ->
  fs w !! filepath self year = Some f ->
  let age := trunc (now e - mtime f) in
  ((year <> current_year e \/ age <= 24 * 3600)%Z ->
     retrieve_obs e self year w = (parse_file (content f), w)) /\
  ((year = current_year e /\ 24 * 3600 < age)%Z ->
     requests (retrieve_obs e self year w).2 = requests w ++ [url self year] /\
     forall code, urlretrieve e (url self year) = HTTPError code ->
       (retrieve_obs e self year w).1 = Ok None /\
       fs (retrieve_obs e self year w).2 !! filepath self year = Some f).
Proof.
  intros Hr Hf age. unfold retrieve_obs, cached. rewrite Hr, Hf. cbn [negb].
  fold age. split.
  - intros H.
    destruct ((year =? current_year e)%Z && (24 * 3600 <? age)%Z) eqn:E; [|reflexivity].
    apply andb_prop in E as [E1 E2]. apply Z.eqb_eq in E1. apply Z.ltb_lt in E2.
    destruct H; [contradiction|lia].
  - intros [Hy Ha].
    replace ((year =? current_year e)%Z && (24 * 3600 <? age)%Z) with true
      by (symmetry; apply andb_true_intro; split; [apply Z.eqb_eq|apply Z.ltb_lt]; assumption).
    split.
    + destruct (urlretrieve e (url self year)); reflexivity.
    + intros code ->. cbn [fst snd fs]. auto.
Qed.

End CachePolicy.

Section RetrievalMore.
Import Text Decimal Datetime Station.

(** X7: A file that was just downloaded is served from the cache by the
    next call, without a request, as long as the year is not the current
    one or the file is at most a day old. *)
Theorem retrieve_obs_served_from_cache e e' self year w text :
  in_range self year = true ->
  cached e self year w = None ->
  urlretrieve e (url self year) = Fetched text ->
  (year <> current_year e' \/ trunc (now e' - now e) <= 24 * 3600)%Z ->
  let first := retrieve_obs e self year w in
  fs first.2 !! filepath self year = Some {| content := text; mtime := now e |} /\
  requests first.2 = requests w ++ [url self year] /\
  first.1 = parse_file text /\
  retrieve_obs e' self year first.2 = (parse_file text, first.2).
Proof.
  intros Hr Hc Hu Hage first. unfold first, retrieve_obs.
  rewrite Hr, Hc, Hu. cbn [negb fst snd fs requests].
  split; [apply lookup_insert_eq|]. split; [reflexivity|]. split; [reflexivity|].
  unfold cached. cbn [fs]. rewrite lookup_insert_eq. cbn [mtime content].
  destruct ((year =? current_year e')%Z && (24 * 3600 <? trunc (now e' - now e))%Z) eqn:E;
    [|reflexivity].
  apply andb_prop in E as [E1 E2]. apply Z.eqb_eq in E1. apply Z.ltb_lt in E2.
  destruct Hage; [contradiction|lia].
Qed.


End RetrievalMore.

(* ------------------------------------------------------------------ *)
(** ** station.py: the parser *)

Section ParserMore.
Import Text Decimal Datetime Station.

(** X9: When several lines carry the same date, the record of the last of
    them is the one kept. *)
Theorem parse_gsod_data_last_line_wins contents obs before line after :
  parse_gsod_data contents = Ok obs ->
  data_lines contents = before ++ line :: after ->
  Forall (fun l => slice 14 22 l <> slice 14 22 line) after ->
  exists d, parse_line line = Ok (slice 14 22 line, d) /\
            obs !! slice 14 22 line = Some d.
Proof.
  unfold parse_gsod_data. intros Hp Hl Hafter.
  destruct (mapM parse_line (data_lines contents)) as [entries|] eqn:He;
    [|discriminate].
  cbn [bind] in Hp. injection Hp as <-.
  apply mapM_ok in He. rewrite Hl in He.
  apply Forall2_app_inv_l in He as (e1 & e2' & H1 & H2 & ->).
  apply Forall2_cons_inv_l in H2 as ([k d] & e2 & Hline & H2 & ->).
  pose proof Hline as Hk.
  apply parse_line_steps in Hk as (_ & _ & _ & _ & -> & _).
  exists d. split; [exact Hline|].
  apply py_dict_lookup_last. exists e1, e2. split; [reflexivity|].
  clear - H2 Hafter. induction H2 as [|l [k' d'] after e2 Hp _ IH]; [constructor|].
  apply Forall_cons in Hafter as [Hne Hafter].
  constructor; [|now apply IH].
  apply parse_line_steps in Hp as (_ & _ & _ & _ & -> & _). exact Hne.
Qed.

(** X10: A text without a line after the first one (an empty file, or a
    header alone) gives the empty mapping. *)
Theorem parse_gsod_data_header_only contents :
  all_chars (is_not nl) contents = true ->
  parse_gsod_data contents = Ok ∅.
Proof.
  intros H. unfold parse_gsod_data, data_lines.
  now rewrite (split_field nl contents H).
Qed.

Lemma get_short s : forall n, (String.length s <= n)%nat -> String.get n s = None.
Proof.
  induction s as [|c s IH]; intros n H; [reflexivity|].
  destruct n as [|n]; cbn in H; [lia|]. cbn [String.get]. apply IH. lia.
Qed.

Lemma raw_datum_last line r :
  raw_datum line = Ok r -> raises (bool_field line 137) = false.
Proof.
  unfold raw_datum. intros H.
  repeat match type of H with
         | bind ?x _ = Ok _ =>
             let E := fresh "E" in
             destruct x eqn:E; cbn [bind] in H; [|discriminate H]
         end.
  reflexivity.
Qed.

(** X11: A line of fewer than 138 characters never parses: its last flag, at
    the latest, is out of range; one such line makes the whole file
    fail. *)
Theorem short_line_aborts line :
  (String.length line <= 137)%nat ->
  raises (parse_line line) = true /\
  forall contents, line ∈ data_lines contents ->
    raises (parse_gsod_data contents) = true.
Proof.
  intros Hlen.
  assert (Hp : raises (parse_line line) = true).
  { unfold parse_line.
    destruct (raw_datum line) as [r|] eqn:Hr; [|reflexivity].
    apply raw_datum_last in Hr. unfold bool_field, index in Hr.
    rewrite (get_short line 137 Hlen) in Hr. discriminate Hr. }
  split; [exact Hp|].
  intros contents Hin. unfold parse_gsod_data.
  assert (Hm : raises (mapM parse_line (data_lines contents)) = true).
  { apply mapM_raises, Exists_exists. exists line. auto. }
  destruct (mapM parse_line (data_lines contents)); [discriminate Hm|reflexivity].
Qed.

End ParserMore.

(* ------------------------------------------------------------------ *)
(** ** record.py: the stations in use *)

Section BuildMore.
Import Record Spec Station.
Context {Shape SubShape : Type}.
Variable np : NumPy.
Variable sh : Shapely Shape SubShape.
Variable station_table : list station.
Variable e : env.

(** X12: The stations in use are the nearest of those found: max_stations
    of them (all of them when fewer were found), or, for a negative
    max_stations, all but that many of the farthest. *)
Theorem pruned_keeps_nearest (self : Record.t Shape) closest :
  found np sh station_table self = Ok closest ->
  let used := pruned (max_stations self) closest in
  exists rest,
    closest = used ++ rest /\
    (forall a b, a ∈ used -> b ∈ rest -> a.2 <= b.2) /\
    length used =
      Z.to_nat (if (max_stations self <? 0)%Z
                then Z.of_nat (length closest) + max_stations self
                else Z.min (max_stations self) (Z.of_nat (length closest))).
Proof.
  intros Hf used.
  assert (Hs : StronglySorted (by_key snd) closest).
  { unfold found in Hf. exact (find_sorted np sh _ _ _ _ _ _ Hf). }
  assert (Hu : exists n, used = take n closest /\
            n = Z.to_nat (if (max_stations self <? 0)%Z
                          then Z.of_nat (length closest) + max_stations self
                          else Z.min (max_stations self) (Z.of_nat (length closest)))
            /\ (n <= length closest)%nat).
  { unfold used, pruned, py_take.
    destruct (max_stations self <? 0)%Z eqn:Em.
    - apply Z.ltb_lt in Em. rewrite Z.min_l by lia.
      replace (_ <? 0)%Z with true by (symmetry; apply Z.ltb_lt; lia).
      eexists. split; [reflexivity|]. split; [reflexivity|lia].
    - apply Z.ltb_ge in Em.
      replace (_ <? 0)%Z with false by (symmetry; apply Z.ltb_ge; lia).
      eexists. split; [reflexivity|]. split; [reflexivity|lia]. }
  destruct Hu as (n & Hu & Hn & Hle).
  exists (drop n closest). split; [rewrite Hu; symmetry; apply take_drop|].
  split.
  - rewrite Hu. rewrite <- (take_drop n closest) in Hs.
    intros a b Ha Hb.
    revert Hs. generalize (take n closest) (drop n closest) Ha Hb. clear.
    intros l1 l2 Ha Hb Hs. induction l1 as [|x l1 IH]; [now apply elem_of_nil in Ha|].
    cbn [app] in Hs. apply StronglySorted_inv in Hs as [Hs Hx].
    apply elem_of_cons in Ha as [->|Ha]; [|now apply IH].
    rewrite Forall_forall in Hx. apply (Hx b).
    apply elem_of_app. now right.
  - rewrite Hu, length_take, <- Hn. lia.
Qed.

(** X13: When stations are found but max_stations leaves none of them (it
    is 0, or negative with an absolute value of at least their number),
    the constructor fails with ValueError. *)
Theorem build_without_allowed_station (self : Record.t Shape) w closest :
  found np sh station_table self = Ok closest -> closest <> [] ->
  (max_stations self = 0 \/ max_stations self <= - Z.of_nat (length closest))%Z ->
  build np sh station_table e self w = (Raise ValueError, w).
Proof.
  intros Hf Hne Hm. unfold build. fold (found np sh station_table self).
  rewrite Hf. unfold sbind at 1, lift at 1.
  destruct (length closest =? 0)%nat eqn:El;
    [apply length_zero_iff in El; contradiction|].
  assert (Hp : pruned (max_stations self) closest = []).
  { unfold pruned, py_take.
    assert (0 < length closest)%nat by (destruct closest; [contradiction|cbn; lia]).
    destruct Hm as [->|Hm].
    - rewrite Z.min_l by lia. reflexivity.
    - rewrite Z.min_l by lia.
      replace (_ <? 0)%Z with true by (symmetry; apply Z.ltb_lt; lia).
      replace (Z.to_nat _) with 0%nat by lia. reflexivity. }
  rewrite Hp. reflexivity.
Qed.

End BuildMore.

Section BuildEdge.
Import Record Spec Station.
Context {Shape SubShape : Type}.
Variable np : NumPy.
Variable sh : Shapely Shape SubShape.
Variable station_table : list station.
Variable e : env.

(** X14: With an end date before the start date the constructor succeeds
    and the series is empty: no file is looked up, nothing is requested. *)
Theorem build_empty_range (self : Record.t Shape) w closest :
  found np sh station_table self = Ok closest -> closest <> [] ->
  (1 <= max_stations self)%Z ->
  (end_date self < start_date self)%Z ->
  exists r, build np sh station_table e self w = (Ok r, w) /\ data r = Some [].
Proof.
  intros Hf Hne Hmax Hlt. unfold build. fold (found np sh station_table self).
  rewrite Hf. unfold sbind at 1, lift at 1.
  destruct (length closest =? 0)%nat eqn:El;
    [apply length_zero_iff in El; contradiction|].
  pose proof (pruned_nonempty _ _ Hne Hmax) as Hp.
  destruct (length (pruned (max_stations self) closest) =? 0)%nat eqn:El';
    [apply length_zero_iff in El'; contradiction|].
  unfold sbind at 1, lift at 1.
  replace (Z.to_nat (end_date self - start_date self + 1)) with 0%nat by lia.
  cbn [gather_days]. unfold sbind, lift. eauto.
Qed.

End BuildEdge.

(* ------------------------------------------------------------------ *)
(** ** record.py: the loop over the days *)

Section LoopMore.
Import Record Spec Station.

Lemma lift_inv {A} (r : result A) w a w' : lift r w = (Ok a, w') -> r = Ok a /\ w' = w.
Proof. unfold lift. intros [= -> ->]. auto. Qed.

(** While the year does not change, the loop leaves the cache and the
    network alone. *)
Lemma gather_days_same_year e stations ws (y : Z) :
  forall days (date : Datetime.date) yd data w rows w',
  (forall k, (0 <= k < Z.of_nat days)%Z -> Datetime.year (date + k)%Z = y) ->
  gather_days e stations ws days date y yd data w = (Ok rows, w') ->
  w' = w.
Proof.
  induction days as [|days IH]; intros date yd data w rows w' Hy H; cbn [gather_days] in H.
  - now apply lift_inv in H as [_ ->].
  - assert (H0 : Datetime.year date = y)
      by (rewrite <- (Hy 0%Z) by lia; f_equal; lia).
    rewrite H0, Z.eqb_refl in H. cbn [negb] in H.
    apply sbind_ok in H as (yd' & w1 & H1 & H). apply lift_inv in H1 as [_ ->].
    apply sbind_ok in H as (datum & w1 & H1 & H). apply lift_inv in H1 as [_ ->].
    apply sbind_ok in H as (next & w1 & H1 & H). apply lift_inv in H1 as [Hn ->].
    unfold Datetime.add_days in Hn.
    destruct (_ && _) in Hn; [|discriminate]. injection Hn as <-.
    apply IH in H; [exact H|].
    intros k Hk. rewrite <- (Hy (1 + k)%Z) by lia. f_equal. lia.
Qed.

Lemma retrieve_obs_requests e self year w :
  requests (retrieve_obs e self year w).2 = requests w \/
  requests (retrieve_obs e self year w).2 = requests w ++ [url self year].
Proof.
  unfold retrieve_obs.
  destruct (in_range self year); cbn [negb]; [|now left].
  destruct (cached e self year w); [now left|].
  destruct (urlretrieve e (url self year)); now right.
Qed.

(** What a retrieval for a year asks the server: at most one file per
    station, in the order of the stations. *)
Lemma fetch_year_requests e stations year : forall w,
  exists urls,
    requests (fetch_year e stations year w).2 = requests w ++ urls /\
    sublist urls (map (fun s => url s year) stations).
Proof.
  induction stations as [|s stations IH]; intros w; cbn [fetch_year].
  - exists []. split; [now rewrite app_nil_r|constructor].
  - unfold sbind at 1.
    destruct (retrieve_obs e s year w) as [r w1] eqn:Hr.
    assert (Hw1 : requests w1 = requests w \/ requests w1 = requests w ++ [url s year]).
    { pose proof (retrieve_obs_requests e s year w) as H. now rewrite Hr in H. }
    destruct r as [obs|ex].
    + unfold sbind. destruct (IH w1) as (urls & Hu & Hs).
      assert (Hw' : requests (let (r, w2) := fetch_year e stations year w1 in
                              match r with
                              | Ok a => lift (Ok (obs :: a)) w2
                              | Raise ex => (Raise ex, w2)
                              end).2 = requests (fetch_year e stations year w1).2).
      { destruct (fetch_year e stations year w1) as [[a|ex] w2]; reflexivity. }
      rewrite Hw', Hu. cbn [map].
      destruct Hw1 as [->| ->].
      * exists urls. split; [reflexivity|now apply sublist_cons].
      * exists (url s year :: urls). split; [now rewrite <- app_assoc|].
        now apply sublist_skip.
    + cbn [snd]. destruct Hw1 as [->| ->].
      * exists []. split; [now rewrite app_nil_r|apply sublist_nil_l].
      * exists [url s year]. split; [reflexivity|].
        cbn [map]. apply sublist_skip, sublist_nil_l.
Qed.

(** A retrieval leaves the files of the other stations as they were. *)
Lemma retrieve_obs_other_files e self year w path :
  path <> filepath self year ->
  fs (retrieve_obs e self year w).2 !! path = fs w !! path.
Proof.
  intros Hp. unfold retrieve_obs.
  destruct (in_range self year); cbn [negb]; [|reflexivity].
  destruct (cached e self year w); [reflexivity|].
  destruct (urlretrieve e (url self year)); cbn [snd fs]; try reflexivity.
  now rewrite lookup_insert_ne.
Qed.


Lemma fetch_year_other_files e stations year path : forall w,
  path ∉ map (fun s => filepath s year) stations ->
  fs (fetch_year e stations year w).2 !! path = fs w !! path.
Proof.
  induction stations as [|s stations IH]; intros w Hp; cbn [fetch_year].
  - reflexivity.
  - cbn [map] in Hp. apply not_elem_of_cons in Hp as [Hs Hrest].
    unfold sbind at 1.
    destruct (retrieve_obs e s year w) as [r w1] eqn:Hr.
    assert (Hw1 : fs w1 !! path = fs w !! path).
    { pose proof (retrieve_obs_other_files e s year w path Hs) as H.
      now rewrite Hr in H. }
    destruct r as [obs|ex]; [|exact Hw1].
    unfold sbind. rewrite <- Hw1, <- (IH w1 Hrest).
    destruct (fetch_year e stations year w1) as [[a|ex] w2]; reflexivity.
Qed.

(** X15: Over days of one calendar year, a loop that completes retrieves
    the files of the stations once, however many days follow the first:
    the requests it adds are, counted with their number and whatever the
    order in which the jobs ran, among the addresses of the files of the
    stations for that year, at most one per station, and no file of the
    cache other than those of the stations for that year changes. *)
Theorem one_retrieval_per_year e stations ws days (date : Datetime.date) data w rows w' :
  (1 <= date)%Z ->
  (forall k, (0 <= k <= Z.of_nat days)%Z ->
     Datetime.year (date + k)%Z = Datetime.year date) ->
  gather_days e stations ws (S days) date (-1) [] data w = (Ok rows, w') ->
  exists urls,
    requests w' = requests w ++ urls /\
    urls ⊆+ map (fun s => url s (Datetime.year date)) stations /\
    (length urls <= length stations)%nat /\
    forall path, path ∉ map (fun s => filepath s (Datetime.year date)) stations ->
      fs w' !! path = fs w !! path.
Proof.
  intros Hd Hy H.
  assert (Hw : w' = (fetch_year e stations (Datetime.year date) w).2).
  { cbn [gather_days] in H.
    pose proof (year_positive date Hd) as Hpos.
    replace (-1 =? Datetime.year date)%Z with false in H
      by (symmetry; apply Z.eqb_neq; lia).
    cbn [negb] in H.
    apply sbind_ok in H as (yd & w1 & H1 & H). rewrite H1. cbn [snd].
    apply sbind_ok in H as (datum & w2 & H2 & H). apply lift_inv in H2 as [_ ->].
    apply sbind_ok in H as (next & w2 & H2 & H). apply lift_inv in H2 as [Hn ->].
    unfold Datetime.add_days in Hn.
    destruct (_ && _) in Hn; [|discriminate]. injection Hn as <-.
    apply gather_days_same_year in H; [exact H|].
    intros k Hk. rewrite <- (Hy (1 + k)%Z) by lia. f_equal. lia. }
  destruct (fetch_year_requests e stations (Datetime.year date) w) as (urls & Hr & Hs).
  exists urls. rewrite Hw. split; [exact Hr|].
  split; [now apply sublist_submseteq|].
  split.
  - apply sublist_length in Hs. now rewrite length_map in Hs.
  - intros path Hp. now apply fetch_year_other_files.
Qed.

End LoopMore.

Section PairingMore.
Import Record Spec Station.




(** X17: The aggregation of a day cannot fail on records that come from
    parsed files: each of them holds every attribute. *)
Theorem aggregation_of_parsed_data yd ws date :
  Forall (fun o : option observations =>
            forall obs, o = Some obs -> exists text, parse_gsod_data text = Ok obs) yd ->
  exists row, daily_aggregate yd ws date = Ok row.
Proof.
  intros H. apply daily_aggregate_total, gather_complete.
  eapply Forall_impl; [exact H|]. intros o Ho obs key d -> Hd.
  destruct (Ho obs eq_refl) as (text & Hp).
  exact (parse_gsod_data_complete text obs Hp obs key d eq_refl Hd).
Qed.

End PairingMore.

(* ------------------------------------------------------------------ *)
(** ** record.py: the weighted average *)

Section AggregationMore.
Import Record Spec.

Lemma present_values_weight attribute (daily : list (datum * Q)) v w :
  (v, w) ∈ present_values attribute daily ->
  exists entry, entry ∈ daily /\ entry.2 = w.
Proof.
  unfold present_values. rewrite list_elem_of_omap.
  intros (entry & Hin & H). exists entry. split; [exact Hin|].
  destruct (entry.1 !! attribute) as [[x|]|]; try discriminate.
  now injection H as _ <-.
Qed.

Lemma gather_weight key yd ws (entry : datum * Q) :
  entry ∈ gather key yd ws -> entry.2 ∈ ws.
Proof.
  unfold gather. rewrite list_elem_of_omap.
  intros ([o w] & Hin & H). cbn [fst snd] in H.
  destruct o as [obs|]; [|discriminate].
  destruct (obs !! key); [|discriminate]. injection H as <-. cbn [snd].
  apply list_elem_of_lookup in Hin as [i Hi].
  apply lookup_zip_with_Some in Hi as (x & y & [= <- <-] & _ & Hy).
  apply list_elem_of_lookup. eauto.
Qed.

(** The two sums stay within the bounds of the values. *)
Lemma sums_between lo hi (vw : list (Q * Q)) : forall s t,
  Forall (fun p : Q * Q => 0 <= p.2 /\ lo <= p.1 /\ p.1 <= hi) vw ->
  0 <= t -> lo * t <= s -> s <= hi * t ->
  let s' := foldl Qplus s (map (fun p => p.1 * p.2) vw) in
  let t' := foldl Qplus t (map snd vw) in
  0 <= t' /\ lo * t' <= s' /\ s' <= hi * t'.
Proof.
  induction vw as [|[v w] vw IH]; intros s t Hall Ht Hlo Hhi; cbn [map foldl].
  - auto.
  - apply Forall_cons in Hall as [(Hw & Hv1 & Hv2) Hall]. cbn [fst snd] in *.
    apply IH; [exact Hall| | |].
    + lra.
    + assert (lo * w <= v * w) by (apply Qmult_le_compat_r; assumption). lra.
    + assert (v * w <= hi * w) by (apply Qmult_le_compat_r; assumption). lra.
Qed.

(** X18: With weights that are not negative, the weighted average of an
    attribute lies between any bounds of the values it averages. *)
Theorem weighted_average_between attribute (daily : list (datum * Q)) lo hi x :
  Forall (fun entry : datum * Q => 0 <= entry.2) daily ->
  (forall v w, (v, w) ∈ present_values attribute daily -> lo <= v /\ v <= hi) ->
  weighted_average attribute daily = Ok (Some x) ->
  lo <= x /\ x <= hi.
Proof.
  intros Hw Hv Ha. apply weighted_average_spec in Ha.
  unfold weighted_mean, total_weight, sum_Q in Ha.
  set (vw := present_values attribute daily) in *.
  destruct (Qeq_bool (foldl Qplus 0 (map snd vw)) 0) eqn:E; [discriminate|].
  injection Ha as ->.
  destruct (sums_between lo hi vw 0 0) as (Ht & Hlo & Hhi); try lra.
  { apply Forall_forall. intros [v w] Hin. cbn [fst snd].
    split; [|now apply (Hv v w)].
    apply present_values_weight in Hin as (entry & Hin & <-).
    rewrite Forall_forall in Hw. now apply Hw. }
  cbv zeta in Ht, Hlo, Hhi.
  set (s := foldl Qplus 0 (map (fun p => p.1 * p.2) vw)) in *.
  set (t := foldl Qplus 0 (map snd vw)) in *.
  assert (Hpos : 0 < t).
  { apply Qle_lteq in Ht as [Ht|Ht]; [exact Ht|].
    symmetry in Ht. apply Qeq_bool_iff in Ht. congruence. }
  split.
  - apply Qle_shift_div_l; assumption.
  - apply Qle_shift_div_r; assumption.
Qed.

Lemma sum_zero (l : list Q) : forall a,
  a == 0 -> Forall (fun w => w == 0) l -> foldl Qplus a l == 0.
Proof.
  induction l as [|w l IH]; intros a Ha Hl; cbn [foldl]; [exact Ha|].
  apply Forall_cons in Hl as [Hw Hl]. apply IH; [|exact Hl].
  rewrite Ha, Hw. reflexivity.
Qed.

(** X19: Stations at 50 km or more weigh nothing: a day for which the
    stations in use are all that far is written with every attribute
    absent, whatever they report. *)
Theorem distant_stations_give_absent all_yearly_data distances date (row : aggregate) :
  Forall (fun d => max_station_distance <= d) distances ->
  daily_aggregate all_yearly_data (map distance_weight distances) date = Ok row ->
  forall a, a ∈ attributes -> row !! a = Some None.
Proof.
  intros Hd Hr a Ha.
  rewrite (daily_aggregate_spec _ _ _ _ Hr a Ha). f_equal.
  unfold weighted_mean, total_weight, sum_Q.
  set (vw := present_values a _).
  assert (H0 : foldl Qplus 0 (map snd vw) == 0).
  { apply sum_zero; [reflexivity|].
    apply Forall_forall. intros w Hin.
    apply list_elem_of_fmap in Hin as ([v w'] & -> & Hin). cbn [snd].
    apply present_values_weight in Hin as (entry & Hin & <-).
    apply gather_weight in Hin.
    apply list_elem_of_fmap in Hin as (d & -> & Hin).
    rewrite Forall_forall in Hd. rewrite (distance_weight_far d (Hd d Hin)).
    reflexivity. }
  apply Qeq_bool_iff in H0. now rewrite H0.
Qed.

End AggregationMore.

(* ------------------------------------------------------------------ *)
(** ** record.py: the table written and read *)

Section TableMore.
Import Text Decimal Datetime Record.

Lemma write_cells_outcome (datum : aggregate) attrs :
  ((write_cells datum attrs).2 = Ok tt /\ Forall (fun a => is_Some (datum !! a)) attrs) \/
  ((write_cells datum attrs).2 = Raise (Exception "Corrupted record data") /\
   ~ Forall (fun a => is_Some (datum !! a)) attrs).
Proof.
  induction attrs as [|a attrs IH]; cbn [write_cells].
  - left. split; [reflexivity|constructor].
  - destruct (datum !! a) as [v|] eqn:Ha.
    + destruct (write_cells datum attrs) as [out r]. cbn [snd] in *.
      destruct IH as [[-> H]|[-> H]]; [left|right]; (split; [reflexivity|]).
      * constructor; [rewrite Ha; eauto|exact H].
      * intros H'. apply Forall_cons in H' as [_ H']. contradiction.
    + right. split; [reflexivity|].
      intros H'. apply Forall_cons in H' as [[? H'] _]. congruence.
Qed.

Lemma write_rows_outcome (rows : list (date * aggregate)) :
  ((write_rows rows).2 = Ok tt /\ Forall has_attributes rows) \/
  ((write_rows rows).2 = Raise (Exception "Corrupted record data") /\
   ~ Forall has_attributes rows).
Proof.
  induction rows as [|[d datum] rows IH]; cbn [write_rows].
  - left. split; [reflexivity|constructor].
  - destruct (write_cells_outcome datum attributes) as [[Hc H]|[Hc H]];
      destruct (write_cells datum attributes) as [cells r]; cbn [snd] in Hc; subst r.
    + destruct (write_rows rows) as [out r]. cbn [snd] in *.
      destruct IH as [[-> H']|[-> H']]; [left|right]; (split; [reflexivity|]).
      * constructor; assumption.
      * intros H2. apply Forall_cons in H2 as [_ H2]. contradiction.
    + right. split; [reflexivity|].
      intros H2. apply Forall_cons in H2 as [H2 _]. contradiction.
Qed.

(** X20: Writing the table of a record that has a series succeeds exactly
    when every row holds an entry for each attribute; otherwise it fails
    with the exception for corrupted data, and in no other way. *)
Theorem export_as_csv_outcome {Shape} (self : Record.t Shape) rows :
  data self = Some rows ->
  ((export_as_csv self).2 = Ok tt <-> Forall has_attributes rows) /\
  ((export_as_csv self).2 = Raise (Exception "Corrupted record data") <->
   ~ Forall has_attributes rows).
Proof.
  intros Hd. unfold export_as_csv. rewrite Hd.
  destruct (write_rows_outcome rows) as [[Hr H]|[Hr H]];
    destruct (write_rows rows) as [out r]; cbn [snd] in *; subst r.
  - split; split; try tauto; try discriminate.
  - split; split; try tauto; try discriminate.
Qed.

Lemma elem_of_zip_keys {V} (ks : list string) (vs : list V) a :
  (exists v, (a, v) ∈ zip ks vs) <-> a ∈ take (length vs) ks.
Proof.
  split.
  - intros (v & Hin). apply list_elem_of_lookup in Hin as [i Hi].
    apply lookup_zip_with_Some in Hi as (x & y & [= <- <-] & Hx & Hy).
    apply list_elem_of_lookup. exists i.
    rewrite lookup_take_lt; [exact Hx|]. eapply lookup_lt_Some, Hy.
  - intros Hin. apply list_elem_of_lookup in Hin as [i Hi].
    assert (Hlt : (i < length vs)%nat).
    { destruct (decide (i < length vs)%nat) as [|Hn]; [assumption|].
      rewrite lookup_take_ge in Hi by lia. discriminate. }
    rewrite lookup_take_lt in Hi by exact Hlt.
    destruct (lookup_lt_is_Some_2 vs i Hlt) as [v Hv].
    exists v. apply list_elem_of_lookup. exists i.
    apply lookup_zip_with_Some. eauto.
Qed.

Lemma py_dict_zip_keys {V} (ks : list string) (vs : list V) a :
  is_Some (py_dict (zip ks vs) !! a) <-> a ∈ take (length vs) ks.
Proof.
  rewrite <- elem_of_zip_keys. split.
  - intros [v Hv]. apply py_dict_lookup_last in Hv as (l1 & l2 & -> & _).
    exists v. apply elem_of_app. right. apply list_elem_of_here.
  - intros (v & Hin). eapply py_dict_covers, Hin.
Qed.

Lemma mapM_length {A B} (f : A -> result B) l bs :
  mapM f l = Ok bs -> length bs = length l.
Proof. intros H. apply mapM_ok in H. symmetry. eapply Forall2_length, H. Qed.

(** X21: The reader does not count the cells of a row: a row with fewer
    value cells than attributes is accepted and gives a datum that holds
    the first attributes only; cells beyond the attributes are dropped. *)
Theorem read_row_keys line d (datum : aggregate) :
  read_row line = Ok (d, datum) ->
  let cells := split "," (remove_char space (rstrip line)) in
  forall a, is_Some (datum !! a) <-> a ∈ take (length cells - 1) attributes.
Proof.
  intros H cells a. unfold read_row in H. fold cells in H.
  destruct (strptime_Ymd (hd ""%string cells)) as [d'|]; [|discriminate].
  cbn [bind] in H.
  destruct (mapM read_value (tail cells)) as [values|] eqn:Hv; [|discriminate].
  cbn [bind] in H.
  assert (Hd : py_dict (zip attributes values) = datum) by (now injection H).
  rewrite <- Hd, py_dict_zip_keys. apply mapM_length in Hv. rewrite Hv.
  replace (length (tail cells)) with (length cells - 1)%nat
    by (destruct cells; cbn; lia).
  reflexivity.
Qed.

End TableMore.

Section ReaderMore.
Import Text Decimal Datetime Record.

(** X22: How reading a table can fail: on a file without any text the
    variable of the header loop is unbound; a first line that is not the
    expected header is refused; any failure on a row is a ValueError. *)
Theorem read_from_csv_failures :
  read_from_csv "" = Raise UnboundLocalError /\
  forall content ex,
    read_from_csv content = Raise ex ->
    (ex = UnboundLocalError /\ content = ""%string) \/
    (ex = Exception "Header mismatch" /\
     exists line rest,
       skip_header None (file_lines content) = (Some line, rest) /\
       split "," (remove_char space (lower line)) <> true_rownames) \/
    (ex = ValueError /\
     exists line rest row,
       skip_header None (file_lines content) = (Some line, rest) /\
       split "," (remove_char space (lower line)) = true_rownames /\
       row ∈ rest /\ read_row row = Raise ValueError).
Proof.
  split; [reflexivity|].
  intros content ex H. unfold read_from_csv in H.
  destruct (decide (content = ""%string)) as [->|Hne].
  - left. cbn in H. injection H as <-. auto.
  - right.
    destruct (skip_header_some (file_lines content) None) as (line & rest & Hs).
    { apply lines_keepends_nonempty, universal_newlines_nonempty, Hne. }
    rewrite Hs in H. cbn [of_option bind] in H.
    destruct (bool_decide (split "," (remove_char space (lower line)) = true_rownames))
      eqn:Eh; cbn [negb] in H.
    + right. apply bool_decide_eq_true in Eh.
      apply mapM_raise in H as (row & Hin & Hrow).
      pose proof (read_row_raise _ _ Hrow) as ->.
      split; [reflexivity|]. exists line, rest, row. auto.
    + left. apply bool_decide_eq_false in Eh. injection H as <-.
      split; [reflexivity|]. exists line, rest. auto.
Qed.

Lemma universal_newlines_app a b :
  all_chars (is_not cr) a = true ->
  universal_newlines (a +:+ b) = a +:+ universal_newlines b.
Proof.
  induction a as [|c a IH]; intros H; [reflexivity|].
  cbn [all_chars] in H. apply andb_prop in H as [Hc Ha].
  sapp. cbn [universal_newlines].
  unfold is_not in Hc. apply negb_true_iff in Hc. rewrite Hc.
  now rewrite (IH Ha).
Qed.

(** X23: Whatever messages were logged, the comment lines they make are all
    passed over by the header loop of the reader (messages without
    carriage return). *)
Theorem logged_text_is_skipped msgs rest acc :
  Forall no_cr msgs ->
  let info := foldl log ""%string msgs in
  comment_block info /\
  exists acc',
    skip_header acc (file_lines (info +:+ rest)) = skip_header acc' (file_lines rest).
Proof.
  intros Hm info.
  assert (H : comment_block info /\ no_cr info).
  { unfold info. clear info.
    assert (Hstart : comment_block "" /\ no_cr "") by (split; [constructor|reflexivity]).
    revert Hstart. generalize ""%string.
    induction Hm as [|m msgs Hm' _ IH]; intros s Hs; [exact Hs|].
    cbn [foldl]. apply IH. destruct Hs as [Hb Hc].
    split; [now apply comment_block_log|now apply no_cr_log]. }
  destruct H as [Hb Hc]. split; [exact Hb|].
  unfold file_lines. rewrite (universal_newlines_app _ _ Hc).
  apply skip_header_block, Hb.
Qed.

End ReaderMore.

(* ------------------------------------------------------------------ *)
(** ** csvtable.py: the table of stations *)

Section TableFacts.
Import Text Decimal CsvTable.

Lemma obind_done {A B} (r : outcome A) (k : A -> outcome B) b :
  obind r k = Done b -> exists a, r = Done a /\ k a = Done b.
Proof. destruct r as [a|f]; cbn [obind]; [eauto|discriminate]. Qed.

Lemma from_done_eq {A} (d : A) (r : outcome A) :
  is_done r = true -> r = Done (from_done d r).
Proof. destruct r; [reflexivity|discriminate]. Qed.

Variable float_str : Q -> string.

Lemma add_rows_keyed headers format rows : forall table table',
  keyed float_str table ->
  add_rows float_str headers format rows table = Done table' ->
  keyed float_str table'.
Proof.
  induction rows as [|row rows IH]; intros table table' Ht H; cbn [add_rows] in H.
  - now injection H as <-.
  - apply obind_done in H as (entry & _ & H).
    destruct (StationEntry.is_valid entry) eqn:Hv; cbn [negb] in H.
    + apply obind_done in H as (key & Hk & H).
      eapply IH; [|exact H].
      intros k' e' Hl. destruct (decide (key = k')) as [<-|Hne].
      * rewrite lookup_insert_eq in Hl. injection Hl as <-. auto.
      * rewrite lookup_insert_ne in Hl by exact Hne. now apply Ht.
    + eapply IH; [exact Ht|exact H].
Qed.

(** X24: Every station of the table passed [is_valid] and is stored under
    its own key: it has a non-empty USAF identifier, a WBAN number, and a
    latitude and a longitude that are present and not 0; a row that lacks
    one of them, or lies on the equator or the prime meridian, is not in
    the table. *)
Theorem table_entries_are_valid format csv_rows table key entry :
  build float_str format csv_rows = Done table ->
  table !! key = Some entry ->
  StationEntry.is_valid entry = true /\
  StationEntry.get_key float_str entry = Done key /\
  (exists usaf, StationEntry.usaf entry = Some (CStr usaf) /\ usaf <> ""%string /\
                key = usaf +:+ StationEntry.str float_str (StationEntry.wban entry)) /\
  StationEntry.wban entry <> None /\
  (forall v, v = StationEntry.latitude entry \/ v = StationEntry.longitude entry ->
     v <> None /\ forall x, v = Some (CFloat x) -> ~ x == 0).
Proof.
  intros Hb Hl. unfold build in Hb.
  destruct csv_rows as [|first rows]; [discriminate|].
  assert (Hk : keyed float_str table).
  { eapply add_rows_keyed; [|exact Hb]. intros k e'. rewrite lookup_empty. discriminate. }
  destruct (Hk key entry Hl) as [Hv Hkey].
  split; [exact Hv|]. split; [exact Hkey|].
  unfold StationEntry.is_valid in Hv.
  apply andb_prop in Hv as [Hv Hlat]. apply andb_prop in Hv as [Hv Hlon].
  apply andb_prop in Hv as [Hu Hw].
  split; [|split].
  - unfold StationEntry.get_key, StationEntry.as_key in Hkey.
    destruct (StationEntry.usaf entry) as [[u|x]|]; try discriminate.
    exists u. split; [reflexivity|]. split; [|now injection Hkey as <-].
    intros ->. discriminate Hu.
  - intros Hn. rewrite Hn in Hw. discriminate.
  - intros v [-> | ->]; (split; [intros Hn; rewrite Hn in *; discriminate|]).
    + intros x Hx Hz. rewrite Hx in Hlat. cbn in Hlat.
      apply Qeq_bool_iff in Hz. rewrite Hz in Hlat. discriminate.
    + intros x Hx Hz. rewrite Hx in Hlon. cbn in Hlon.
      apply Qeq_bool_iff in Hz. rewrite Hz in Hlon. discriminate.
Qed.

(** X25: A row with an empty BEGIN cell stops the build with a TypeError,
    whatever its other cells: the dates are parsed when the entry is
    created, before [is_valid] is asked. *)
Theorem empty_begin_aborts headers format row rest table data :
  mapM (fun p : dtype * string => datum_as_type p.1 p.2) (zip format row) = Ok data ->
  let d := py_dict (zip headers data) in
  Forall (fun k => is_Some (d !! k))
    ["stationname"; "usaf"; "wban"; "icao"; "ctry"; "state"; "lat"; "lon"; "elevm"]%string ->
  d !! "begin" = Some None ->
  add_rows float_str headers format (row :: rest) table = Failed TypeError.
Proof.
  intros Hd d Hk Hb. cbn [add_rows]. unfold row_entry. rewrite Hd.
  cbn [of_result obind]. fold d. unfold StationEntry.init, StationEntry.item.
  repeat (apply Forall_cons in Hk as [[? ->] Hk]; cbn [obind]).
  rewrite Hb. reflexivity.
Qed.

Lemma keep_chars_lower s :
  all_chars is_lower s = true -> keep_chars is_alpha s = s.
Proof.
  induction s as [|c s IH]; cbn [all_chars keep_chars]; [reflexivity|].
  intros H. apply andb_prop in H as [Hc Hs].
  replace (is_alpha c) with true; [now rewrite IH|].
  symmetry. unfold is_alpha. unfold is_lower in Hc. rewrite Hc. apply orb_true_r.
Qed.

Lemma lower_char_letter c :
  is_alpha (lower_char c) = true -> is_lower (lower_char c) = true.
Proof. ascii_cases c; vm_compute; congruence. Qed.

Lemma lower_char_lower c : is_lower c = true -> lower_char c = c.
Proof. ascii_cases c; vm_compute; congruence. Qed.

Lemma format_name_lower s : all_chars is_lower (format_name s) = true.
Proof.
  unfold format_name, lower.
  induction s as [|c s IH]; [reflexivity|]. cbn [replace_char].
  destruct (Ascii.eqb c space).
  - sapp. cbn [map_chars keep_chars]. exact IH.
  - cbn [map_chars keep_chars].
    destruct (is_alpha (lower_char c)) eqn:E; [|exact IH].
    cbn [all_chars]. now rewrite (lower_char_letter c E), IH.
Qed.

Lemma format_name_fixed s : all_chars is_lower s = true -> format_name s = s.
Proof.
  unfold format_name, lower.
  induction s as [|c s IH]; [reflexivity|]. cbn [all_chars replace_char].
  intros H. apply andb_prop in H as [Hc Hs].
  replace (Ascii.eqb c space) with false
    by (revert Hc; ascii_cases c; vm_compute; congruence).
  cbn [map_chars keep_chars]. rewrite (lower_char_lower c Hc).
  replace (is_alpha c) with true
    by (symmetry; unfold is_alpha; unfold is_lower in Hc; rewrite Hc; apply orb_true_r).
  now rewrite (IH Hs).
Qed.

(** X26: The name of a column keeps the letters of the header only, in
    lower case: blanks vanish (the underscore that replaces a blank is
    not a letter), so that STATION NAME is read under stationname;
    a name already in that form is kept. *)
Theorem format_name_letters s :
  all_chars is_ascii s = true ->
  all_chars is_lower (format_name s) = true /\
  format_name s = keep_chars is_alpha (lower s) /\
  format_name (remove_char space s) = format_name s /\
  format_name (format_name s) = format_name s.
Proof.
  intros _. split; [apply format_name_lower|].
  split; [|split; [|apply format_name_fixed, format_name_lower]].
  - unfold format_name, lower.
    induction s as [|c s IH]; [reflexivity|]. cbn [replace_char].
    destruct (Ascii.eqb_spec c space) as [->|Hc].
    + sapp. cbn [map_chars keep_chars]. exact IH.
    + cbn [map_chars keep_chars]. now rewrite IH.
  - unfold format_name, lower.
    induction s as [|c s IH]; [reflexivity|]. cbn [replace_char remove_char].
    destruct (Ascii.eqb_spec c space) as [->|Hc].
    + sapp. cbn [map_chars keep_chars]. exact IH.
    + cbn [replace_char]. destruct (Ascii.eqb_spec c space); [contradiction|].
      cbn [map_chars keep_chars]. now rewrite IH.
Qed.

End TableFacts.

(* ------------------------------------------------------------------ *)
(** ** Samples *)

Section AggregationSamples.
Import Record Spec Sample.

Lemma weighted_average_between_witness :
  exists x, weighted_average "temp" (gather "20200101" three_stations three_weights) = Ok (Some x)
            /\ 10 <= x /\ x <= 20.
Proof.
  assert (Hx : weighted_average "temp" (gather "20200101" three_stations three_weights)
               = Ok (Some (10000000 # 750000))) by (vm_compute; reflexivity).
  exists (10000000 # 750000). split; [exact Hx|].
  apply (weighted_average_between "temp"
           (gather "20200101" three_stations three_weights) 10 20 (10000000 # 750000)).
  - repeat constructor; vm_compute; discriminate.
  - intros v w Hin.
    assert (Hpv : present_values "temp" (gather "20200101" three_stations three_weights)
                  = [(10, 0.5); (20, 0.25)]) by (vm_compute; reflexivity).
    rewrite Hpv in Hin.
    apply elem_of_cons in Hin as [[= -> ->]|Hin]; [split; vm_compute; discriminate|].
    apply elem_of_cons in Hin as [[= -> ->]|Hin]; [split; vm_compute; discriminate|].
    now apply elem_of_nil in Hin.
  - exact Hx.
Defined.

Lemma distant_stations_give_absent_witness :
  exists row : aggregate,
    daily_aggregate three_stations (map distance_weight [50; 60; 75]) 737425%Z = Ok row /\
    row !! "temp" = Some None.
Proof.
  pose (row := from_ok ∅ (daily_aggregate three_stations
                            (map distance_weight [50; 60; 75]) 737425%Z)).
  assert (Hr : daily_aggregate three_stations (map distance_weight [50; 60; 75]) 737425%Z
               = Ok row) by (apply from_ok_eq; vm_compute; reflexivity).
  clearbody row. exists row. split; [exact Hr|].
  apply (distant_stations_give_absent three_stations [50; 60; 75] 737425%Z row).
  - repeat constructor; vm_compute; discriminate.
  - exact Hr.
  - unfold attributes. rewrite !elem_of_cons. tauto.
Defined.

End AggregationSamples.

Section PolicySamples.
Import Text Decimal Datetime Station Sample.

Lemma retrieve_obs_cache_policy_witness :
  requests (retrieve_obs env_404 oslo 2020 stale_world).2 = [url oslo 2020] /\
  (retrieve_obs env_404 oslo 2020 stale_world).1 = Ok None /\
  retrieve_obs env_404 oslo 2019 damaged_world
    = (parse_file file_malformed, damaged_world).
Proof.
  destruct (retrieve_obs_cache_policy env_404 oslo 2020 stale_world
              {| content := file_ok; mtime := 1600000000 |}) as [_ H].
  { vm_compute. reflexivity. }
  { vm_compute. reflexivity. }
  destruct H as [Hreq Hhttp]; [split; [reflexivity|vm_compute; reflexivity]|].
  destruct (Hhttp 404%Z eq_refl) as [Hnone _].
  split; [exact Hreq|]. split; [exact Hnone|].
  apply (retrieve_obs_cache_policy env_404 oslo 2019 damaged_world
           {| content := file_malformed; mtime := 1580000000 |}).
  - vm_compute. reflexivity.
  - vm_compute. reflexivity.
  - left. cbn. lia.
Defined.

Lemma cutoff_only_removes_witness :
  (bergen, border_distance numpy shapely region bergen)
    ∈ from_ok [] (find_stations_in_geometry numpy shapely [oslo; bergen] region 25
                    sample_start sample_end).
Proof.
  pose (full := from_ok [] (find_stations_unpruned numpy shapely [oslo; bergen] region 25
                              sample_start sample_end)).
  assert (Hfull : find_stations_unpruned numpy shapely [oslo; bergen] region 25
                    sample_start sample_end = Ok full)
    by (apply from_ok_eq; vm_compute; reflexivity).
  assert (Hin : (bergen, border_distance numpy shapely region bergen) ∈ full).
  { assert (Hc : full = [(oslo, 0); (bergen, border_distance numpy shapely region bergen)])
      by (vm_compute; reflexivity).
    rewrite Hc. apply list_elem_of_further, list_elem_of_here. }
  clearbody full.
  apply (cutoff_only_removes numpy shapely [oslo; bergen] region 25 sample_start sample_end
           _ full (from_ok 0 (cutoff numpy shapely region 25))).
  - apply from_ok_eq. vm_compute. reflexivity.
  - exact Hfull.
  - apply from_ok_eq. vm_compute. reflexivity.
  - split; [exact Hin|]. vm_compute. discriminate.
Defined.

End PolicySamples.

Section MoreSamples.
Import Text Decimal Datetime Record Spec Station Sample.

Lemma get_stations_filter_witness :
  oslo ∈ get_stations [oslo; bergen] sample_start sample_end /\
  get_stations [oslo; bergen] (Some 738885%Z) None = [].
Proof.
  destruct (get_stations_filter [oslo; bergen] sample_start sample_end) as [_ H].
  split.
  - apply H. split; [apply list_elem_of_here|].
    split; intros d [= <-]; vm_compute; reflexivity.
  - vm_compute. reflexivity.
Defined.

Lemma retrieve_obs_served_from_cache_witness :
  let first := retrieve_obs env_up oslo 2019 empty_world in
  fs first.2 !! filepath oslo 2019 = Some {| content := file_ok; mtime := now env_up |} /\
  requests first.2 = requests empty_world ++ [url oslo 2019] /\
  first.1 = parse_file file_ok /\
  retrieve_obs env_404 oslo 2019 first.2 = (parse_file file_ok, first.2).
Proof.
  apply (retrieve_obs_served_from_cache env_up env_404 oslo 2019 empty_world file_ok).
  - vm_compute. reflexivity.
  - vm_compute. reflexivity.
  - reflexivity.
  - left. cbn. lia.
Defined.

Lemma parse_gsod_data_last_line_wins_witness :
  exists obs d,
    parse_gsod_data file_revised = Ok obs /\
    parse_line line_revised = Ok ("20200101"%string, d) /\
    obs !! "20200101" = Some d /\
    d !! "temp" = Some (Some (PFloat 26.3)).
Proof.
  pose (obs := from_ok ∅ (parse_gsod_data file_revised)).
  assert (Ho : parse_gsod_data file_revised = Ok obs)
    by (apply from_ok_eq; vm_compute; reflexivity).
  clearbody obs.
  destruct (parse_gsod_data_last_line_wins file_revised obs [line_ok] line_revised [] Ho)
    as (d & Hd & Hl).
  - vm_compute. reflexivity.
  - constructor.
  - exists obs, d. split; [exact Ho|]. split; [exact Hd|]. split; [exact Hl|].
    assert (Ht : match parse_line line_revised with
                 | Ok kd => kd.2 !! "temp"
                 | Raise _ => None
                 end = Some (Some (PFloat 26.3))) by (vm_compute; reflexivity).
    rewrite Hd in Ht. exact Ht.
Defined.

Lemma short_line_aborts_witness :
  raises (parse_line line_truncated) = true /\
  raises (parse_gsod_data file_malformed) = true.
Proof.
  destruct (short_line_aborts line_truncated) as [Hp Hf]; [vm_compute; lia|].
  split; [exact Hp|]. apply Hf.
  rewrite data_lines_file_malformed. apply list_elem_of_further, list_elem_of_here.
Defined.

Lemma parse_gsod_data_header_only_witness :
  parse_gsod_data header = Ok ∅.
Proof. apply parse_gsod_data_header_only. vm_compute. reflexivity. Defined.

Lemma find_stations_in_geometry_result_witness :
  exists closest,
    find_stations_in_geometry numpy shapely [oslo; bergen] region 25
      sample_start sample_end = Ok closest /\
    StronglySorted (fun a b : station * Q => a.2 <= b.2) closest.
Proof.
  pose (closest := from_ok [] (find_stations_in_geometry numpy shapely [oslo; bergen]
                                 region 25 sample_start sample_end)).
  assert (Hf : find_stations_in_geometry numpy shapely [oslo; bergen] region 25
                 sample_start sample_end = Ok closest)
    by (apply from_ok_eq; vm_compute; reflexivity).
  clearbody closest. exists closest. split; [exact Hf|].
  exact (proj1 (find_stations_in_geometry_result numpy shapely _ _ _ _ _ _ Hf)).
Defined.

Lemma found_stations_have_weight_witness :
  0 < distance_weight (border_distance numpy shapely region bergen) /\
  distance_weight (border_distance numpy shapely region bergen) <= 1.
Proof.
  pose (closest := from_ok [] (find_stations_in_geometry numpy shapely [oslo; bergen]
                                 region 25 sample_start sample_end)).
  assert (Hf : find_stations_in_geometry numpy shapely [oslo; bergen] region 25
                 sample_start sample_end = Ok closest)
    by (apply from_ok_eq; vm_compute; reflexivity).
  assert (Hin : (bergen, border_distance numpy shapely region bergen) ∈ closest).
  { assert (Hc : closest = [(bergen, border_distance numpy shapely region bergen)])
      by (vm_compute; reflexivity).
    rewrite Hc. apply list_elem_of_here. }
  clearbody closest.
  apply (found_stations_have_weight numpy shapely [oslo; bergen] region 25
           sample_start sample_end closest bergen _ Hf).
  - vm_compute. discriminate.
  - exact Hin.
  - vm_compute. discriminate.
Defined.

Lemma pruned_keeps_nearest_witness :
  exists closest rest,
    found numpy shapely [oslo; bergen] record_3days = Ok closest /\
    closest = pruned 12 closest ++ rest /\
    length (pruned 12 closest) = 1%nat.
Proof.
  pose (closest := from_ok [] (found numpy shapely [oslo; bergen] record_3days)).
  assert (Hf : found numpy shapely [oslo; bergen] record_3days = Ok closest)
    by (apply from_ok_eq; vm_compute; reflexivity).
  assert (Hlen : length closest = 1%nat) by (vm_compute; reflexivity).
  clearbody closest.
  destruct (pruned_keeps_nearest numpy shapely [oslo; bergen] record_3days closest Hf)
    as (rest & Hc & _ & Hl).
  change (max_stations record_3days) with 12%Z in Hc, Hl.
  exists closest, rest. split; [exact Hf|]. split; [exact Hc|].
  rewrite Hl, Hlen. reflexivity.
Defined.

Lemma build_without_allowed_station_witness :
  build numpy shapely [oslo; bergen] env_up record_no_station empty_world
    = (Raise ValueError, empty_world).
Proof.
  pose (closest := from_ok [] (found numpy shapely [oslo; bergen] record_no_station)).
  assert (Hf : found numpy shapely [oslo; bergen] record_no_station = Ok closest)
    by (apply from_ok_eq; vm_compute; reflexivity).
  assert (Hlen : length closest = 1%nat) by (vm_compute; reflexivity).
  clearbody closest.
  apply (build_without_allowed_station numpy shapely [oslo; bergen] env_up
           record_no_station empty_world closest Hf).
  - intros ->. discriminate Hlen.
  - left. reflexivity.
Defined.

Lemma build_empty_range_witness :
  exists r, build numpy shapely [oslo; bergen] env_up record_backwards empty_world
              = (Ok r, empty_world) /\ data r = Some [].
Proof.
  pose (closest := from_ok [] (found numpy shapely [oslo; bergen] record_backwards)).
  assert (Hf : found numpy shapely [oslo; bergen] record_backwards = Ok closest)
    by (apply from_ok_eq; vm_compute; reflexivity).
  assert (Hlen : length closest = 1%nat) by (vm_compute; reflexivity).
  clearbody closest.
  apply (build_empty_range numpy shapely [oslo; bergen] env_up
           record_backwards empty_world closest Hf).
  - intros ->. discriminate Hlen.
  - cbn. lia.
  - cbn. lia.
Defined.

Lemma one_retrieval_per_year_witness :
  exists rows w' urls,
    gather_days env_up [oslo; bergen] [1; 0.5] 2 737425%Z (-1)%Z [] [] empty_world
      = (Ok rows, w') /\
    requests w' = urls /\
    urls ⊆+ [url oslo 2020; url bergen 2020].
Proof.
  destruct (gather_days_total env_up [oslo; bergen] [1; 0.5] 2 737425%Z (-1)%Z [] []
              empty_world good_env_up good_empty_world)
    as (rows & w' & Hg).
  - constructor.
  - lia.
  - unfold MAXORDINAL. lia.
  - assert (Hy : forall k, (0 <= k <= 1)%Z -> year (737425 + k)%Z = year 737425%Z).
    { intros k Hk. assert (k = 0 \/ k = 1)%Z as [-> | ->] by lia; vm_compute; reflexivity. }
    destruct (one_retrieval_per_year env_up [oslo; bergen] [1; 0.5] 1 737425%Z []
                empty_world rows w') as (urls & Hr & Hs & _).
    + lia.
    + exact Hy.
    + exact Hg.
    + exists rows, w', urls. split; [exact Hg|]. split; [exact Hr|exact Hs].
Defined.


Lemma aggregation_of_parsed_data_witness :
  exists obs row,
    parse_gsod_data file_ok = Ok obs /\
    daily_aggregate [Some obs; None] [1; 0.5] 737425%Z = Ok row.
Proof.
  pose (obs := from_ok ∅ (parse_gsod_data file_ok)).
  assert (Ho : parse_gsod_data file_ok = Ok obs)
    by (apply from_ok_eq; vm_compute; reflexivity).
  clearbody obs.
  destruct (aggregation_of_parsed_data [Some obs; None] [1; 0.5] 737425%Z) as (row & Hr).
  - constructor; [intros ? [= <-]; eauto|].
    constructor; [discriminate|constructor].
  - exists obs, row. auto.
Defined.

Lemma export_as_csv_outcome_witness :
  (export_as_csv record_corrupted).2 = Raise (Exception "Corrupted record data").
Proof.
  apply (export_as_csv_outcome record_corrupted [(737425%Z, ∅)] eq_refl).
  intros H. apply Forall_cons in H as [H _].
  apply Forall_cons in H as [[v H] _]. cbn in H. rewrite lookup_empty in H. discriminate.
Defined.

Lemma read_row_keys_witness :
  exists d (datum : aggregate),
    read_row short_row = Ok (d, datum) /\
    is_Some (datum !! "temp") /\ datum !! "max" = None.
Proof.
  pose (r := from_ok (0%Z, ∅) (read_row short_row)).
  assert (Hr : read_row short_row = Ok r) by (apply from_ok_eq; vm_compute; reflexivity).
  clearbody r. destruct r as [d datum]. exists d, datum. split; [exact Hr|].
  pose proof (read_row_keys short_row d datum Hr) as H. cbv zeta in H.
  replace (length (split "," (remove_char space (rstrip short_row))) - 1)%nat
    with 2%nat in H by (vm_compute; reflexivity).
  split.
  - apply H. cbn. apply list_elem_of_further, list_elem_of_here.
  - apply eq_None_not_Some. rewrite H. cbn. rewrite !elem_of_cons, elem_of_nil.
    intros [?|[?|[]]]; discriminate.
Defined.

Lemma read_from_csv_failures_witness :
  read_from_csv bad_row_file = Raise ValueError /\
  exists line rest row,
    skip_header None (file_lines bad_row_file) = (Some line, rest) /\
    row ∈ rest /\ read_row row = Raise ValueError.
Proof.
  assert (Hr : read_from_csv bad_row_file = Raise ValueError) by (vm_compute; reflexivity).
  split; [exact Hr|].
  destruct read_from_csv_failures as [_ H].
  destruct (H bad_row_file ValueError Hr) as [[H1 _]|[[H1 _]|[_ H1]]];
    [discriminate H1|discriminate H1|].
  destruct H1 as (line & rest & row & Hs & _ & Hin & Hrow).
  exists line, rest, row. auto.
Defined.

Lemma logged_text_is_skipped_witness :
  exists acc',
    skip_header None
      (file_lines (foldl log "" ["LONDON"; String "a" (String nl "b")]%string +:+ header_row))
    = skip_header acc' (file_lines header_row).
Proof.
  apply (logged_text_is_skipped ["LONDON"; String "a" (String nl "b")]%string header_row None).
  repeat constructor.
Defined.

End MoreSamples.

Section TableSamples.
Import Text Decimal Sample CsvTable.

Lemma table_entries_are_valid_witness :
  exists table entry,
    build float_str station_format [catalogue_header; row_jan_mayen; row_greenwich]
      = Done table /\
    table !! "01001099999" = Some entry /\
    StationEntry.is_valid entry = true /\
    StationEntry.get_key float_str entry = Done "01001099999"%string /\
    table !! "03776099999" = None.
Proof.
  pose (r := build float_str station_format [catalogue_header; row_jan_mayen; row_greenwich]).
  pose (table := from_done ∅ r).
  assert (Hb : r = Done table) by (apply from_done_eq; vm_compute; reflexivity).
  assert (Hs : is_Some (table !! "01001099999"))
    by (apply is_Some_alt; vm_compute; exact I).
  assert (Hn : table !! "03776099999" = None)
    by (apply eq_None_not_Some; rewrite is_Some_alt; vm_compute; exact id).
  clearbody table. destruct Hs as [entry Hl]. exists table, entry.
  split; [exact Hb|]. split; [exact Hl|].
  destruct (table_entries_are_valid float_str station_format _ table _ entry Hb Hl)
    as (Hv & Hk & _).
  split; [exact Hv|]. split; [exact Hk|exact Hn].
Defined.

Lemma empty_begin_aborts_witness :
  build float_str station_format [catalogue_header; row_no_begin; row_jan_mayen]
    = Failed TypeError.
Proof.
  unfold build.
  pose (data := from_ok [] (mapM (fun p : dtype * string => datum_as_type p.1 p.2)
                              (zip station_format row_no_begin))).
  apply (empty_begin_aborts float_str (map format_name catalogue_header) station_format
           row_no_begin [row_jan_mayen] ∅ data).
  - apply from_ok_eq. vm_compute. reflexivity.
  - repeat constructor; vm_compute; eauto.
  - vm_compute. reflexivity.
Defined.

Lemma format_name_letters_witness :
  format_name "STATION NAME" = "stationname"%string /\
  format_name "ELEV(M)" = "elevm"%string /\
  format_name (format_name "STATION NAME") = format_name "STATION NAME".
Proof.
  split; [vm_compute; reflexivity|]. split; [vm_compute; reflexivity|].
  apply (format_name_letters "STATION NAME"). vm_compute. reflexivity.
Defined.

End TableSamples.
